(** * The FAISS C boundary layer (faiss_c_impl.cpp), embedded in Rocq

    The facade is a set of [extern "C"] functions.  Each one wraps one or a
    few calls into the search engine in a [try { ... } CATCH_AND_HANDLE()]
    block and reports an [int] status.  The engine itself (class layout,
    index algorithms, file format) is not part of the facade: it is taken
    here as a parameter, a function interpreting the engine calls the
    facade issues over a world that holds the objects the facade can see. *)

From Stdlib Require Import ZArith Bool.
From stdpp Require Import base option list gmap strings.

Local Open Scope Z_scope.

(** ** Machine integers *)

Definition wrap_signed (bits : Z) (z : Z) : Z :=
  (z + 2 ^ (bits - 1)) mod 2 ^ bits - 2 ^ (bits - 1).

Definition to_int (z : Z) : Z := wrap_signed 32 z.
Definition to_int64 (z : Z) : Z := wrap_signed 64 z.
Definition to_size_t (z : Z) : Z := z mod 2 ^ 64.

(** ** Engine types named by the facade *)

Inductive MetricType := METRIC_INNER_PRODUCT | METRIC_L2.

(** The [metric_type] member stored into an [int]: the values of the
    enumerators. *)
Definition metric_to_int (m : MetricType) : Z :=
  match m with METRIC_INNER_PRODUCT => 0 | METRIC_L2 => 1 end.

(** The classes the facade constructs or casts to.  [EngineClass] stands
    for any other class of the engine (an index read back from a file may
    have one). *)
Inductive CxxClass :=
  | IndexFlatL2 | IndexFlatIP | IndexIVF | IndexIVFFlat | IndexIVFPQ
  | IndexHNSW | IndexHNSWFlat | IndexPQ | IndexIDMap
  | IndexScalarQuantizer | IndexIVFScalarQuantizer | IndexLSH
  | IndexRefine | IndexPreTransform | IndexShards
  | IndexBinaryFlat | IndexBinaryIVF | IndexBinaryHash
  | EngineClass (name : string).

#[global] Instance CxxClass_eq_dec : EqDecision CxxClass.
Proof. solve_decision. Defined.
#[global] Instance MetricType_eq_dec : EqDecision MetricType.
Proof. solve_decision. Defined.

(** Handles are the pointers crossing the boundary; 0 is the null pointer. *)
Definition handle := Z.
Definition NULL : handle := 0.

(** The types the engine owns.  [float] values are only moved around by
    the facade, never computed with; [EngineState] is the engine's private
    state (stored vectors, graphs, files, ...). *)
Class EngineTypes := {
  float : Type;
  EngineState : Type;
}.

Section Model.
Context {ET : EngineTypes}.

(** *** Objects as the facade sees them

    Only the members the facade reads or writes are modelled; everything
    else an object holds belongs to the engine's private state. *)

Record Index := mkIndex {
  dyn_class : CxxClass;
  d : Z;
  ntotal : Z;
  is_trained : bool;
  metric_type : MetricType;
  nprobe : Z;              (* IndexIVF::nprobe, a size_t *)
  efConstruction : Z;      (* IndexHNSW::hnsw.efConstruction, an int *)
  efSearch : Z;            (* IndexHNSW::hnsw.efSearch, an int *)
  k_factor : float;        (* IndexRefine::k_factor *)
}.

Record IndexBinary := mkIndexBinary {
  bdyn_class : CxxClass;
  bntotal : Z;
  bis_trained : bool;
  bnprobe : Z;             (* IndexBinaryIVF::nprobe, a size_t *)
}.

Record Clustering := mkClustering {
  cd : Z;
  ck : Z;
  niter : Z;
  verbose : bool;
  seed : Z;
  centroids : list float;
}.

Record RangeSearchResult := mkRangeSearchResult {
  lims : list Z;
  labels : list Z;
  distances : list float;
}.

Record World := mkWorld {
  indexes : gmap Z Index;
  binaries : gmap Z IndexBinary;
  clusterings : gmap Z Clustering;
  range_results : gmap Z RangeSearchResult;
  engine_state : EngineState;
}.

Definition set_indexes (m : gmap Z Index) (w : World) : World :=
  mkWorld m (binaries w) (clusterings w) (range_results w) (engine_state w).
Definition set_binaries (m : gmap Z IndexBinary) (w : World) : World :=
  mkWorld (indexes w) m (clusterings w) (range_results w) (engine_state w).
Definition set_clusterings (m : gmap Z Clustering) (w : World) : World :=
  mkWorld (indexes w) (binaries w) m (range_results w) (engine_state w).

(** ** Outcomes

    A computation returns, throws a C++ exception, or has undefined
    behaviour (a dereference of a pointer that designates no object). *)

Inductive Res (A : Type) :=
  | Ok (a : A) (w : World)
  | Throw (w : World)
  | UB.
Arguments Ok {A} a w.
Arguments Throw {A} w.
Arguments UB {A}.

Definition Eff (A : Type) : Type := World -> Res A.

Definition ret {A} (a : A) : Eff A := fun w => Ok a w.

Definition bind {A B} (m : Eff A) (k : A -> Eff B) : Eff B :=
  fun w => match m w with
           | Ok a w' => k a w'
           | Throw w' => Throw w'
           | UB => UB
           end.

Definition undefined {A} : Eff A := fun _ => UB.
Definition get_world : Eff World := fun w => Ok w w.
Definition modify (f : World -> World) : Eff unit := fun w => Ok tt (f w).

Definition fmap {A B} (f : A -> B) (m : Eff A) : Eff B :=
  bind m (fun a => ret (f a)).

(** [try { body } catch ... { handler }] *)
Definition catch {R} (body : Eff R) (handler : Eff R) : Eff R :=
  fun w => match body w with
           | Ok r w' => Ok r w'
           | Throw w' => handler w'
           | UB => UB
           end.

(** A block that owns an automatic object: the destructor runs when the
    block is left, also when it is left by an exception.  Destructors are
    [noexcept]; one that throws ends the program, which is outside the
    model as undefined behaviour is. *)
Definition scoped {R} (body : Eff R) (destroy : Eff unit) : Eff R :=
  fun w => match body w with
           | Ok r w' =>
               match destroy w' with Ok _ w'' => Ok r w'' | _ => UB end
           | Throw w' =>
               match destroy w' with Ok _ w'' => Throw w'' | _ => UB end
           | UB => UB
           end.

(** ** Engine calls issued by the facade *)

Inductive IDSelector := IDSelectorBatch (n : Z) (ids : list Z).

Inductive Call : Type -> Type :=
  (* index constructors: new faiss::X(args) *)
  | New_IndexFlatL2 (d : Z) : Call handle
  | New_IndexFlatIP (d : Z) : Call handle
  | New_IndexIVFFlat (quantizer : handle) (d nlist : Z) (metric : MetricType)
      : Call handle
  | New_IndexHNSWFlat (d M : Z) (metric : MetricType) : Call handle
  | New_IndexPQ (d M nbits : Z) (metric : MetricType) : Call handle
  (* [metric = None]: the argument is left to the constructor's default *)
  | New_IndexIVFPQ (quantizer : handle) (d nlist M nbits : Z)
      (metric : option MetricType) : Call handle
  | New_IndexIDMap (base_index : handle) : Call handle
  | New_IndexScalarQuantizer (d qt : Z) (metric : MetricType) : Call handle
  | New_IndexIVFScalarQuantizer (quantizer : handle) (d nlist qt : Z)
      (metric : MetricType) : Call handle
  | New_IndexLSH (d nbits : Z) (rotate_data train_thresholds : bool)
      : Call handle
  | New_IndexRefine (base_index refine_index : handle) : Call handle
  | New_IndexPreTransform (transform base_index : handle) : Call handle
  | New_IndexShards (d : Z) (threaded successive_ids : bool) : Call handle
  | New_IndexBinaryFlat (d : Z) : Call handle
  | New_IndexBinaryIVF (quantizer : handle) (d nlist : Z) : Call handle
  | New_IndexBinaryHash (d nbits : Z) : Call handle
  (* other constructors *)
  | New_PCAMatrix (d_in d_out : Z) (eigen_power : float)
      (random_rotation : bool) : Call handle
  | New_OPQMatrix (d M : Z) : Call handle
  | New_RandomRotationMatrix (d_in d_out : Z) : Call handle
  | New_Clustering (d k : Z) : Call handle
  | New_RangeSearchResult (n : Z) : Call handle
  | New_IDSelectorBatch (n : Z) (ids : list Z) : Call IDSelector
  | Local_IndexFlatL2 (d : Z) : Call handle
  | Local_vector_float (n : Z) : Call unit
  | Local_VectorIOReader (size : Z) : Call unit
  (* destructors *)
  | Delete_Index (index : handle) : Call unit
  | Delete_IndexBinary (index : handle) : Call unit
  | Delete_VectorTransform (transform : handle) : Call unit
  | Delete_Clustering (kmeans : handle) : Call unit
  | Delete_RangeSearchResult (result : handle) : Call unit
  | Destroy_Local_IndexFlatL2 (index : handle) : Call unit
  (* faiss::Index virtual methods *)
  | Index_add (index : handle) (n : Z) (x : list float) : Call unit
  | Index_add_with_ids (index : handle) (n : Z) (x : list float)
      (ids : list Z) : Call unit
  | Index_search (index : handle) (n : Z) (x : list float) (k : Z)
      : Call (list float * list Z)
  | Index_range_search (index : handle) (n : Z) (x : list float)
      (radius : float) (result : handle) : Call unit
  | Index_train (index : handle) (n : Z) (x : list float) : Call unit
  | Index_assign (index : handle) (n : Z) (x : list float) : Call (list Z)
  | Index_reconstruct (index : handle) (key : Z) : Call (list float)
  | Index_reconstruct_n (index : handle) (i0 ni : Z) : Call (list float)
  | Index_reset (index : handle) : Call unit
  | Index_remove_ids (index : handle) (sel : IDSelector) : Call Z
  | IndexShards_add_shard (index shard : handle) : Call unit
  (* faiss::IndexBinary virtual methods *)
  | IndexBinary_add (index : handle) (n : Z) (x : list Byte.byte) : Call unit
  | IndexBinary_search (index : handle) (n : Z) (x : list Byte.byte) (k : Z)
      : Call (list Z * list Z)
  | IndexBinary_train (index : handle) (n : Z) (x : list Byte.byte)
      : Call unit
  | IndexBinary_reset (index : handle) : Call unit
  (* index_io *)
  | write_index_file (index : handle) (filename : string) : Call unit
  | read_index_file (filename : string) : Call handle
  | write_index_writer (index : handle) : Call (list Byte.byte)
  | read_index_reader (data : list Byte.byte) : Call handle
  (* the C allocator: [true] when the block was obtained *)
  | Malloc (size : Z) : Call bool
  (* transforms and clustering *)
  | RandomRotationMatrix_init (transform : handle) (seed : Z) : Call unit
  | VectorTransform_train (transform : handle) (n : Z) (x : list float)
      : Call unit
  | VectorTransform_apply_noalloc (transform : handle) (n : Z)
      (x : list float) : Call (list float)
  | VectorTransform_reverse_transform (transform : handle) (n : Z)
      (xt : list float) : Call (list float)
  | Clustering_train (kmeans : handle) (n : Z) (x : list float)
      (index : handle) : Call unit
  (* faiss::gpu, only in a build with FAISS_GPU *)
  | New_StandardGpuResources : Call handle
  | Delete_StandardGpuResources (res : handle) : Call unit
  | StandardGpuResources_setTempMemory (res : handle) (bytes : Z) : Call unit
  | StandardGpuResources_setDefaultNullStreamAllDevices (res : handle)
      : Call unit
  | New_GpuIndexFlat (res : handle) (d : Z) (metric : MetricType)
      (device : Z) : Call handle
  | New_GpuIndexIVFFlat (res : handle) (d nlist : Z) (metric : MetricType)
      (device : Z) : Call handle
  | gpu_index_cpu_to_gpu (res : handle) (device : Z) (cpu_index : handle)
      : Call handle
  | gpu_index_gpu_to_cpu (gpu_index : handle) : Call handle
  | gpu_index_cpu_to_all_gpus (cpu_index : handle) : Call handle
  | gpu_getNumDevices : Call Z.

(** The engine: what each call does to the world, and which casts between
    its classes succeed ([derives c t]: an object of dynamic class [c] is
    a [t]). *)
Class Engine := {
  engine : forall A, Call A -> Eff A;
  derives : CxxClass -> CxxClass -> bool;
}.

End Model.

Arguments Ok {ET A} a w.
Arguments Throw {ET A} w.
Arguments UB {ET A}.
Arguments engine {ET Engine A} c w.

Notation "'do' x <- m ; k" := (bind m (fun x => k))
  (at level 10, x name, m at level 100, k at level 200,
   format "'[v' 'do'  x  <-  m ; '/' k ']'").
Notation "'do_' m ; k" := (bind m (fun _ => k))
  (at level 10, m at level 100, k at level 200,
   format "'[v' 'do_'  m ; '/' k ']'").

(** * The facade *)

Section Facade.
Context {ET : EngineTypes} {E : Engine}.

(** ** Helpers *)

(** [#define CATCH_AND_HANDLE()]: both handlers return -1; [fail] is that
    status together with the output parameters left as they were. *)
Definition CATCH_AND_HANDLE {R} (fail : R) (body : Eff R) : Eff R :=
  catch body (ret fail).

Definition failure {A} : Z * option A := (-1, None).

(** [index->member]: the pointer must designate a live object. *)
Definition deref_index (index : handle) : Eff Index :=
  fun w => match indexes w !! index with
           | Some o => Ok o w
           | None => UB
           end.

Definition deref_binary (index : handle) : Eff IndexBinary :=
  fun w => match binaries w !! index with
           | Some o => Ok o w
           | None => UB
           end.

Definition deref_clustering (kmeans : handle) : Eff Clustering :=
  fun w => match clusterings w !! kmeans with
           | Some o => Ok o w
           | None => UB
           end.

Definition deref_range_result (result : handle) : Eff RangeSearchResult :=
  fun w => match range_results w !! result with
           | Some o => Ok o w
           | None => UB
           end.

Definition store_index (index : handle) (o : Index) : Eff unit :=
  modify (fun w => set_indexes (<[index := o]> (indexes w)) w).

Definition store_binary (index : handle) (o : IndexBinary) : Eff unit :=
  modify (fun w => set_binaries (<[index := o]> (binaries w)) w).

Definition store_clustering (kmeans : handle) (o : Clustering) : Eff unit :=
  modify (fun w => set_clusterings (<[kmeans := o]> (clusterings w)) w).

(** [dynamic_cast<faiss::T*>(index)]: null for a null pointer and for an
    object that is not a [T]. *)
Definition dynamic_cast (t : CxxClass) (index : handle) : Eff (option Index) :=
  if decide (index = NULL) then ret None
  else do o <- deref_index index;
       ret (if derives (dyn_class o) t then Some o else None).

Definition dynamic_cast_binary (t : CxxClass) (index : handle)
  : Eff (option IndexBinary) :=
  if decide (index = NULL) then ret None
  else do o <- deref_binary index;
       ret (if derives (bdyn_class o) t then Some o else None).

(** [metric_type == 0 ? faiss::METRIC_INNER_PRODUCT : faiss::METRIC_L2] *)
Definition metric_of (metric_type : Z) : MetricType :=
  if decide (metric_type = 0) then METRIC_INNER_PRODUCT else METRIC_L2.

(** ** Flat index functions *)

Definition faiss_IndexFlatL2_new_try (d : Z) : Eff (Z * option handle) :=
  do p <- engine (New_IndexFlatL2 d);
  ret (0, Some p).

Definition faiss_IndexFlatL2_new (d : Z) : Eff (Z * option handle) :=
  CATCH_AND_HANDLE failure (faiss_IndexFlatL2_new_try d).

Definition faiss_IndexFlatIP_new_try (d : Z) : Eff (Z * option handle) :=
  do p <- engine (New_IndexFlatIP d);
  ret (0, Some p).

Definition faiss_IndexFlatIP_new (d : Z) : Eff (Z * option handle) :=
  CATCH_AND_HANDLE failure (faiss_IndexFlatIP_new_try d).

(** ** IVF index functions *)

Definition faiss_IndexIVFFlat_new_try (quantizer : handle) (d nlist : Z)
    (metric_type : Z)
  : Eff (Z * option handle) :=
  let metric := metric_of metric_type in
  do p <- engine (New_IndexIVFFlat quantizer d nlist metric);
  ret (0, Some p).

Definition faiss_IndexIVFFlat_new (quantizer : handle) (d nlist : Z)
    (metric_type : Z)
  : Eff (Z * option handle) :=
  CATCH_AND_HANDLE failure (faiss_IndexIVFFlat_new_try quantizer d nlist
      metric_type).

Definition faiss_IndexIVF_set_nprobe_try (index : handle) (nprobe' : Z)
  : Eff Z :=
  do ivf <- dynamic_cast IndexIVF index;
  match ivf with
  | None => ret (-1)
  | Some o =>
      do_ store_index index
            (mkIndex (dyn_class o) (d o) (ntotal o) (is_trained o)
               (metric_type o) (to_size_t nprobe') (efConstruction o)
               (efSearch o) (k_factor o));
      ret 0
  end.

Definition faiss_IndexIVF_set_nprobe (index : handle) (nprobe' : Z) : Eff Z :=
  CATCH_AND_HANDLE (-1) (faiss_IndexIVF_set_nprobe_try index nprobe').

Definition faiss_IndexIVF_get_nprobe_try (index : handle)
  : Eff (Z * option Z) :=
  do ivf <- dynamic_cast IndexIVF index;
  match ivf with
  | None => ret (-1, None)
  | Some o => ret (0, Some (to_int64 (nprobe o)))
  end.

Definition faiss_IndexIVF_get_nprobe (index : handle) : Eff (Z * option Z) :=
  CATCH_AND_HANDLE failure (faiss_IndexIVF_get_nprobe_try index).

(** ** HNSW index functions *)

Definition faiss_IndexHNSWFlat_new_try (d M : Z) (metric_type : Z)
  : Eff (Z * option handle) :=
  let metric := metric_of metric_type in
  do p <- engine (New_IndexHNSWFlat d M metric);
  ret (0, Some p).

Definition faiss_IndexHNSWFlat_new (d M : Z) (metric_type : Z)
  : Eff (Z * option handle) :=
  CATCH_AND_HANDLE failure (faiss_IndexHNSWFlat_new_try d M metric_type).

Definition faiss_IndexHNSW_set_efConstruction_try (index : handle) (ef : Z)
  : Eff Z :=
  do hnsw <- dynamic_cast IndexHNSW index;
  match hnsw with
  | None => ret (-1)
  | Some o =>
      do_ store_index index
            (mkIndex (dyn_class o) (d o) (ntotal o) (is_trained o)
               (metric_type o) (nprobe o) ef (efSearch o) (k_factor o));
      ret 0
  end.

Definition faiss_IndexHNSW_set_efConstruction (index : handle) (ef : Z)
  : Eff Z :=
  CATCH_AND_HANDLE (-1) (faiss_IndexHNSW_set_efConstruction_try index ef).

Definition faiss_IndexHNSW_set_efSearch_try (index : handle) (ef : Z)
  : Eff Z :=
  do hnsw <- dynamic_cast IndexHNSW index;
  match hnsw with
  | None => ret (-1)
  | Some o =>
      do_ store_index index
            (mkIndex (dyn_class o) (d o) (ntotal o) (is_trained o)
               (metric_type o) (nprobe o) (efConstruction o) ef
               (k_factor o));
      ret 0
  end.

Definition faiss_IndexHNSW_set_efSearch (index : handle) (ef : Z) : Eff Z :=
  CATCH_AND_HANDLE (-1) (faiss_IndexHNSW_set_efSearch_try index ef).

Definition faiss_IndexHNSW_get_efConstruction_try (index : handle)
  : Eff (Z * option Z) :=
  do hnsw <- dynamic_cast IndexHNSW index;
  match hnsw with
  | None => ret (-1, None)
  | Some o => ret (0, Some (efConstruction o))
  end.

Definition faiss_IndexHNSW_get_efConstruction (index : handle)
  : Eff (Z * option Z) :=
  CATCH_AND_HANDLE failure (faiss_IndexHNSW_get_efConstruction_try index).

Definition faiss_IndexHNSW_get_efSearch_try (index : handle)
  : Eff (Z * option Z) :=
  do hnsw <- dynamic_cast IndexHNSW index;
  match hnsw with
  | None => ret (-1, None)
  | Some o => ret (0, Some (efSearch o))
  end.

Definition faiss_IndexHNSW_get_efSearch (index : handle)
  : Eff (Z * option Z) :=
  CATCH_AND_HANDLE failure (faiss_IndexHNSW_get_efSearch_try index).

(** ** PQ index functions *)

Definition faiss_IndexPQ_new_try (d M nbits : Z) (metric_type : Z)
  : Eff (Z * option handle) :=
  let metric := metric_of metric_type in
  do p <- engine (New_IndexPQ d M nbits metric);
  ret (0, Some p).

Definition faiss_IndexPQ_new (d M nbits : Z) (metric_type : Z)
  : Eff (Z * option handle) :=
  CATCH_AND_HANDLE failure (faiss_IndexPQ_new_try d M nbits metric_type).

Definition faiss_IndexIVFPQ_new_try (quantizer : handle) (d nlist M nbits : Z)
  : Eff (Z * option handle) :=
  do p <- engine (New_IndexIVFPQ quantizer d nlist M nbits None);
  ret (0, Some p).

Definition faiss_IndexIVFPQ_new (quantizer : handle) (d nlist M nbits : Z)
  : Eff (Z * option handle) :=
  CATCH_AND_HANDLE failure (faiss_IndexIVFPQ_new_try quantizer d nlist M nbits).

(** ** ID map functions *)

Definition faiss_IndexIDMap_new_try (base_index : handle)
  : Eff (Z * option handle) :=
  do p <- engine (New_IndexIDMap base_index);
  ret (0, Some p).

Definition faiss_IndexIDMap_new (base_index : handle)
  : Eff (Z * option handle) :=
  CATCH_AND_HANDLE failure (faiss_IndexIDMap_new_try base_index).

Definition faiss_IndexIDMap_add_with_ids_try (index : handle) (n : Z)
    (x : list float) (ids : list Z)
  : Eff Z :=
  do idmap <- dynamic_cast IndexIDMap index;
  match idmap with
  | None => ret (-1)
  | Some _ =>
      do_ engine (Index_add_with_ids index n x ids);
      ret 0
  end.

Definition faiss_IndexIDMap_add_with_ids (index : handle) (n : Z)
    (x : list float) (ids : list Z)
  : Eff Z :=
  CATCH_AND_HANDLE (-1) (faiss_IndexIDMap_add_with_ids_try index n x ids).

Definition faiss_IndexIDMap_remove_ids_try (index : handle) (ids : list Z)
    (n_ids : Z)
  : Eff (Z * option Z) :=
  do idmap <- dynamic_cast IndexIDMap index;
  match idmap with
  | None => ret (-1, None)
  | Some _ =>
      do sel <- engine (New_IDSelectorBatch n_ids ids);
      do n_removed <- engine (Index_remove_ids index sel);
      ret (0, Some n_removed)
  end.

Definition faiss_IndexIDMap_remove_ids (index : handle) (ids : list Z)
    (n_ids : Z)
  : Eff (Z * option Z) :=
  CATCH_AND_HANDLE failure (faiss_IndexIDMap_remove_ids_try index ids n_ids).

(** ** Common index operations *)

Definition faiss_Index_add_try (index : handle) (n : Z) (x : list float)
  : Eff Z :=
  do_ engine (Index_add index n x);
  ret 0.

Definition faiss_Index_add (index : handle) (n : Z) (x : list float)
  : Eff Z :=
  CATCH_AND_HANDLE (-1) (faiss_Index_add_try index n x).

Definition faiss_Index_add_with_ids_try (index : handle) (n : Z)
    (x : list float) (ids : list Z)
  : Eff Z :=
  do_ engine (Index_add_with_ids index n x ids);
  ret 0.

Definition faiss_Index_add_with_ids (index : handle) (n : Z)
    (x : list float) (ids : list Z)
  : Eff Z :=
  CATCH_AND_HANDLE (-1) (faiss_Index_add_with_ids_try index n x ids).

Definition faiss_Index_search_try (index : handle) (n : Z) (x : list float)
    (k : Z)
  : Eff (Z * option (list float * list Z)) :=
  do r <- engine (Index_search index n x k);
  ret (0, Some r).

Definition faiss_Index_search (index : handle) (n : Z) (x : list float)
    (k : Z)
  : Eff (Z * option (list float * list Z)) :=
  CATCH_AND_HANDLE failure (faiss_Index_search_try index n x k).

Definition faiss_Index_range_search_try (index : handle) (n : Z)
    (x : list float) (radius : float)
  : Eff (Z * option handle) :=
  do result <- engine (New_RangeSearchResult n);
  do_ engine (Index_range_search index n x radius result);
  ret (0, Some result).

Definition faiss_Index_range_search (index : handle) (n : Z)
    (x : list float) (radius : float)
  : Eff (Z * option handle) :=
  CATCH_AND_HANDLE failure (faiss_Index_range_search_try index n x radius).

Definition faiss_RangeSearchResult_get_try (result : handle)
  : Eff (Z * option (list Z * list Z * list float)) :=
  do res <- deref_range_result result;
  ret (0, Some (lims res, labels res, distances res)).

Definition faiss_RangeSearchResult_get (result : handle)
  : Eff (Z * option (list Z * list Z * list float)) :=
  CATCH_AND_HANDLE failure (faiss_RangeSearchResult_get_try result).

Definition faiss_RangeSearchResult_free (result : handle) : Eff unit :=
  if decide (result = NULL) then ret tt
  else engine (Delete_RangeSearchResult result).

Definition faiss_Index_train_try (index : handle) (n : Z) (x : list float)
  : Eff Z :=
  do_ engine (Index_train index n x);
  ret 0.

Definition faiss_Index_train (index : handle) (n : Z) (x : list float)
  : Eff Z :=
  CATCH_AND_HANDLE (-1) (faiss_Index_train_try index n x).

Definition faiss_Index_assign_try (index : handle) (n : Z) (x : list float)
  : Eff (Z * option (list Z)) :=
  do ivf <- dynamic_cast IndexIVF index;
  match ivf with
  | None => ret (-1, None)
  | Some _ =>
      do labels <- engine (Index_assign index n x);
      ret (0, Some labels)
  end.

Definition faiss_Index_assign (index : handle) (n : Z) (x : list float)
  : Eff (Z * option (list Z)) :=
  CATCH_AND_HANDLE failure (faiss_Index_assign_try index n x).

Definition faiss_Index_reconstruct_try (index : handle) (key : Z)
  : Eff (Z * option (list float)) :=
  do recons <- engine (Index_reconstruct index key);
  ret (0, Some recons).

Definition faiss_Index_reconstruct (index : handle) (key : Z)
  : Eff (Z * option (list float)) :=
  CATCH_AND_HANDLE failure (faiss_Index_reconstruct_try index key).

Definition faiss_Index_reconstruct_n_try (index : handle) (i0 ni : Z)
  : Eff (Z * option (list float)) :=
  do recons <- engine (Index_reconstruct_n index i0 ni);
  ret (0, Some recons).

Definition faiss_Index_reconstruct_n (index : handle) (i0 ni : Z)
  : Eff (Z * option (list float)) :=
  CATCH_AND_HANDLE failure (faiss_Index_reconstruct_n_try index i0 ni).

Definition faiss_Index_reset_try (index : handle) : Eff Z :=
  do_ engine (Index_reset index);
  ret 0.

Definition faiss_Index_reset (index : handle) : Eff Z :=
  CATCH_AND_HANDLE (-1) (faiss_Index_reset_try index).

Definition faiss_Index_free (index : handle) : Eff unit :=
  if decide (index = NULL) then ret tt
  else engine (Delete_Index index).

Definition faiss_Index_ntotal (index : handle) : Eff Z :=
  do o <- deref_index index;
  ret (ntotal o).

Definition faiss_Index_is_trained (index : handle) : Eff Z :=
  do o <- deref_index index;
  ret (if is_trained o then 1 else 0).

Definition faiss_Index_d (index : handle) : Eff Z :=
  do o <- deref_index index;
  ret (d o).

(** ** Serialization functions *)

Record ReadInfo := mkReadInfo {
  ri_index : handle;
  ri_index_type : string;
  ri_d : Z;
  ri_metric : Z;
  ri_ntotal : Z;
}.

Definition faiss_write_index_try (index : handle) (filename : string)
  : Eff Z :=
  do_ engine (write_index_file index filename);
  ret 0.

Definition faiss_write_index (index : handle) (filename : string) : Eff Z :=
  CATCH_AND_HANDLE (-1) (faiss_write_index_try index filename).

(** [if (dynamic_cast<faiss::T*>( *p_index))] *)
Definition is_a (t : CxxClass) (index : handle) : Eff bool :=
  do o <- dynamic_cast t index;
  ret (match o with Some _ => true | None => false end).

Definition faiss_read_index_try (filename : string)
  : Eff (Z * option ReadInfo) :=
  do p <- engine (read_index_file filename);
  do index_type <-
    (do c <- is_a IndexFlatL2 p;
     if c then ret "IndexFlatL2"%string else
     do c <- is_a IndexFlatIP p;
     if c then ret "IndexFlatIP"%string else
     do c <- is_a IndexIVFFlat p;
     if c then ret "IndexIVFFlat"%string else
     do c <- is_a IndexIVFPQ p;
     if c then ret "IndexIVFPQ"%string else
     do c <- is_a IndexHNSWFlat p;
     if c then ret "IndexHNSWFlat"%string else
     do c <- is_a IndexPQ p;
     if c then ret "IndexPQ"%string else
     do c <- is_a IndexIDMap p;
     if c then ret "IndexIDMap"%string else
     ret "Unknown"%string);
  do o <- deref_index p;
  ret (0, Some (mkReadInfo p index_type (d o)
                  (metric_to_int (metric_type o)) (ntotal o))).

Definition faiss_read_index (filename : string) : Eff (Z * option ReadInfo) :=
  CATCH_AND_HANDLE failure (faiss_read_index_try filename).

Definition faiss_serialize_index_try (index : handle)
  : Eff (Z * option (list Byte.byte * Z)) :=
  do writer_data <- engine (write_index_writer index);
  let size := Z.of_nat (length writer_data) in
  do data <- engine (Malloc size);
  (* memcpy into the block just obtained *)
  if data : bool then ret (0, Some (writer_data, size)) else undefined.

Definition faiss_serialize_index (index : handle)
  : Eff (Z * option (list Byte.byte * Z)) :=
  CATCH_AND_HANDLE failure (faiss_serialize_index_try index).

Definition faiss_deserialize_index_try (data : list Byte.byte) (size : Z)
  : Eff (Z * option ReadInfo) :=
  do_ engine (Local_VectorIOReader size);
  (* memcpy of [size] bytes out of the caller's buffer *)
  if decide (0 <= size <= Z.of_nat (length data)) then
    do p <- engine (read_index_reader (take (Z.to_nat size) data));
    do index_type <-
      (do c <- is_a IndexFlatL2 p;
       if c then ret "IndexFlatL2"%string else
       do c <- is_a IndexFlatIP p;
       if c then ret "IndexFlatIP"%string else
       do c <- is_a IndexIVFFlat p;
       if c then ret "IndexIVFFlat"%string else
       do c <- is_a IndexIVFPQ p;
       if c then ret "IndexIVFPQ"%string else
       do c <- is_a IndexHNSWFlat p;
       if c then ret "IndexHNSWFlat"%string else
       do c <- is_a IndexPQ p;
       if c then ret "IndexPQ"%string else
       do c <- is_a IndexIDMap p;
       if c then ret "IndexIDMap"%string else
       ret "Unknown"%string);
    do o <- deref_index p;
    ret (0, Some (mkReadInfo p index_type (d o)
                    (metric_to_int (metric_type o)) (ntotal o)))
  else undefined.

Definition faiss_deserialize_index (data : list Byte.byte) (size : Z)
  : Eff (Z * option ReadInfo) :=
  CATCH_AND_HANDLE failure (faiss_deserialize_index_try data size).

(** ** Kmeans functions *)

Definition faiss_Kmeans_new_try (d k : Z) : Eff (Z * option handle) :=
  do p <- engine (New_Clustering d k);
  ret (0, Some p).

Definition faiss_Kmeans_new (d k : Z) : Eff (Z * option handle) :=
  CATCH_AND_HANDLE failure (faiss_Kmeans_new_try d k).

Definition faiss_Kmeans_train_try (kmeans : handle) (n : Z) (x : list float)
  : Eff Z :=
  do km <- deref_clustering kmeans;
  do index <- engine (Local_IndexFlatL2 (cd km));
  scoped
    (do_ engine (Clustering_train kmeans n x index);
     ret 0)
    (engine (Destroy_Local_IndexFlatL2 index)).

Definition faiss_Kmeans_train (kmeans : handle) (n : Z) (x : list float)
  : Eff Z :=
  CATCH_AND_HANDLE (-1) (faiss_Kmeans_train_try kmeans n x).

Definition faiss_Kmeans_assign_try (kmeans : handle) (n : Z) (x : list float)
  : Eff (Z * option (list Z)) :=
  do km <- deref_clustering kmeans;
  do index <- engine (Local_IndexFlatL2 (cd km));
  scoped
    (do km <- deref_clustering kmeans;
     do_ engine (Index_add index (ck km) (centroids km));
     do_ engine (Local_vector_float n);
     do r <- engine (Index_search index n x 1);
     ret (0, Some (snd r)))
    (engine (Destroy_Local_IndexFlatL2 index)).

Definition faiss_Kmeans_assign (kmeans : handle) (n : Z) (x : list float)
  : Eff (Z * option (list Z)) :=
  CATCH_AND_HANDLE failure (faiss_Kmeans_assign_try kmeans n x).

Definition faiss_Kmeans_get_centroids_try (kmeans : handle)
  : Eff (Z * option (list float)) :=
  do km <- deref_clustering kmeans;
  (* memcpy of k * d floats out of the centroid vector *)
  if decide (0 <= ck km * cd km <= Z.of_nat (length (centroids km))) then
    ret (0, Some (take (Z.to_nat (ck km * cd km)) (centroids km)))
  else undefined.

Definition faiss_Kmeans_get_centroids (kmeans : handle)
  : Eff (Z * option (list float)) :=
  CATCH_AND_HANDLE failure (faiss_Kmeans_get_centroids_try kmeans).

Definition faiss_Kmeans_set_niter_try (kmeans : handle) (niter' : Z)
  : Eff Z :=
  do km <- deref_clustering kmeans;
  do_ store_clustering kmeans
        (mkClustering (cd km) (ck km) niter' (verbose km) (seed km)
           (centroids km));
  ret 0.

Definition faiss_Kmeans_set_niter (kmeans : handle) (niter' : Z) : Eff Z :=
  CATCH_AND_HANDLE (-1) (faiss_Kmeans_set_niter_try kmeans niter').

Definition faiss_Kmeans_set_verbose_try (kmeans : handle) (verbose' : Z)
  : Eff Z :=
  do km <- deref_clustering kmeans;
  do_ store_clustering kmeans
        (mkClustering (cd km) (ck km) (niter km)
           (bool_decide (verbose' <> 0)) (seed km) (centroids km));
  ret 0.

Definition faiss_Kmeans_set_verbose (kmeans : handle) (verbose' : Z)
  : Eff Z :=
  CATCH_AND_HANDLE (-1) (faiss_Kmeans_set_verbose_try kmeans verbose').

Definition faiss_Kmeans_set_seed_try (kmeans : handle) (seed' : Z) : Eff Z :=
  do km <- deref_clustering kmeans;
  do_ store_clustering kmeans
        (mkClustering (cd km) (ck km) (niter km) (verbose km)
           (to_int seed') (centroids km));
  ret 0.

Definition faiss_Kmeans_set_seed (kmeans : handle) (seed' : Z) : Eff Z :=
  CATCH_AND_HANDLE (-1) (faiss_Kmeans_set_seed_try kmeans seed').

Definition faiss_Kmeans_free (kmeans : handle) : Eff unit :=
  if decide (kmeans = NULL) then ret tt
  else engine (Delete_Clustering kmeans).

(** ** Scalar quantizer index functions *)

Definition faiss_IndexScalarQuantizer_new_try (d qtype : Z) (metric_type : Z)
  : Eff (Z * option handle) :=
  let metric := metric_of metric_type in
  let qt := qtype in
  do p <- engine (New_IndexScalarQuantizer d qt metric);
  ret (0, Some p).

Definition faiss_IndexScalarQuantizer_new (d qtype : Z) (metric_type : Z)
  : Eff (Z * option handle) :=
  CATCH_AND_HANDLE failure (faiss_IndexScalarQuantizer_new_try d qtype
      metric_type).

Definition faiss_IndexIVFScalarQuantizer_new_try (quantizer : handle)
    (d nlist qtype : Z) (metric_type : Z)
  : Eff (Z * option handle) :=
  let metric := metric_of metric_type in
  let qt := qtype in
  do p <- engine (New_IndexIVFScalarQuantizer quantizer d nlist qt metric);
  ret (0, Some p).

Definition faiss_IndexIVFScalarQuantizer_new (quantizer : handle)
    (d nlist qtype : Z) (metric_type : Z)
  : Eff (Z * option handle) :=
  CATCH_AND_HANDLE failure (faiss_IndexIVFScalarQuantizer_new_try quantizer d
      nlist qtype metric_type).

(** ** Binary index functions *)

Definition faiss_IndexBinaryFlat_new_try (d : Z) : Eff (Z * option handle) :=
  do p <- engine (New_IndexBinaryFlat d);
  ret (0, Some p).

Definition faiss_IndexBinaryFlat_new (d : Z) : Eff (Z * option handle) :=
  CATCH_AND_HANDLE failure (faiss_IndexBinaryFlat_new_try d).

Definition faiss_IndexBinaryIVF_new_try (quantizer : handle) (d nlist : Z)
  : Eff (Z * option handle) :=
  do p <- engine (New_IndexBinaryIVF quantizer d nlist);
  ret (0, Some p).

Definition faiss_IndexBinaryIVF_new (quantizer : handle) (d nlist : Z)
  : Eff (Z * option handle) :=
  CATCH_AND_HANDLE failure (faiss_IndexBinaryIVF_new_try quantizer d nlist).

Definition faiss_IndexBinaryHash_new_try (d nbits : Z)
  : Eff (Z * option handle) :=
  do p <- engine (New_IndexBinaryHash d nbits);
  ret (0, Some p).

Definition faiss_IndexBinaryHash_new (d nbits : Z)
  : Eff (Z * option handle) :=
  CATCH_AND_HANDLE failure (faiss_IndexBinaryHash_new_try d nbits).

Definition faiss_IndexBinary_add_try (index : handle) (n : Z)
    (x : list Byte.byte)
  : Eff Z :=
  do_ engine (IndexBinary_add index n x);
  ret 0.

Definition faiss_IndexBinary_add (index : handle) (n : Z) (x : list Byte.byte)
  : Eff Z :=
  CATCH_AND_HANDLE (-1) (faiss_IndexBinary_add_try index n x).

Definition faiss_IndexBinary_search_try (index : handle) (n : Z)
    (x : list Byte.byte) (k : Z)
  : Eff (Z * option (list Z * list Z)) :=
  do r <- engine (IndexBinary_search index n x k);
  ret (0, Some r).

Definition faiss_IndexBinary_search (index : handle) (n : Z)
    (x : list Byte.byte) (k : Z)
  : Eff (Z * option (list Z * list Z)) :=
  CATCH_AND_HANDLE failure (faiss_IndexBinary_search_try index n x k).

Definition faiss_IndexBinary_train_try (index : handle) (n : Z)
    (x : list Byte.byte)
  : Eff Z :=
  do_ engine (IndexBinary_train index n x);
  ret 0.

Definition faiss_IndexBinary_train (index : handle) (n : Z)
    (x : list Byte.byte)
  : Eff Z :=
  CATCH_AND_HANDLE (-1) (faiss_IndexBinary_train_try index n x).

Definition faiss_IndexBinary_reset_try (index : handle) : Eff Z :=
  do_ engine (IndexBinary_reset index);
  ret 0.

Definition faiss_IndexBinary_reset (index : handle) : Eff Z :=
  CATCH_AND_HANDLE (-1) (faiss_IndexBinary_reset_try index).

Definition faiss_IndexBinary_ntotal_try (index : handle)
  : Eff (Z * option Z) :=
  do o <- deref_binary index;
  ret (0, Some (bntotal o)).

Definition faiss_IndexBinary_ntotal (index : handle) : Eff (Z * option Z) :=
  CATCH_AND_HANDLE failure (faiss_IndexBinary_ntotal_try index).

Definition faiss_IndexBinary_is_trained_try (index : handle)
  : Eff (Z * option Z) :=
  do o <- deref_binary index;
  ret (0, Some (if bis_trained o then 1 else 0)).

Definition faiss_IndexBinary_is_trained (index : handle)
  : Eff (Z * option Z) :=
  CATCH_AND_HANDLE failure (faiss_IndexBinary_is_trained_try index).

Definition faiss_IndexBinaryIVF_set_nprobe_try (index : handle) (nprobe' : Z)
  : Eff Z :=
  do ivf <- dynamic_cast_binary IndexBinaryIVF index;
  match ivf with
  | None => ret (-1)
  | Some o =>
      do_ store_binary index
            (mkIndexBinary (bdyn_class o) (bntotal o) (bis_trained o)
               (to_size_t nprobe'));
      ret 0
  end.

Definition faiss_IndexBinaryIVF_set_nprobe (index : handle) (nprobe' : Z)
  : Eff Z :=
  CATCH_AND_HANDLE (-1) (faiss_IndexBinaryIVF_set_nprobe_try index nprobe').

Definition faiss_IndexBinary_free (index : handle) : Eff unit :=
  if decide (index = NULL) then ret tt
  else engine (Delete_IndexBinary index).

(** ** LSH index functions *)

Definition faiss_IndexLSH_new_try (d nbits : Z)
    (rotate_data train_thresholds : Z)
  : Eff (Z * option handle) :=
  do p <- engine (New_IndexLSH d nbits (bool_decide (rotate_data <> 0))
                    (bool_decide (train_thresholds <> 0)));
  ret (0, Some p).

Definition faiss_IndexLSH_new (d nbits : Z) (rotate_data train_thresholds : Z)
  : Eff (Z * option handle) :=
  CATCH_AND_HANDLE failure (faiss_IndexLSH_new_try d nbits rotate_data
      train_thresholds).

(** ** Vector transform functions *)

Definition faiss_PCAMatrix_new_try (d_in d_out : Z) (eigen_power : float)
    (random_rotation : Z)
  : Eff (Z * option handle) :=
  do pca <- engine (New_PCAMatrix d_in d_out eigen_power
                      (bool_decide (random_rotation <> 0)));
  ret (0, Some pca).

Definition faiss_PCAMatrix_new (d_in d_out : Z) (eigen_power : float)
    (random_rotation : Z)
  : Eff (Z * option handle) :=
  CATCH_AND_HANDLE failure (faiss_PCAMatrix_new_try d_in d_out eigen_power
      random_rotation).

Definition faiss_OPQMatrix_new_try (d M : Z) : Eff (Z * option handle) :=
  do opq <- engine (New_OPQMatrix d M);
  ret (0, Some opq).

Definition faiss_OPQMatrix_new (d M : Z) : Eff (Z * option handle) :=
  CATCH_AND_HANDLE failure (faiss_OPQMatrix_new_try d M).

Definition faiss_RandomRotationMatrix_new_try (d_in d_out : Z)
  : Eff (Z * option handle) :=
  do rr <- engine (New_RandomRotationMatrix d_in d_out);
  do_ engine (RandomRotationMatrix_init rr 42);
  ret (0, Some rr).

Definition faiss_RandomRotationMatrix_new (d_in d_out : Z)
  : Eff (Z * option handle) :=
  CATCH_AND_HANDLE failure (faiss_RandomRotationMatrix_new_try d_in d_out).

Definition faiss_VectorTransform_train_try (transform : handle) (n : Z)
    (x : list float)
  : Eff Z :=
  do_ engine (VectorTransform_train transform n x);
  ret 0.

Definition faiss_VectorTransform_train (transform : handle) (n : Z)
    (x : list float)
  : Eff Z :=
  CATCH_AND_HANDLE (-1) (faiss_VectorTransform_train_try transform n x).

Definition faiss_VectorTransform_apply_try (transform : handle) (n : Z)
    (x : list float)
  : Eff (Z * option (list float)) :=
  do xt <- engine (VectorTransform_apply_noalloc transform n x);
  ret (0, Some xt).

Definition faiss_VectorTransform_apply (transform : handle) (n : Z)
    (x : list float)
  : Eff (Z * option (list float)) :=
  CATCH_AND_HANDLE failure (faiss_VectorTransform_apply_try transform n x).

Definition faiss_VectorTransform_reverse_transform_try (transform : handle)
    (n : Z) (xt : list float)
  : Eff (Z * option (list float)) :=
  do x <- engine (VectorTransform_reverse_transform transform n xt);
  ret (0, Some x).

Definition faiss_VectorTransform_reverse_transform (transform : handle)
    (n : Z) (xt : list float)
  : Eff (Z * option (list float)) :=
  CATCH_AND_HANDLE failure (faiss_VectorTransform_reverse_transform_try
      transform n xt).

Definition faiss_VectorTransform_free (transform : handle) : Eff unit :=
  if decide (transform = NULL) then ret tt
  else engine (Delete_VectorTransform transform).

(** ** Composite index functions *)

Definition faiss_IndexRefine_new_try (base_index refine_index : handle)
  : Eff (Z * option handle) :=
  do p <- engine (New_IndexRefine base_index refine_index);
  ret (0, Some p).

Definition faiss_IndexRefine_new (base_index refine_index : handle)
  : Eff (Z * option handle) :=
  CATCH_AND_HANDLE failure (faiss_IndexRefine_new_try base_index refine_index).

Definition faiss_IndexRefine_set_k_factor_try (index : handle)
    (k_factor' : float)
  : Eff Z :=
  do refine <- dynamic_cast IndexRefine index;
  match refine with
  | None => ret (-1)
  | Some o =>
      do_ store_index index
            (mkIndex (dyn_class o) (d o) (ntotal o) (is_trained o)
               (metric_type o) (nprobe o) (efConstruction o)
               (efSearch o) k_factor');
      ret 0
  end.

Definition faiss_IndexRefine_set_k_factor (index : handle) (k_factor' : float)
  : Eff Z :=
  CATCH_AND_HANDLE (-1) (faiss_IndexRefine_set_k_factor_try index k_factor').

Definition faiss_IndexPreTransform_new_try (transform base_index : handle)
  : Eff (Z * option handle) :=
  do p <- engine (New_IndexPreTransform transform base_index);
  ret (0, Some p).

Definition faiss_IndexPreTransform_new (transform base_index : handle)
  : Eff (Z * option handle) :=
  CATCH_AND_HANDLE failure (faiss_IndexPreTransform_new_try transform
      base_index).

Definition faiss_IndexShards_new_try (d : Z) (metric_type : Z)
  : Eff (Z * option handle) :=
  do p <- engine (New_IndexShards d false false);
  ret (0, Some p).

Definition faiss_IndexShards_new (d : Z) (metric_type : Z)
  : Eff (Z * option handle) :=
  CATCH_AND_HANDLE failure (faiss_IndexShards_new_try d metric_type).

Definition faiss_IndexShards_add_shard_try (index shard : handle) : Eff Z :=
  do shards <- dynamic_cast IndexShards index;
  match shards with
  | None => ret (-1)
  | Some _ =>
      do_ engine (IndexShards_add_shard index shard);
      ret 0
  end.

Definition faiss_IndexShards_add_shard (index shard : handle) : Eff Z :=
  CATCH_AND_HANDLE (-1) (faiss_IndexShards_add_shard_try index shard).

(** ** PQFastScan index functions *)

Definition faiss_IndexPQFastScan_new_try (d M nbits : Z) (metric_type : Z)
  : Eff (Z * option handle) :=
  let metric := metric_of metric_type in
  do p <- engine (New_IndexPQ d M nbits metric);
  ret (0, Some p).

Definition faiss_IndexPQFastScan_new (d M nbits : Z) (metric_type : Z)
  : Eff (Z * option handle) :=
  CATCH_AND_HANDLE failure (faiss_IndexPQFastScan_new_try d M nbits
      metric_type).

Definition faiss_IndexIVFPQFastScan_new_try (quantizer : handle)
    (d nlist M nbits : Z) (metric_type : Z)
  : Eff (Z * option handle) :=
  let metric := metric_of metric_type in
  do p <- engine (New_IndexIVFPQ quantizer d nlist M nbits (Some metric));
  ret (0, Some p).

Definition faiss_IndexIVFPQFastScan_new (quantizer : handle)
    (d nlist M nbits : Z) (metric_type : Z)
  : Eff (Z * option handle) :=
  CATCH_AND_HANDLE failure (faiss_IndexIVFPQFastScan_new_try quantizer d nlist
      M nbits metric_type).

Definition faiss_IndexPQFastScan_set_bbs_try (index : handle) (bbs : Z)
  : Eff Z :=
  ret 0.

Definition faiss_IndexPQFastScan_set_bbs (index : handle) (bbs : Z) : Eff Z :=
  CATCH_AND_HANDLE (-1) (faiss_IndexPQFastScan_set_bbs_try index bbs).

(** ** OnDisk index functions *)

Definition faiss_IndexIVFFlatOnDisk_new_try (quantizer : handle)
    (d nlist : Z) (filename : string) (metric_type : Z)
  : Eff (Z * option handle) :=
  let metric := metric_of metric_type in
  do idx <- engine (New_IndexIVFFlat quantizer d nlist metric);
  ret (0, Some idx).

Definition faiss_IndexIVFFlatOnDisk_new (quantizer : handle) (d nlist : Z)
    (filename : string) (metric_type : Z)
  : Eff (Z * option handle) :=
  CATCH_AND_HANDLE failure (faiss_IndexIVFFlatOnDisk_new_try quantizer d nlist
      filename metric_type).

Definition faiss_IndexIVFPQOnDisk_new_try (quantizer : handle)
    (d nlist M nbits : Z) (filename : string) (metric_type : Z)
  : Eff (Z * option handle) :=
  let metric := metric_of metric_type in
  do idx <- engine (New_IndexIVFPQ quantizer d nlist M nbits
                      (Some metric));
  ret (0, Some idx).

Definition faiss_IndexIVFPQOnDisk_new (quantizer : handle)
    (d nlist M nbits : Z) (filename : string) (metric_type : Z)
  : Eff (Z * option handle) :=
  CATCH_AND_HANDLE failure (faiss_IndexIVFPQOnDisk_new_try quantizer d nlist M
      nbits filename metric_type).

End Facade.

(** ** GPU support functions

    The two branches of [#ifdef FAISS_GPU] define the same entry points;
    each branch is a module here. *)

Module GpuBuild.
Section GpuBuild.
Context {ET : EngineTypes} {E : Engine}.

Definition faiss_StandardGpuResources_new_try : Eff (Z * option handle) :=
  do p <- engine New_StandardGpuResources;
  ret (0, Some p).

Definition faiss_StandardGpuResources_new : Eff (Z * option handle) :=
  CATCH_AND_HANDLE failure faiss_StandardGpuResources_new_try.

Definition faiss_StandardGpuResources_setTempMemory_try (res : handle)
    (bytes : Z)
  : Eff Z :=
  do_ engine (StandardGpuResources_setTempMemory res bytes);
  ret 0.

Definition faiss_StandardGpuResources_setTempMemory (res : handle) (bytes : Z)
  : Eff Z :=
  CATCH_AND_HANDLE (-1) (faiss_StandardGpuResources_setTempMemory_try res
      bytes).

Definition faiss_StandardGpuResources_setDefaultNullStreamAllDevices_try
    (res : handle)
  : Eff Z :=
  do_ engine (StandardGpuResources_setDefaultNullStreamAllDevices res);
  ret 0.

Definition faiss_StandardGpuResources_setDefaultNullStreamAllDevices
    (res : handle)
  : Eff Z :=
  CATCH_AND_HANDLE (-1)
      (faiss_StandardGpuResources_setDefaultNullStreamAllDevices_try res).

Definition faiss_StandardGpuResources_free (res : handle) : Eff unit :=
  if decide (res = NULL) then ret tt
  else engine (Delete_StandardGpuResources res).

Definition faiss_GpuIndexFlat_new_try (res : handle) (d : Z)
    (metric_type : Z) (device : Z)
  : Eff (Z * option handle) :=
  let metric := metric_of metric_type in
  do p <- engine (New_GpuIndexFlat res d metric device);
  ret (0, Some p).

Definition faiss_GpuIndexFlat_new (res : handle) (d : Z) (metric_type : Z)
    (device : Z)
  : Eff (Z * option handle) :=
  CATCH_AND_HANDLE failure (faiss_GpuIndexFlat_new_try res d metric_type
      device).

Definition faiss_GpuIndexIVFFlat_new_try (res quantizer : handle)
    (d nlist : Z) (metric_type : Z) (device : Z)
  : Eff (Z * option handle) :=
  let metric := metric_of metric_type in
  do p <- engine (New_GpuIndexIVFFlat res d nlist metric device);
  ret (0, Some p).

Definition faiss_GpuIndexIVFFlat_new (res quantizer : handle) (d nlist : Z)
    (metric_type : Z) (device : Z)
  : Eff (Z * option handle) :=
  CATCH_AND_HANDLE failure (faiss_GpuIndexIVFFlat_new_try res quantizer d
      nlist metric_type device).

Definition faiss_index_cpu_to_gpu_try (res : handle) (device : Z)
    (cpu_index : handle)
  : Eff (Z * option handle) :=
  do p <- engine (gpu_index_cpu_to_gpu res device cpu_index);
  ret (0, Some p).

Definition faiss_index_cpu_to_gpu (res : handle) (device : Z)
    (cpu_index : handle)
  : Eff (Z * option handle) :=
  CATCH_AND_HANDLE failure (faiss_index_cpu_to_gpu_try res device cpu_index).

(** Of the output parameters only [p_cpu_index], [d], [metric] and [ntotal]
    are assigned; [index_type] is left as the caller passed it, which is
    the [None] in the result. *)
Definition faiss_index_gpu_to_cpu_try (gpu_index : handle)
  : Eff (Z * option (handle * option string * Z * Z * Z)) :=
  do p <- engine (gpu_index_gpu_to_cpu gpu_index);
  do o <- deref_index p;
  ret (0, Some (p, None, d o, metric_to_int (metric_type o), ntotal o)).

Definition faiss_index_gpu_to_cpu (gpu_index : handle)
  : Eff (Z * option (handle * option string * Z * Z * Z)) :=
  CATCH_AND_HANDLE failure (faiss_index_gpu_to_cpu_try gpu_index).

Definition faiss_index_cpu_to_all_gpus_try (cpu_index : handle)
  : Eff (Z * option handle) :=
  do p <- engine (gpu_index_cpu_to_all_gpus cpu_index);
  ret (0, Some p).

Definition faiss_index_cpu_to_all_gpus (cpu_index : handle)
  : Eff (Z * option handle) :=
  CATCH_AND_HANDLE failure (faiss_index_cpu_to_all_gpus_try cpu_index).

Definition faiss_get_num_gpus_try : Eff (Z * option Z) :=
  do n <- engine gpu_getNumDevices;
  ret (0, Some n).

Definition faiss_get_num_gpus : Eff (Z * option Z) :=
  CATCH_AND_HANDLE failure faiss_get_num_gpus_try.

End GpuBuild.
End GpuBuild.

(** GPU stubs when CUDA is not available: no engine call, no [try]. *)
Module StubBuild.
Section StubBuild.
Context {ET : EngineTypes}.

Definition faiss_StandardGpuResources_new : Eff (Z * option handle) :=
  ret (-1, None).

Definition faiss_StandardGpuResources_setTempMemory (res : handle)
    (bytes : Z) : Eff Z :=
  ret (-1).

Definition faiss_StandardGpuResources_setDefaultNullStreamAllDevices
    (res : handle) : Eff Z :=
  ret (-1).

Definition faiss_StandardGpuResources_free (res : handle) : Eff unit :=
  ret tt.

Definition faiss_GpuIndexFlat_new (res : handle) (d : Z) (metric_type : Z)
    (device : Z) : Eff (Z * option handle) :=
  ret (-1, None).

Definition faiss_GpuIndexIVFFlat_new (res quantizer : handle) (d nlist : Z)
    (metric_type : Z) (device : Z) : Eff (Z * option handle) :=
  ret (-1, None).

Definition faiss_index_cpu_to_gpu (res : handle) (device : Z)
    (cpu_index : handle) : Eff (Z * option handle) :=
  ret (-1, None).

Definition faiss_index_gpu_to_cpu (gpu_index : handle)
  : Eff (Z * option (handle * option string * Z * Z * Z)) :=
  ret (-1, None).

Definition faiss_index_cpu_to_all_gpus (cpu_index : handle)
  : Eff (Z * option handle) :=
  ret (-1, None).

Definition faiss_get_num_gpus : Eff (Z * option Z) :=
  ret (0, Some 0).

End StubBuild.
End StubBuild.

(** ** The entry points that wrap their body in [try ... CATCH_AND_HANDLE()]

    One constructor per entry point, with the arguments of the call. *)

Section EntryPoints.
Context {ET : EngineTypes} {E : Engine}.

(** What happened to the output parameters of a call: there are none,
    one at least was left unset, or all were written. *)
Inductive Outs := NoOutParams | Unset | Delivered.

Definition with_outs {A} (r : Z * option A) : Z * Outs :=
  (r.1, match r.2 with Some _ => Delivered | None => Unset end).

(** The outputs of [faiss_index_gpu_to_cpu], of which [index_type] is one. *)
Definition gpu_to_cpu_outs
    (r : Z * option (handle * option string * Z * Z * Z)) : Z * Outs :=
  (r.1, match r.2 with
        | Some (_, Some _, _, _, _) => Delivered
        | Some (_, None, _, _, _) => Unset
        | None => Unset
        end).

Definition status_only (s : Z) : Z * Outs := (s, NoOutParams).

Inductive Wrapped :=
  | op_faiss_IndexFlatL2_new (d : Z)
  | op_faiss_IndexFlatIP_new (d : Z)
| op_faiss_IndexIVFFlat_new (quantizer : handle) (d nlist : Z)
      (metric_type : Z)
  | op_faiss_IndexIVF_set_nprobe (index : handle) (nprobe' : Z)
  | op_faiss_IndexIVF_get_nprobe (index : handle)
  | op_faiss_IndexHNSWFlat_new (d M : Z) (metric_type : Z)
  | op_faiss_IndexHNSW_set_efConstruction (index : handle) (ef : Z)
  | op_faiss_IndexHNSW_set_efSearch (index : handle) (ef : Z)
  | op_faiss_IndexHNSW_get_efConstruction (index : handle)
  | op_faiss_IndexHNSW_get_efSearch (index : handle)
  | op_faiss_IndexPQ_new (d M nbits : Z) (metric_type : Z)
  | op_faiss_IndexIVFPQ_new (quantizer : handle) (d nlist M nbits : Z)
  | op_faiss_IndexIDMap_new (base_index : handle)
| op_faiss_IndexIDMap_add_with_ids (index : handle) (n : Z) (x : list float)
      (ids : list Z)
  | op_faiss_IndexIDMap_remove_ids (index : handle) (ids : list Z) (n_ids : Z)
  | op_faiss_Index_add (index : handle) (n : Z) (x : list float)
| op_faiss_Index_add_with_ids (index : handle) (n : Z) (x : list float)
      (ids : list Z)
  | op_faiss_Index_search (index : handle) (n : Z) (x : list float) (k : Z)
| op_faiss_Index_range_search (index : handle) (n : Z) (x : list float)
      (radius : float)
  | op_faiss_RangeSearchResult_get (result : handle)
  | op_faiss_Index_train (index : handle) (n : Z) (x : list float)
  | op_faiss_Index_assign (index : handle) (n : Z) (x : list float)
  | op_faiss_Index_reconstruct (index : handle) (key : Z)
  | op_faiss_Index_reconstruct_n (index : handle) (i0 ni : Z)
  | op_faiss_Index_reset (index : handle)
  | op_faiss_write_index (index : handle) (filename : string)
  | op_faiss_read_index (filename : string)
  | op_faiss_serialize_index (index : handle)
  | op_faiss_deserialize_index (data : list Byte.byte) (size : Z)
  | op_faiss_Kmeans_new (d k : Z)
  | op_faiss_Kmeans_train (kmeans : handle) (n : Z) (x : list float)
  | op_faiss_Kmeans_assign (kmeans : handle) (n : Z) (x : list float)
  | op_faiss_Kmeans_get_centroids (kmeans : handle)
  | op_faiss_Kmeans_set_niter (kmeans : handle) (niter' : Z)
  | op_faiss_Kmeans_set_verbose (kmeans : handle) (verbose' : Z)
  | op_faiss_Kmeans_set_seed (kmeans : handle) (seed' : Z)
  | op_faiss_IndexScalarQuantizer_new (d qtype : Z) (metric_type : Z)
| op_faiss_IndexIVFScalarQuantizer_new (quantizer : handle)
      (d nlist qtype : Z) (metric_type : Z)
  | op_faiss_IndexBinaryFlat_new (d : Z)
  | op_faiss_IndexBinaryIVF_new (quantizer : handle) (d nlist : Z)
  | op_faiss_IndexBinaryHash_new (d nbits : Z)
  | op_faiss_IndexBinary_add (index : handle) (n : Z) (x : list Byte.byte)
| op_faiss_IndexBinary_search (index : handle) (n : Z) (x : list Byte.byte)
      (k : Z)
  | op_faiss_IndexBinary_train (index : handle) (n : Z) (x : list Byte.byte)
  | op_faiss_IndexBinary_reset (index : handle)
  | op_faiss_IndexBinary_ntotal (index : handle)
  | op_faiss_IndexBinary_is_trained (index : handle)
  | op_faiss_IndexBinaryIVF_set_nprobe (index : handle) (nprobe' : Z)
  | op_faiss_IndexLSH_new (d nbits : Z) (rotate_data train_thresholds : Z)
| op_faiss_PCAMatrix_new (d_in d_out : Z) (eigen_power : float)
      (random_rotation : Z)
  | op_faiss_OPQMatrix_new (d M : Z)
  | op_faiss_RandomRotationMatrix_new (d_in d_out : Z)
| op_faiss_VectorTransform_train (transform : handle) (n : Z)
      (x : list float)
| op_faiss_VectorTransform_apply (transform : handle) (n : Z)
      (x : list float)
| op_faiss_VectorTransform_reverse_transform (transform : handle) (n : Z)
      (xt : list float)
  | op_faiss_IndexRefine_new (base_index refine_index : handle)
  | op_faiss_IndexRefine_set_k_factor (index : handle) (k_factor' : float)
  | op_faiss_IndexPreTransform_new (transform base_index : handle)
  | op_faiss_IndexShards_new (d : Z) (metric_type : Z)
  | op_faiss_IndexShards_add_shard (index shard : handle)
  | op_faiss_IndexPQFastScan_new (d M nbits : Z) (metric_type : Z)
| op_faiss_IndexIVFPQFastScan_new (quantizer : handle) (d nlist M nbits : Z)
      (metric_type : Z)
  | op_faiss_IndexPQFastScan_set_bbs (index : handle) (bbs : Z)
| op_faiss_IndexIVFFlatOnDisk_new (quantizer : handle) (d nlist : Z)
      (filename : string) (metric_type : Z)
| op_faiss_IndexIVFPQOnDisk_new (quantizer : handle) (d nlist M nbits : Z)
      (filename : string) (metric_type : Z)
  | op_gpu_faiss_StandardGpuResources_new
  | op_gpu_faiss_StandardGpuResources_setTempMemory (res : handle) (bytes : Z)
| op_gpu_faiss_StandardGpuResources_setDefaultNullStreamAllDevices
      (res : handle)
| op_gpu_faiss_GpuIndexFlat_new (res : handle) (d : Z) (metric_type : Z)
      (device : Z)
| op_gpu_faiss_GpuIndexIVFFlat_new (res quantizer : handle) (d nlist : Z)
      (metric_type : Z) (device : Z)
| op_gpu_faiss_index_cpu_to_gpu (res : handle) (device : Z)
      (cpu_index : handle)
  | op_gpu_faiss_index_gpu_to_cpu (gpu_index : handle)
  | op_gpu_faiss_index_cpu_to_all_gpus (cpu_index : handle)
  | op_gpu_faiss_get_num_gpus.

(** The [try] block of an entry point. *)
Definition wrapped_try (op : Wrapped) : Eff (Z * Outs) :=
  match op with
  | op_faiss_IndexFlatL2_new d =>
      fmap with_outs (faiss_IndexFlatL2_new_try d)
  | op_faiss_IndexFlatIP_new d =>
      fmap with_outs (faiss_IndexFlatIP_new_try d)
  | op_faiss_IndexIVFFlat_new quantizer d nlist metric_type =>
      fmap with_outs (faiss_IndexIVFFlat_new_try quantizer d nlist metric_type)
  | op_faiss_IndexIVF_set_nprobe index nprobe' =>
      fmap status_only (faiss_IndexIVF_set_nprobe_try index nprobe')
  | op_faiss_IndexIVF_get_nprobe index =>
      fmap with_outs (faiss_IndexIVF_get_nprobe_try index)
  | op_faiss_IndexHNSWFlat_new d M metric_type =>
      fmap with_outs (faiss_IndexHNSWFlat_new_try d M metric_type)
  | op_faiss_IndexHNSW_set_efConstruction index ef =>
      fmap status_only (faiss_IndexHNSW_set_efConstruction_try index ef)
  | op_faiss_IndexHNSW_set_efSearch index ef =>
      fmap status_only (faiss_IndexHNSW_set_efSearch_try index ef)
  | op_faiss_IndexHNSW_get_efConstruction index =>
      fmap with_outs (faiss_IndexHNSW_get_efConstruction_try index)
  | op_faiss_IndexHNSW_get_efSearch index =>
      fmap with_outs (faiss_IndexHNSW_get_efSearch_try index)
  | op_faiss_IndexPQ_new d M nbits metric_type =>
      fmap with_outs (faiss_IndexPQ_new_try d M nbits metric_type)
  | op_faiss_IndexIVFPQ_new quantizer d nlist M nbits =>
      fmap with_outs (faiss_IndexIVFPQ_new_try quantizer d nlist M nbits)
  | op_faiss_IndexIDMap_new base_index =>
      fmap with_outs (faiss_IndexIDMap_new_try base_index)
  | op_faiss_IndexIDMap_add_with_ids index n x ids =>
      fmap status_only (faiss_IndexIDMap_add_with_ids_try index n x ids)
  | op_faiss_IndexIDMap_remove_ids index ids n_ids =>
      fmap with_outs (faiss_IndexIDMap_remove_ids_try index ids n_ids)
  | op_faiss_Index_add index n x =>
      fmap status_only (faiss_Index_add_try index n x)
  | op_faiss_Index_add_with_ids index n x ids =>
      fmap status_only (faiss_Index_add_with_ids_try index n x ids)
  | op_faiss_Index_search index n x k =>
      fmap with_outs (faiss_Index_search_try index n x k)
  | op_faiss_Index_range_search index n x radius =>
      fmap with_outs (faiss_Index_range_search_try index n x radius)
  | op_faiss_RangeSearchResult_get result =>
      fmap with_outs (faiss_RangeSearchResult_get_try result)
  | op_faiss_Index_train index n x =>
      fmap status_only (faiss_Index_train_try index n x)
  | op_faiss_Index_assign index n x =>
      fmap with_outs (faiss_Index_assign_try index n x)
  | op_faiss_Index_reconstruct index key =>
      fmap with_outs (faiss_Index_reconstruct_try index key)
  | op_faiss_Index_reconstruct_n index i0 ni =>
      fmap with_outs (faiss_Index_reconstruct_n_try index i0 ni)
  | op_faiss_Index_reset index =>
      fmap status_only (faiss_Index_reset_try index)
  | op_faiss_write_index index filename =>
      fmap status_only (faiss_write_index_try index filename)
  | op_faiss_read_index filename =>
      fmap with_outs (faiss_read_index_try filename)
  | op_faiss_serialize_index index =>
      fmap with_outs (faiss_serialize_index_try index)
  | op_faiss_deserialize_index data size =>
      fmap with_outs (faiss_deserialize_index_try data size)
  | op_faiss_Kmeans_new d k =>
      fmap with_outs (faiss_Kmeans_new_try d k)
  | op_faiss_Kmeans_train kmeans n x =>
      fmap status_only (faiss_Kmeans_train_try kmeans n x)
  | op_faiss_Kmeans_assign kmeans n x =>
      fmap with_outs (faiss_Kmeans_assign_try kmeans n x)
  | op_faiss_Kmeans_get_centroids kmeans =>
      fmap with_outs (faiss_Kmeans_get_centroids_try kmeans)
  | op_faiss_Kmeans_set_niter kmeans niter' =>
      fmap status_only (faiss_Kmeans_set_niter_try kmeans niter')
  | op_faiss_Kmeans_set_verbose kmeans verbose' =>
      fmap status_only (faiss_Kmeans_set_verbose_try kmeans verbose')
  | op_faiss_Kmeans_set_seed kmeans seed' =>
      fmap status_only (faiss_Kmeans_set_seed_try kmeans seed')
  | op_faiss_IndexScalarQuantizer_new d qtype metric_type =>
      fmap with_outs (faiss_IndexScalarQuantizer_new_try d qtype metric_type)
| op_faiss_IndexIVFScalarQuantizer_new quantizer d nlist qtype metric_type
      =>
      fmap with_outs (faiss_IndexIVFScalarQuantizer_new_try quantizer d nlist
          qtype metric_type)
  | op_faiss_IndexBinaryFlat_new d =>
      fmap with_outs (faiss_IndexBinaryFlat_new_try d)
  | op_faiss_IndexBinaryIVF_new quantizer d nlist =>
      fmap with_outs (faiss_IndexBinaryIVF_new_try quantizer d nlist)
  | op_faiss_IndexBinaryHash_new d nbits =>
      fmap with_outs (faiss_IndexBinaryHash_new_try d nbits)
  | op_faiss_IndexBinary_add index n x =>
      fmap status_only (faiss_IndexBinary_add_try index n x)
  | op_faiss_IndexBinary_search index n x k =>
      fmap with_outs (faiss_IndexBinary_search_try index n x k)
  | op_faiss_IndexBinary_train index n x =>
      fmap status_only (faiss_IndexBinary_train_try index n x)
  | op_faiss_IndexBinary_reset index =>
      fmap status_only (faiss_IndexBinary_reset_try index)
  | op_faiss_IndexBinary_ntotal index =>
      fmap with_outs (faiss_IndexBinary_ntotal_try index)
  | op_faiss_IndexBinary_is_trained index =>
      fmap with_outs (faiss_IndexBinary_is_trained_try index)
  | op_faiss_IndexBinaryIVF_set_nprobe index nprobe' =>
      fmap status_only (faiss_IndexBinaryIVF_set_nprobe_try index nprobe')
  | op_faiss_IndexLSH_new d nbits rotate_data train_thresholds =>
      fmap with_outs (faiss_IndexLSH_new_try d nbits rotate_data
          train_thresholds)
  | op_faiss_PCAMatrix_new d_in d_out eigen_power random_rotation =>
      fmap with_outs (faiss_PCAMatrix_new_try d_in d_out eigen_power
          random_rotation)
  | op_faiss_OPQMatrix_new d M =>
      fmap with_outs (faiss_OPQMatrix_new_try d M)
  | op_faiss_RandomRotationMatrix_new d_in d_out =>
      fmap with_outs (faiss_RandomRotationMatrix_new_try d_in d_out)
  | op_faiss_VectorTransform_train transform n x =>
      fmap status_only (faiss_VectorTransform_train_try transform n x)
  | op_faiss_VectorTransform_apply transform n x =>
      fmap with_outs (faiss_VectorTransform_apply_try transform n x)
  | op_faiss_VectorTransform_reverse_transform transform n xt =>
      fmap with_outs (faiss_VectorTransform_reverse_transform_try transform n
          xt)
  | op_faiss_IndexRefine_new base_index refine_index =>
      fmap with_outs (faiss_IndexRefine_new_try base_index refine_index)
  | op_faiss_IndexRefine_set_k_factor index k_factor' =>
      fmap status_only (faiss_IndexRefine_set_k_factor_try index k_factor')
  | op_faiss_IndexPreTransform_new transform base_index =>
      fmap with_outs (faiss_IndexPreTransform_new_try transform base_index)
  | op_faiss_IndexShards_new d metric_type =>
      fmap with_outs (faiss_IndexShards_new_try d metric_type)
  | op_faiss_IndexShards_add_shard index shard =>
      fmap status_only (faiss_IndexShards_add_shard_try index shard)
  | op_faiss_IndexPQFastScan_new d M nbits metric_type =>
      fmap with_outs (faiss_IndexPQFastScan_new_try d M nbits metric_type)
  | op_faiss_IndexIVFPQFastScan_new quantizer d nlist M nbits metric_type =>
      fmap with_outs (faiss_IndexIVFPQFastScan_new_try quantizer d nlist M
          nbits metric_type)
  | op_faiss_IndexPQFastScan_set_bbs index bbs =>
      fmap status_only (faiss_IndexPQFastScan_set_bbs_try index bbs)
  | op_faiss_IndexIVFFlatOnDisk_new quantizer d nlist filename metric_type =>
      fmap with_outs (faiss_IndexIVFFlatOnDisk_new_try quantizer d nlist
          filename metric_type)
| op_faiss_IndexIVFPQOnDisk_new quantizer d nlist M nbits filename
      metric_type =>
      fmap with_outs (faiss_IndexIVFPQOnDisk_new_try quantizer d nlist M nbits
          filename metric_type)
  | op_gpu_faiss_StandardGpuResources_new =>
      fmap with_outs (GpuBuild.faiss_StandardGpuResources_new_try)
  | op_gpu_faiss_StandardGpuResources_setTempMemory res bytes =>
      fmap status_only (GpuBuild.faiss_StandardGpuResources_setTempMemory_try
          res bytes)
  | op_gpu_faiss_StandardGpuResources_setDefaultNullStreamAllDevices res =>
      fmap status_only
          (GpuBuild.faiss_StandardGpuResources_setDefaultNullStreamAllDevices_try res)
  | op_gpu_faiss_GpuIndexFlat_new res d metric_type device =>
      fmap with_outs (GpuBuild.faiss_GpuIndexFlat_new_try res d metric_type
          device)
| op_gpu_faiss_GpuIndexIVFFlat_new res quantizer d nlist metric_type device
      =>
      fmap with_outs (GpuBuild.faiss_GpuIndexIVFFlat_new_try res quantizer d
          nlist metric_type device)
  | op_gpu_faiss_index_cpu_to_gpu res device cpu_index =>
      fmap with_outs (GpuBuild.faiss_index_cpu_to_gpu_try res device cpu_index)
  | op_gpu_faiss_index_gpu_to_cpu gpu_index =>
      fmap gpu_to_cpu_outs (GpuBuild.faiss_index_gpu_to_cpu_try gpu_index)
  | op_gpu_faiss_index_cpu_to_all_gpus cpu_index =>
      fmap with_outs (GpuBuild.faiss_index_cpu_to_all_gpus_try cpu_index)
  | op_gpu_faiss_get_num_gpus =>
      fmap with_outs (GpuBuild.faiss_get_num_gpus_try)
  end.

(** The entry point itself. *)
Definition wrapped_entry (op : Wrapped) : Eff (Z * Outs) :=
  match op with
  | op_faiss_IndexFlatL2_new d =>
      fmap with_outs (faiss_IndexFlatL2_new d)
  | op_faiss_IndexFlatIP_new d =>
      fmap with_outs (faiss_IndexFlatIP_new d)
  | op_faiss_IndexIVFFlat_new quantizer d nlist metric_type =>
      fmap with_outs (faiss_IndexIVFFlat_new quantizer d nlist metric_type)
  | op_faiss_IndexIVF_set_nprobe index nprobe' =>
      fmap status_only (faiss_IndexIVF_set_nprobe index nprobe')
  | op_faiss_IndexIVF_get_nprobe index =>
      fmap with_outs (faiss_IndexIVF_get_nprobe index)
  | op_faiss_IndexHNSWFlat_new d M metric_type =>
      fmap with_outs (faiss_IndexHNSWFlat_new d M metric_type)
  | op_faiss_IndexHNSW_set_efConstruction index ef =>
      fmap status_only (faiss_IndexHNSW_set_efConstruction index ef)
  | op_faiss_IndexHNSW_set_efSearch index ef =>
      fmap status_only (faiss_IndexHNSW_set_efSearch index ef)
  | op_faiss_IndexHNSW_get_efConstruction index =>
      fmap with_outs (faiss_IndexHNSW_get_efConstruction index)
  | op_faiss_IndexHNSW_get_efSearch index =>
      fmap with_outs (faiss_IndexHNSW_get_efSearch index)
  | op_faiss_IndexPQ_new d M nbits metric_type =>
      fmap with_outs (faiss_IndexPQ_new d M nbits metric_type)
  | op_faiss_IndexIVFPQ_new quantizer d nlist M nbits =>
      fmap with_outs (faiss_IndexIVFPQ_new quantizer d nlist M nbits)
  | op_faiss_IndexIDMap_new base_index =>
      fmap with_outs (faiss_IndexIDMap_new base_index)
  | op_faiss_IndexIDMap_add_with_ids index n x ids =>
      fmap status_only (faiss_IndexIDMap_add_with_ids index n x ids)
  | op_faiss_IndexIDMap_remove_ids index ids n_ids =>
      fmap with_outs (faiss_IndexIDMap_remove_ids index ids n_ids)
  | op_faiss_Index_add index n x =>
      fmap status_only (faiss_Index_add index n x)
  | op_faiss_Index_add_with_ids index n x ids =>
      fmap status_only (faiss_Index_add_with_ids index n x ids)
  | op_faiss_Index_search index n x k =>
      fmap with_outs (faiss_Index_search index n x k)
  | op_faiss_Index_range_search index n x radius =>
      fmap with_outs (faiss_Index_range_search index n x radius)
  | op_faiss_RangeSearchResult_get result =>
      fmap with_outs (faiss_RangeSearchResult_get result)
  | op_faiss_Index_train index n x =>
      fmap status_only (faiss_Index_train index n x)
  | op_faiss_Index_assign index n x =>
      fmap with_outs (faiss_Index_assign index n x)
  | op_faiss_Index_reconstruct index key =>
      fmap with_outs (faiss_Index_reconstruct index key)
  | op_faiss_Index_reconstruct_n index i0 ni =>
      fmap with_outs (faiss_Index_reconstruct_n index i0 ni)
  | op_faiss_Index_reset index =>
      fmap status_only (faiss_Index_reset index)
  | op_faiss_write_index index filename =>
      fmap status_only (faiss_write_index index filename)
  | op_faiss_read_index filename =>
      fmap with_outs (faiss_read_index filename)
  | op_faiss_serialize_index index =>
      fmap with_outs (faiss_serialize_index index)
  | op_faiss_deserialize_index data size =>
      fmap with_outs (faiss_deserialize_index data size)
  | op_faiss_Kmeans_new d k =>
      fmap with_outs (faiss_Kmeans_new d k)
  | op_faiss_Kmeans_train kmeans n x =>
      fmap status_only (faiss_Kmeans_train kmeans n x)
  | op_faiss_Kmeans_assign kmeans n x =>
      fmap with_outs (faiss_Kmeans_assign kmeans n x)
  | op_faiss_Kmeans_get_centroids kmeans =>
      fmap with_outs (faiss_Kmeans_get_centroids kmeans)
  | op_faiss_Kmeans_set_niter kmeans niter' =>
      fmap status_only (faiss_Kmeans_set_niter kmeans niter')
  | op_faiss_Kmeans_set_verbose kmeans verbose' =>
      fmap status_only (faiss_Kmeans_set_verbose kmeans verbose')
  | op_faiss_Kmeans_set_seed kmeans seed' =>
      fmap status_only (faiss_Kmeans_set_seed kmeans seed')
  | op_faiss_IndexScalarQuantizer_new d qtype metric_type =>
      fmap with_outs (faiss_IndexScalarQuantizer_new d qtype metric_type)
| op_faiss_IndexIVFScalarQuantizer_new quantizer d nlist qtype metric_type
      =>
      fmap with_outs (faiss_IndexIVFScalarQuantizer_new quantizer d nlist
          qtype metric_type)
  | op_faiss_IndexBinaryFlat_new d =>
      fmap with_outs (faiss_IndexBinaryFlat_new d)
  | op_faiss_IndexBinaryIVF_new quantizer d nlist =>
      fmap with_outs (faiss_IndexBinaryIVF_new quantizer d nlist)
  | op_faiss_IndexBinaryHash_new d nbits =>
      fmap with_outs (faiss_IndexBinaryHash_new d nbits)
  | op_faiss_IndexBinary_add index n x =>
      fmap status_only (faiss_IndexBinary_add index n x)
  | op_faiss_IndexBinary_search index n x k =>
      fmap with_outs (faiss_IndexBinary_search index n x k)
  | op_faiss_IndexBinary_train index n x =>
      fmap status_only (faiss_IndexBinary_train index n x)
  | op_faiss_IndexBinary_reset index =>
      fmap status_only (faiss_IndexBinary_reset index)
  | op_faiss_IndexBinary_ntotal index =>
      fmap with_outs (faiss_IndexBinary_ntotal index)
  | op_faiss_IndexBinary_is_trained index =>
      fmap with_outs (faiss_IndexBinary_is_trained index)
  | op_faiss_IndexBinaryIVF_set_nprobe index nprobe' =>
      fmap status_only (faiss_IndexBinaryIVF_set_nprobe index nprobe')
  | op_faiss_IndexLSH_new d nbits rotate_data train_thresholds =>
      fmap with_outs (faiss_IndexLSH_new d nbits rotate_data train_thresholds)
  | op_faiss_PCAMatrix_new d_in d_out eigen_power random_rotation =>
      fmap with_outs (faiss_PCAMatrix_new d_in d_out eigen_power
          random_rotation)
  | op_faiss_OPQMatrix_new d M =>
      fmap with_outs (faiss_OPQMatrix_new d M)
  | op_faiss_RandomRotationMatrix_new d_in d_out =>
      fmap with_outs (faiss_RandomRotationMatrix_new d_in d_out)
  | op_faiss_VectorTransform_train transform n x =>
      fmap status_only (faiss_VectorTransform_train transform n x)
  | op_faiss_VectorTransform_apply transform n x =>
      fmap with_outs (faiss_VectorTransform_apply transform n x)
  | op_faiss_VectorTransform_reverse_transform transform n xt =>
      fmap with_outs (faiss_VectorTransform_reverse_transform transform n xt)
  | op_faiss_IndexRefine_new base_index refine_index =>
      fmap with_outs (faiss_IndexRefine_new base_index refine_index)
  | op_faiss_IndexRefine_set_k_factor index k_factor' =>
      fmap status_only (faiss_IndexRefine_set_k_factor index k_factor')
  | op_faiss_IndexPreTransform_new transform base_index =>
      fmap with_outs (faiss_IndexPreTransform_new transform base_index)
  | op_faiss_IndexShards_new d metric_type =>
      fmap with_outs (faiss_IndexShards_new d metric_type)
  | op_faiss_IndexShards_add_shard index shard =>
      fmap status_only (faiss_IndexShards_add_shard index shard)
  | op_faiss_IndexPQFastScan_new d M nbits metric_type =>
      fmap with_outs (faiss_IndexPQFastScan_new d M nbits metric_type)
  | op_faiss_IndexIVFPQFastScan_new quantizer d nlist M nbits metric_type =>
      fmap with_outs (faiss_IndexIVFPQFastScan_new quantizer d nlist M nbits
          metric_type)
  | op_faiss_IndexPQFastScan_set_bbs index bbs =>
      fmap status_only (faiss_IndexPQFastScan_set_bbs index bbs)
  | op_faiss_IndexIVFFlatOnDisk_new quantizer d nlist filename metric_type =>
      fmap with_outs (faiss_IndexIVFFlatOnDisk_new quantizer d nlist filename
          metric_type)
| op_faiss_IndexIVFPQOnDisk_new quantizer d nlist M nbits filename
      metric_type =>
      fmap with_outs (faiss_IndexIVFPQOnDisk_new quantizer d nlist M nbits
          filename metric_type)
  | op_gpu_faiss_StandardGpuResources_new =>
      fmap with_outs (GpuBuild.faiss_StandardGpuResources_new)
  | op_gpu_faiss_StandardGpuResources_setTempMemory res bytes =>
      fmap status_only (GpuBuild.faiss_StandardGpuResources_setTempMemory res
          bytes)
  | op_gpu_faiss_StandardGpuResources_setDefaultNullStreamAllDevices res =>
      fmap status_only
          (GpuBuild.faiss_StandardGpuResources_setDefaultNullStreamAllDevices
              res)
  | op_gpu_faiss_GpuIndexFlat_new res d metric_type device =>
      fmap with_outs (GpuBuild.faiss_GpuIndexFlat_new res d metric_type device)
| op_gpu_faiss_GpuIndexIVFFlat_new res quantizer d nlist metric_type device
      =>
      fmap with_outs (GpuBuild.faiss_GpuIndexIVFFlat_new res quantizer d nlist
          metric_type device)
  | op_gpu_faiss_index_cpu_to_gpu res device cpu_index =>
      fmap with_outs (GpuBuild.faiss_index_cpu_to_gpu res device cpu_index)
  | op_gpu_faiss_index_gpu_to_cpu gpu_index =>
      fmap gpu_to_cpu_outs (GpuBuild.faiss_index_gpu_to_cpu gpu_index)
  | op_gpu_faiss_index_cpu_to_all_gpus cpu_index =>
      fmap with_outs (GpuBuild.faiss_index_cpu_to_all_gpus cpu_index)
  | op_gpu_faiss_get_num_gpus =>
      fmap with_outs (GpuBuild.faiss_get_num_gpus)
  end.

End EntryPoints.

(** ** faiss/faiss.cpp: the placeholder implementation

    The same entry points as stubs that touch nothing; [FaissIndex*] is
    an opaque pointer here. *)

Module Amalgamation.

Definition faiss_IndexFlatL2_new (d : Z) : Z * option handle := (-1, None).
Definition faiss_IndexFlatIP_new (d : Z) : Z * option handle := (-1, None).
Definition faiss_Index_add {F} (index : handle) (n : Z) (x : list F) : Z :=
  -1.
Definition faiss_Index_search {F} (index : handle) (n : Z) (x : list F)
    (k : Z) : Z * option (list F * list Z) := (-1, None).
Definition faiss_Index_train {F} (index : handle) (n : Z) (x : list F) : Z :=
  0.
Definition faiss_Index_reset (index : handle) : Z := -1.
Definition faiss_Index_free (index : handle) : unit := tt.
Definition faiss_Index_ntotal (index : handle) : Z := 0.
Definition faiss_Index_d (index : handle) : Z := 0.
Definition faiss_Index_is_trained (index : handle) : Z := 1.

End Amalgamation.

(** ** Every operation crossing the boundary *)

Section Boundary.
Context {ET : EngineTypes} {E : Engine}.

(** What a call hands back through its return value. *)
Inductive Returned :=
  | RStatus (status : Z) (outs : Outs)   (* an [int] status *)
  | RValue (value : Z)                   (* the value asked for *)
  | RVoid.                               (* [void] *)

Definition status_ret (r : Z * Outs) : Returned := RStatus r.1 r.2.

Inductive BoundaryOp :=
  | op_wrapped (op : Wrapped)
  (* accessors and releases of faiss_c_impl.cpp *)
  | op_faiss_Index_ntotal (index : handle)
  | op_faiss_Index_is_trained (index : handle)
  | op_faiss_Index_d (index : handle)
  | op_faiss_Index_free (index : handle)
  | op_faiss_RangeSearchResult_free (result : handle)
  | op_faiss_Kmeans_free (kmeans : handle)
  | op_faiss_IndexBinary_free (index : handle)
  | op_faiss_VectorTransform_free (transform : handle)
  | op_gpu_faiss_StandardGpuResources_free (res : handle)
  (* the stubs of a build without FAISS_GPU *)
  | op_stub_faiss_StandardGpuResources_new
  | op_stub_faiss_StandardGpuResources_setTempMemory (res : handle)
      (bytes : Z)
  | op_stub_faiss_StandardGpuResources_setDefaultNullStreamAllDevices
      (res : handle)
  | op_stub_faiss_StandardGpuResources_free (res : handle)
  | op_stub_faiss_GpuIndexFlat_new (res : handle) (d : Z) (metric_type : Z)
      (device : Z)
  | op_stub_faiss_GpuIndexIVFFlat_new (res quantizer : handle) (d nlist : Z)
      (metric_type : Z) (device : Z)
  | op_stub_faiss_index_cpu_to_gpu (res : handle) (device : Z)
      (cpu_index : handle)
  | op_stub_faiss_index_gpu_to_cpu (gpu_index : handle)
  | op_stub_faiss_index_cpu_to_all_gpus (cpu_index : handle)
  | op_stub_faiss_get_num_gpus
  (* faiss/faiss.cpp *)
  | op_amalg_faiss_IndexFlatL2_new (d : Z)
  | op_amalg_faiss_IndexFlatIP_new (d : Z)
  | op_amalg_faiss_Index_add (index : handle) (n : Z) (x : list float)
  | op_amalg_faiss_Index_search (index : handle) (n : Z) (x : list float)
      (k : Z)
  | op_amalg_faiss_Index_train (index : handle) (n : Z) (x : list float)
  | op_amalg_faiss_Index_reset (index : handle)
  | op_amalg_faiss_Index_free (index : handle)
  | op_amalg_faiss_Index_ntotal (index : handle)
  | op_amalg_faiss_Index_d (index : handle)
  | op_amalg_faiss_Index_is_trained (index : handle).

Definition void (m : Eff unit) : Eff Returned := fmap (fun _ => RVoid) m.
Definition with_status {A} (m : Eff (Z * option A)) : Eff Returned :=
  fmap (fun r => status_ret (with_outs r)) m.
Definition just_status (m : Eff Z) : Eff Returned :=
  fmap (fun s => status_ret (status_only s)) m.

Definition boundary (op : BoundaryOp) : Eff Returned :=
  match op with
  | op_wrapped op => fmap status_ret (wrapped_entry op)
  | op_faiss_Index_ntotal index => fmap RValue (faiss_Index_ntotal index)
  | op_faiss_Index_is_trained index =>
      fmap RValue (faiss_Index_is_trained index)
  | op_faiss_Index_d index => fmap RValue (faiss_Index_d index)
  | op_faiss_Index_free index => void (faiss_Index_free index)
  | op_faiss_RangeSearchResult_free result =>
      void (faiss_RangeSearchResult_free result)
  | op_faiss_Kmeans_free kmeans => void (faiss_Kmeans_free kmeans)
  | op_faiss_IndexBinary_free index => void (faiss_IndexBinary_free index)
  | op_faiss_VectorTransform_free transform =>
      void (faiss_VectorTransform_free transform)
  | op_gpu_faiss_StandardGpuResources_free res =>
      void (GpuBuild.faiss_StandardGpuResources_free res)
  | op_stub_faiss_StandardGpuResources_new =>
      with_status StubBuild.faiss_StandardGpuResources_new
  | op_stub_faiss_StandardGpuResources_setTempMemory res bytes =>
      just_status (StubBuild.faiss_StandardGpuResources_setTempMemory
                     res bytes)
  | op_stub_faiss_StandardGpuResources_setDefaultNullStreamAllDevices res =>
      just_status
        (StubBuild.faiss_StandardGpuResources_setDefaultNullStreamAllDevices
           res)
  | op_stub_faiss_StandardGpuResources_free res =>
      void (StubBuild.faiss_StandardGpuResources_free res)
  | op_stub_faiss_GpuIndexFlat_new res d metric_type device =>
      with_status (StubBuild.faiss_GpuIndexFlat_new res d metric_type device)
  | op_stub_faiss_GpuIndexIVFFlat_new res quantizer d nlist metric_type
      device =>
      with_status (StubBuild.faiss_GpuIndexIVFFlat_new res quantizer d nlist
                     metric_type device)
  | op_stub_faiss_index_cpu_to_gpu res device cpu_index =>
      with_status (StubBuild.faiss_index_cpu_to_gpu res device cpu_index)
  | op_stub_faiss_index_gpu_to_cpu gpu_index =>
      with_status (StubBuild.faiss_index_gpu_to_cpu gpu_index)
  | op_stub_faiss_index_cpu_to_all_gpus cpu_index =>
      with_status (StubBuild.faiss_index_cpu_to_all_gpus cpu_index)
  | op_stub_faiss_get_num_gpus => with_status StubBuild.faiss_get_num_gpus
  | op_amalg_faiss_IndexFlatL2_new d =>
      with_status (ret (Amalgamation.faiss_IndexFlatL2_new d))
  | op_amalg_faiss_IndexFlatIP_new d =>
      with_status (ret (Amalgamation.faiss_IndexFlatIP_new d))
  | op_amalg_faiss_Index_add index n x =>
      just_status (ret (Amalgamation.faiss_Index_add index n x))
  | op_amalg_faiss_Index_search index n x k =>
      with_status (ret (Amalgamation.faiss_Index_search index n x k))
  | op_amalg_faiss_Index_train index n x =>
      just_status (ret (Amalgamation.faiss_Index_train index n x))
  | op_amalg_faiss_Index_reset index =>
      just_status (ret (Amalgamation.faiss_Index_reset index))
  | op_amalg_faiss_Index_free index =>
      void (ret (Amalgamation.faiss_Index_free index))
  | op_amalg_faiss_Index_ntotal index =>
      fmap RValue (ret (Amalgamation.faiss_Index_ntotal index))
  | op_amalg_faiss_Index_d index =>
      fmap RValue (ret (Amalgamation.faiss_Index_d index))
  | op_amalg_faiss_Index_is_trained index =>
      fmap RValue (ret (Amalgamation.faiss_Index_is_trained index))
  end.

End Boundary.

(** ** Variant-tag recovery, as the specification words it

    Probe the reconstructed handle against a fixed, ordered list of known
    variants and return the first match. *)

Definition candidate_variants : list (CxxClass * string) :=
  [ (IndexFlatL2, "IndexFlatL2"); (IndexFlatIP, "IndexFlatIP");
    (IndexIVFFlat, "IndexIVFFlat"); (IndexIVFPQ, "IndexIVFPQ");
    (IndexHNSWFlat, "IndexHNSWFlat"); (IndexPQ, "IndexPQ");
    (IndexIDMap, "IndexIDMap") ]%string.

Definition first_match `{Engine} (c : CxxClass) : string :=
  match List.find (fun v => derives c v.1) candidate_variants with
  | Some v => v.2
  | None => "Unknown"%string
  end.

(** The members an index is known by across a round trip. *)
Definition same_header `{EngineTypes} (o o' : Index) : Prop :=
  dyn_class o' = dyn_class o /\ d o' = d o /\ ntotal o' = ntotal o /\
  is_trained o' = is_trained o /\ metric_type o' = metric_type o.

(** ** The class hierarchy of the engine's headers

    [IndexIVFFlat], [IndexIVFPQ] and [IndexIVFScalarQuantizer] derive from
    [IndexIVF], [IndexHNSWFlat] from [IndexHNSW]; the other classes named
    by the facade are unrelated to each other. *)

Definition faiss_derives (c t : CxxClass) : bool :=
  bool_decide (c = t) ||
  match c, t with
  | IndexIVFFlat, IndexIVF | IndexIVFPQ, IndexIVF
  | IndexIVFScalarQuantizer, IndexIVF => true
  | IndexHNSWFlat, IndexHNSW => true
  | _, _ => false
  end.

(** ** A header-only engine

    An engine instance whose indexes are nothing but their headers.  Its
    buffer and file format is a plain little-endian layout of the header;
    it stands in for the engine's opaque format where a round trip has to
    be run. *)

Module HeaderEngine.

Record State := mkState {
  next_handle : Z;
  files : gmap string (list Byte.byte);
}.

#[export] Instance types : EngineTypes :=
  {| float := Z; EngineState := State |}.

Definition class_code (c : CxxClass) : option Z :=
  match c with
  | IndexFlatL2 => Some 0 | IndexFlatIP => Some 1 | IndexIVF => Some 2
  | IndexIVFFlat => Some 3 | IndexIVFPQ => Some 4 | IndexHNSW => Some 5
  | IndexHNSWFlat => Some 6 | IndexPQ => Some 7 | IndexIDMap => Some 8
  | IndexScalarQuantizer => Some 9 | IndexIVFScalarQuantizer => Some 10
  | IndexLSH => Some 11 | IndexRefine => Some 12
  | IndexPreTransform => Some 13 | IndexShards => Some 14
  | _ => None
  end.

Definition code_class (z : Z) : option CxxClass :=
  List.find (fun c => bool_decide (class_code c = Some z))
    [IndexFlatL2; IndexFlatIP; IndexIVF; IndexIVFFlat; IndexIVFPQ;
     IndexHNSW; IndexHNSWFlat; IndexPQ; IndexIDMap; IndexScalarQuantizer;
     IndexIVFScalarQuantizer; IndexLSH; IndexRefine; IndexPreTransform;
     IndexShards].

Definition byte_of (z : Z) : Byte.byte :=
  default Byte.x00 (Byte.of_N (Z.to_N (z mod 256))).
Definition byte_val (b : Byte.byte) : Z := Z.of_N (Byte.to_N b).

Fixpoint le_bytes (n : nat) (z : Z) : list Byte.byte :=
  match n with
  | O => []
  | S n' => byte_of z :: le_bytes n' (z / 256)
  end.

Fixpoint le_value (bs : list Byte.byte) : Z :=
  match bs with
  | [] => 0
  | b :: bs' => byte_val b + 256 * le_value bs'
  end.

Definition encode (o : Index) : option (list Byte.byte) :=
  match class_code (dyn_class o) with
  | Some c =>
      if decide (0 <= d o < 2 ^ 31 /\ 0 <= ntotal o < 2 ^ 63) then
        Some ([byte_of c; byte_of (if is_trained o then 1 else 0);
               byte_of (metric_to_int (metric_type o))]
              ++ le_bytes 4 (d o) ++ le_bytes 8 (ntotal o))
      else None
  | None => None
  end.

Definition decode (bs : list Byte.byte) : option Index :=
  match bs with
  | c :: t :: m :: rest =>
      if decide (length rest = 12%nat) then
        match code_class (byte_val c) with
        | Some cls =>
            Some (mkIndex cls (le_value (take 4 rest))
                    (le_value (drop 4 rest))
                    (bool_decide (byte_val t <> 0))
                    (if decide (byte_val m = 0) then METRIC_INNER_PRODUCT
                     else METRIC_L2)
                    1 40 16 1)
        | None => None
        end
      else None
  | _ => None
  end.

Definition alloc (o : Index) : Eff handle :=
  fun w =>
    let st := engine_state w in
    let h := Z.max 1 (next_handle st) in
    Ok h (mkWorld (<[h := o]> (indexes w)) (binaries w) (clusterings w)
            (range_results w) (mkState (h + 1) (files st))).

Definition throw {A} : Eff A := fun w => Throw w.

(** The inverted-file constructors read the quantizer they are given: it
    has to designate an index. *)
Definition with_quantizer {A} (quantizer : handle) (m : Eff A) : Eff A :=
  fun w => match indexes w !! quantizer with
           | Some _ => m w
           | None => UB
           end.

Definition write_bytes (index : handle) : Eff (list Byte.byte) :=
  fun w => match indexes w !! index with
           | Some o => match encode o with
                       | Some bs => Ok bs w
                       | None => Throw w
                       end
           | None => UB
           end.

Definition read_bytes (bs : list Byte.byte) : Eff handle :=
  match decode bs with
  | Some o => alloc o
  | None => throw
  end.

Definition run (A : Type) (c : Call A) : Eff A :=
  match c in Call T return Eff T with
  | write_index_writer index => write_bytes index
  | read_index_reader data => read_bytes data
  | write_index_file index filename =>
      do bs <- write_bytes index;
      modify (fun w =>
        mkWorld (indexes w) (binaries w) (clusterings w) (range_results w)
          (mkState (next_handle (engine_state w))
             (<[filename := bs]> (files (engine_state w)))))
  | read_index_file filename =>
      do w <- get_world;
      match files (engine_state w) !! filename with
      | Some bs => read_bytes bs
      | None => throw
      end
  | Malloc size => ret true
  | Local_VectorIOReader size => ret tt
  | Delete_Index index =>
      modify (fun w => set_indexes (delete index (indexes w)) w)
  | New_IndexFlatL2 dim => alloc (mkIndex IndexFlatL2 dim 0 true METRIC_L2 1
      40 16 1)
  | New_IndexFlatIP dim =>
      alloc (mkIndex IndexFlatIP dim 0 true METRIC_INNER_PRODUCT 1 40 16 1)
  | New_IndexIVFFlat quantizer dim nlist metric =>
      with_quantizer quantizer
        (alloc (mkIndex IndexIVFFlat dim 0 false metric 1 40 16 1))
  | New_IndexIVFPQ quantizer dim nlist M nbits metric =>
      (* a metric left out is the constructor's default *)
      with_quantizer quantizer
        (alloc (mkIndex IndexIVFPQ dim 0 false (default METRIC_L2 metric)
                  1 40 16 1))
  | New_IndexHNSWFlat dim M metric =>
      alloc (mkIndex IndexHNSWFlat dim 0 true metric 1 40 16 1)
  | _ => throw
  end.

#[export] Instance header_engine : Engine :=
  {| engine := run; derives := faiss_derives |}.

End HeaderEngine.

(** ** The Flat(L2) and IDMap variants, modelled from the specification

    The engine's index algorithms are not among the facade's sources.
    The instance below models the two variants the facade's contracts
    rest on.  It is parameterised by the engine's distance computation
    and comparison on [float]. *)

Module SpecEngine.
Section SpecEngine.

Variable F : Type.
(** The engine's squared L2 distance between two vectors. *)
Variable fvec_L2sqr : list F -> list F -> F.
(** [a < b] on distances. *)
Variable flt : F -> F -> bool.
(** The distance reported for a query against an empty index. *)
Variable finf : F.

Record State := mkState {
  next_handle : Z;
  (* Flat: the stored vectors, by dense position *)
  rows : gmap Z (list (list F));
  (* IDMap: the wrapped index and the external id of each dense position *)
  id_map : gmap Z (handle * list Z);
}.

#[local] Instance types : EngineTypes :=
  {| float := F; EngineState := State |}.

Definition throw {A} : Eff A := fun w => Throw w.

Definition set_state (st : State) (w : World) : World :=
  mkWorld (indexes w) (binaries w) (clusterings w) (range_results w) st.

Definition set_ntotal (n : Z) (o : Index) : Index :=
  mkIndex (dyn_class o) (d o) n (is_trained o) (metric_type o) (nprobe o)
    (efConstruction o) (efSearch o) (k_factor o).

Definition is_flat (o : Index) : bool :=
  bool_decide (dyn_class o = IndexFlatL2 \/ dyn_class o = IndexFlatIP).

(** [n] vectors of dimension [dim] laid out row-major in [x]. *)
Fixpoint chunks (dim n : nat) (x : list F) : list (list F) :=
  match n with
  | O => []
  | S n' => take dim x :: chunks dim n' (drop dim x)
  end.

Definition rows_of (dim n : Z) (x : list F) : option (list (list F)) :=
  if decide (0 < dim /\ 0 <= n /\ n * dim <= Z.of_nat (length x)) then
    Some (chunks (Z.to_nat dim) (Z.to_nat n) x)
  else None.

(** Modelled from the spec: the exact search of a Flat(L2) index, which is
    engine code.  One neighbour: scan the stored vectors and keep the
    first one no other is strictly closer than. *)
Fixpoint nearest_from (q : list F) (i : Z) (best : Z * F)
    (stored : list (list F)) : Z * F :=
  match stored with
  | [] => best
  | r :: rs =>
      let dr := fvec_L2sqr q r in
      nearest_from q (i + 1) (if flt dr best.2 then (i, dr) else best) rs
  end.

Definition nearest (q : list F) (stored : list (list F)) : Z * F :=
  match stored with
  | [] => (-1, finf)
  | r :: rs => nearest_from q 1 (0, fvec_L2sqr q r) rs
  end.

Definition alloc_index (o : Index) (stored : list (list F)) : Eff handle :=
  fun w =>
    let st := engine_state w in
    let h := Z.max 1 (next_handle st) in
    Ok h (mkWorld (<[h := o]> (indexes w)) (binaries w) (clusterings w)
            (range_results w)
            (mkState (h + 1) (<[h := stored]> (rows st)) (id_map st))).

(** Modelled from the spec: the Flat constructor, which is engine code.
    Flat (exact, always trained), empty when built. *)
Definition new_flat (cls : CxxClass) (metric : MetricType) (dim : Z)
  : Eff handle :=
  alloc_index (mkIndex cls dim 0 true metric 1 40 16 finf) [].

(** Modelled from the spec: [add] of a Flat index, which is engine code.
    [add(n, vectors)] appends n vectors and increases ntotal by n. *)
Definition flat_add (index : handle) (n : Z) (x : list F) : Eff unit :=
  fun w =>
    match indexes w !! index, rows (engine_state w) !! index with
    | Some o, Some stored =>
        if is_flat o then
          match rows_of (d o) n x with
          | Some new =>
              Ok tt (mkWorld
                       (<[index := set_ntotal (ntotal o + n) o]> (indexes w))
                       (binaries w) (clusterings w) (range_results w)
                       (mkState (next_handle (engine_state w))
                          (<[index := stored ++ new]> (rows (engine_state w)))
                          (id_map (engine_state w))))
          | None => UB
          end
        else Throw w
    | _, _ => UB
    end.

(** Modelled from the spec: [search] of a Flat(L2) index, which is engine
    code.  [search(n, queries, 1)] gives one label and one distance per
    query; searches for more than one neighbour are not modelled. *)
Definition flat_search (index : handle) (n : Z) (x : list F) (k : Z)
  : Eff (list F * list Z) :=
  fun w =>
    match indexes w !! index, rows (engine_state w) !! index with
    | Some o, Some stored =>
        if decide (dyn_class o = IndexFlatL2 /\ k = 1) then
          match rows_of (d o) n x with
          | Some qs =>
              let found := (fun q => nearest q stored) <$> qs in
              Ok (snd <$> found, fst <$> found) w
          | None => UB
          end
        else Throw w
    | _, _ => UB
    end.

Definition destroy (index : handle) : Eff unit :=
  fun w =>
    match indexes w !! index with
    | Some _ =>
        Ok tt (mkWorld (delete index (indexes w)) (binaries w)
                 (clusterings w) (range_results w)
                 (mkState (next_handle (engine_state w))
                    (delete index (rows (engine_state w)))
                    (delete index (id_map (engine_state w)))))
    | None => UB
    end.

(** Modelled from the spec: the IDMap constructor, which is engine code.
    IDMap wraps a base index and starts with an empty id mapping.  Only
    an empty Flat base is modelled. *)
Definition new_idmap (base_index : handle) : Eff handle :=
  fun w =>
    match indexes w !! base_index, rows (engine_state w) !! base_index with
    | Some b, Some _ =>
        if decide (ntotal b = 0 /\ is_flat b = true) then
          let st := engine_state w in
          let h := Z.max 1 (next_handle st) in
          Ok h (mkWorld
                  (<[h := mkIndex IndexIDMap (d b) 0 (is_trained b)
                            (metric_type b) 1 40 16 finf]> (indexes w))
                  (binaries w) (clusterings w) (range_results w)
                  (mkState (h + 1) (rows st)
                     (<[h := (base_index, [])]> (id_map st))))
        else Throw w
    | Some _, None => Throw w
    | None, _ => UB
    end.

(** Modelled from the spec: [add_with_ids] of IDMap, which is engine code.
    It inserts: the vectors go to the base index, their external ids are
    appended to the mapping, ntotal grows by n. *)
Definition idmap_add_with_ids (index : handle) (n : Z) (x : list F)
    (ids : list Z) : Eff unit :=
  fun w =>
    match indexes w !! index, id_map (engine_state w) !! index with
    | Some o, Some (base, known) =>
        if decide (0 <= n <= Z.of_nat (length ids)) then
          match flat_add base n x w with
          | Ok _ w' =>
              Ok tt (mkWorld
                       (<[index := set_ntotal (ntotal o + n) o]> (indexes w'))
                       (binaries w') (clusterings w') (range_results w')
                       (mkState (next_handle (engine_state w'))
                          (rows (engine_state w'))
                          (<[index := (base, known ++ take (Z.to_nat n) ids)]>
                             (id_map (engine_state w')))))
          | Throw w' => Throw w'
          | UB => UB
          end
        else UB
    | Some _, None => Throw w
    | None, _ => UB
    end.

(** The ids an [IDSelectorBatch] selects. *)
Definition selected (sel : IDSelector) : option (gset Z) :=
  match sel with
  | IDSelectorBatch n ids =>
      if decide (0 <= n <= Z.of_nat (length ids)) then
        Some (list_to_set (take (Z.to_nat n) ids))
      else None
  end.

Definition kept (sel : gset Z) (id : Z) : bool := bool_decide (id ∉ sel).

(** Modelled from the spec: [remove_ids] of IDMap, which is engine code.
    It removes by a batch membership test, compacts the dense storage and
    returns the exact count removed. *)
Definition idmap_remove_ids (index : handle) (sel : IDSelector) : Eff Z :=
  fun w =>
    match indexes w !! index, id_map (engine_state w) !! index with
    | Some o, Some (base, known) =>
        match selected sel, indexes w !! base,
              rows (engine_state w) !! base with
        | Some ids, Some b, Some stored =>
            let known' := List.filter (kept ids) known in
            let stored' :=
              snd <$> List.filter (fun r => kept ids r.1) (zip known stored) in
            let nremove := Z.of_nat (length known) - Z.of_nat (length known') in
            Ok nremove
              (mkWorld
                 (<[index := set_ntotal (ntotal o - nremove) o]>
                    (<[base := set_ntotal (ntotal b - nremove) b]>
                       (indexes w)))
                 (binaries w) (clusterings w) (range_results w)
                 (mkState (next_handle (engine_state w))
                    (<[base := stored']> (rows (engine_state w)))
                    (<[index := (base, known')]> (id_map (engine_state w)))))
        | _, _, _ => UB
        end
    | Some _, None => Throw w
    | None, _ => UB
    end.

Definition run (A : Type) (c : Call A) : Eff A :=
  match c in Call T return Eff T with
  | New_IndexFlatL2 dim => new_flat IndexFlatL2 METRIC_L2 dim
  | New_IndexFlatIP dim => new_flat IndexFlatIP METRIC_INNER_PRODUCT dim
  | Local_IndexFlatL2 dim => new_flat IndexFlatL2 METRIC_L2 dim
  | New_IndexIDMap base_index => new_idmap base_index
  | New_IDSelectorBatch n ids => ret (IDSelectorBatch n ids)
  | Local_vector_float n => if decide (0 <= n) then ret tt else throw
  | Delete_Index index => destroy index
  | Destroy_Local_IndexFlatL2 index => destroy index
  | Index_add index n x => flat_add index n x
  | Index_add_with_ids index n x ids => idmap_add_with_ids index n x ids
  | Index_search index n x k => flat_search index n x k
  | Index_remove_ids index sel => idmap_remove_ids index sel
  | _ => throw
  end.

#[local] Instance spec_engine : Engine :=
  {| engine := run; derives := faiss_derives |}.

(** An IDMap index populated via [add_with_ids]: built by
    [faiss_IndexIDMap_new], then filled by successful calls of
    [faiss_IndexIDMap_add_with_ids]; [known] lists the ids given so far. *)
Inductive populated (index : handle) : World -> list Z -> Prop :=
  | populated_new base_index w w' :
      faiss_IndexIDMap_new base_index w = Ok (0, Some index) w' ->
      populated index w' []
  | populated_add w known n x ids w' :
      populated index w known ->
      faiss_IndexIDMap_add_with_ids index n x ids w = Ok 0 w' ->
      populated index w' (known ++ take (Z.to_nat n) ids).

(** What [populated] keeps true of the world. *)
Definition idmap_state (index : handle) (known : list Z) (w : World)
  : Prop :=
  exists o base,
    index <> NULL /\
    indexes w !! index = Some o /\ dyn_class o = IndexIDMap /\
    id_map (engine_state w) !! index = Some (base, known) /\
    is_Some (indexes w !! base) /\
    is_Some (rows (engine_state w) !! base) /\
    ntotal o = Z.of_nat (length known).

End SpecEngine.
End SpecEngine.

(** ** Predicates used by the statements *)

Section Predicates.
Context {ET : EngineTypes} {E : Engine}.

(** [index] designates a live index that is not a [t]. *)
Definition not_a (t : CxxClass) (index : handle) (w : World) : Prop :=
  exists o, indexes w !! index = Some o /\ derives (dyn_class o) t = false.

Definition not_a_binary (t : CxxClass) (index : handle) (w : World) : Prop :=
  exists o, binaries w !! index = Some o /\ derives (bdyn_class o) t = false.

(** How the result of an entry point relates to the result of its [try]
    block. *)
Definition handled (t e : Res (Z * Outs)) : Prop :=
  match t with
  | Ok r w' => e = Ok r w'
  | Throw w' => exists o, o <> Delivered /\ e = Ok (-1, o) w'
  | UB => e = UB
  end.

(** An entry point that only constructs: [*p = new ...; return 0;] under
    the handler. *)
Definition constructs (c : Call handle) : Eff (Z * option handle) :=
  CATCH_AND_HANDLE failure (do p <- engine c; ret (0, Some p)).

(** The [if ... else if ...] chain both readers run on the handle they
    have reconstructed, and the report that follows it. *)
Definition probe_chain (p : handle) : Eff string :=
  do c <- is_a IndexFlatL2 p;
  if c then ret "IndexFlatL2"%string else
  do c <- is_a IndexFlatIP p;
  if c then ret "IndexFlatIP"%string else
  do c <- is_a IndexIVFFlat p;
  if c then ret "IndexIVFFlat"%string else
  do c <- is_a IndexIVFPQ p;
  if c then ret "IndexIVFPQ"%string else
  do c <- is_a IndexHNSWFlat p;
  if c then ret "IndexHNSWFlat"%string else
  do c <- is_a IndexPQ p;
  if c then ret "IndexPQ"%string else
  do c <- is_a IndexIDMap p;
  if c then ret "IndexIDMap"%string else
  ret "Unknown"%string.

Definition report (p : handle) : Eff (Z * option ReadInfo) :=
  do index_type <- probe_chain p;
  do o <- deref_index p;
  ret (0, Some (mkReadInfo p index_type (d o)
                  (metric_to_int (metric_type o)) (ntotal o))).

(** The engine's format is stable for the index at [index] in [w]: what
    the engine writes for it there, it reads back, in whatever world, as
    an index with the same header. *)
Definition format_stable_for (index : handle) (w : World) : Prop :=
  forall o bytes wa wb p wc,
    indexes w !! index = Some o ->
    engine (write_index_writer index) w = Ok bytes wa ->
    engine (read_index_reader bytes) wb = Ok p wc ->
    p <> NULL /\ exists o', indexes wc !! p = Some o' /\ same_header o o'.

End Predicates.

(** ** The constructors that take a [metric_type] *)

Section MetricConstructors.
Context {ET : EngineTypes} {E : Engine}.

(** A constructor entry point with its arguments other than the metric. *)
Inductive MetricCtor :=
  | ctor_IndexIVFFlat (quantizer : handle) (d nlist : Z)
  | ctor_IndexHNSWFlat (d M : Z)
  | ctor_IndexPQ (d M nbits : Z)
  | ctor_IndexScalarQuantizer (d qtype : Z)
  | ctor_IndexIVFScalarQuantizer (quantizer : handle) (d nlist qtype : Z)
  | ctor_IndexPQFastScan (d M nbits : Z)
  | ctor_IndexIVFPQFastScan (quantizer : handle) (d nlist M nbits : Z)
  | ctor_IndexIVFFlatOnDisk (quantizer : handle) (d nlist : Z)
      (filename : string)
  | ctor_IndexIVFPQOnDisk (quantizer : handle) (d nlist M nbits : Z)
      (filename : string).

Definition metric_entry (c : MetricCtor) (metric_type : Z)
  : Eff (Z * option handle) :=
  match c with
  | ctor_IndexIVFFlat quantizer d nlist =>
      faiss_IndexIVFFlat_new quantizer d nlist metric_type
  | ctor_IndexHNSWFlat d M => faiss_IndexHNSWFlat_new d M metric_type
  | ctor_IndexPQ d M nbits => faiss_IndexPQ_new d M nbits metric_type
  | ctor_IndexScalarQuantizer d qtype =>
      faiss_IndexScalarQuantizer_new d qtype metric_type
  | ctor_IndexIVFScalarQuantizer quantizer d nlist qtype =>
      faiss_IndexIVFScalarQuantizer_new quantizer d nlist qtype metric_type
  | ctor_IndexPQFastScan d M nbits =>
      faiss_IndexPQFastScan_new d M nbits metric_type
  | ctor_IndexIVFPQFastScan quantizer d nlist M nbits =>
      faiss_IndexIVFPQFastScan_new quantizer d nlist M nbits metric_type
  | ctor_IndexIVFFlatOnDisk quantizer d nlist filename =>
      faiss_IndexIVFFlatOnDisk_new quantizer d nlist filename metric_type
  | ctor_IndexIVFPQOnDisk quantizer d nlist M nbits filename =>
      faiss_IndexIVFPQOnDisk_new quantizer d nlist M nbits filename
        metric_type
  end.

(** The engine constructor the entry point reaches, for a given metric. *)
Definition engine_constructor (c : MetricCtor) (metric : MetricType)
  : Call handle :=
  match c with
  | ctor_IndexIVFFlat quantizer d nlist =>
      New_IndexIVFFlat quantizer d nlist metric
  | ctor_IndexHNSWFlat d M => New_IndexHNSWFlat d M metric
  | ctor_IndexPQ d M nbits => New_IndexPQ d M nbits metric
  | ctor_IndexScalarQuantizer d qtype =>
      New_IndexScalarQuantizer d qtype metric
  | ctor_IndexIVFScalarQuantizer quantizer d nlist qtype =>
      New_IndexIVFScalarQuantizer quantizer d nlist qtype metric
  | ctor_IndexPQFastScan d M nbits => New_IndexPQ d M nbits metric
  | ctor_IndexIVFPQFastScan quantizer d nlist M nbits =>
      New_IndexIVFPQ quantizer d nlist M nbits (Some metric)
  | ctor_IndexIVFFlatOnDisk quantizer d nlist filename =>
      New_IndexIVFFlat quantizer d nlist metric
  | ctor_IndexIVFPQOnDisk quantizer d nlist M nbits filename =>
      New_IndexIVFPQ quantizer d nlist M nbits (Some metric)
  end.

(** The IndexIVFPQ constructor of the engine's headers takes L2 for a
    metric argument that is left out. *)
Definition default_metric_is_L2 : Prop :=
  forall quantizer d nlist M nbits w,
    engine (New_IndexIVFPQ quantizer d nlist M nbits None) w =
    engine (New_IndexIVFPQ quantizer d nlist M nbits (Some METRIC_L2)) w.

End MetricConstructors.

(** ** The status convention *)

Section Convention.
Context {ET : EngineTypes} {E : Engine}.

(** The entry points whose return value is the value asked for. *)
Definition returns_value (op : BoundaryOp) : bool :=
  match op with
  | op_faiss_Index_ntotal _ | op_faiss_Index_is_trained _
  | op_faiss_Index_d _ | op_amalg_faiss_Index_ntotal _
  | op_amalg_faiss_Index_d _ | op_amalg_faiss_Index_is_trained _ => true
  | _ => false
  end.

(** The entry points declared [void]. *)
Definition returns_void (op : BoundaryOp) : bool :=
  match op with
  | op_faiss_Index_free _ | op_faiss_RangeSearchResult_free _
  | op_faiss_Kmeans_free _ | op_faiss_IndexBinary_free _
  | op_faiss_VectorTransform_free _
  | op_gpu_faiss_StandardGpuResources_free _
  | op_stub_faiss_StandardGpuResources_free _
  | op_amalg_faiss_Index_free _ => true
  | _ => false
  end.

(** The integer a call returns, if it returns one. *)
Definition returned_int (r : Returned) : option Z :=
  match r with
  | RStatus status _ => Some status
  | RValue value => Some value
  | RVoid => None
  end.

(** 0 with the outputs delivered, or -1 with none. *)
Definition conventional (status : Z) (outs : Outs) : Prop :=
  (status = 0 /\ outs <> Unset) \/ (status = -1 /\ outs <> Delivered).

(** The entry point that assigns only some of its output parameters
    before it returns 0: [faiss_index_gpu_to_cpu] of the build with
    FAISS_GPU never writes [index_type]. *)
Definition skips_an_output (op : BoundaryOp) : bool :=
  match op with
  | op_wrapped (op_gpu_faiss_index_gpu_to_cpu _) => true
  | _ => false
  end.

(** What an accessor is asked for: the member of the index the handle
    designates, the trained flag as 1 or 0; the placeholder of
    faiss/faiss.cpp answers with constants. *)
Definition accessor_value (op : BoundaryOp) (w : World) : option Z :=
  match op with
  | op_faiss_Index_ntotal index => ntotal <$> indexes w !! index
  | op_faiss_Index_is_trained index =>
      (fun o => if is_trained o then 1 else 0) <$> indexes w !! index
  | op_faiss_Index_d index => d <$> indexes w !! index
  | op_amalg_faiss_Index_ntotal _ => Some 0
  | op_amalg_faiss_Index_d _ => Some 0
  | op_amalg_faiss_Index_is_trained _ => Some 1
  | _ => None
  end.

End Convention.

(** ** Worlds to run the facade on *)

Definition header_world0 : @World HeaderEngine.types :=
  @mkWorld HeaderEngine.types ∅ ∅ ∅ ∅ (HeaderEngine.mkState 1 ∅).

(** One trained Flat(L2) index of 10 vectors of dimension 4, at handle 1. *)
Definition flat_world : @World HeaderEngine.types :=
  @mkWorld HeaderEngine.types
    {[ 1 := @mkIndex HeaderEngine.types
              IndexFlatL2 4 10 true METRIC_L2 1 40 16 1 ]}
    ∅ ∅ ∅ (HeaderEngine.mkState 2 ∅).


Definition flat_index : @Index HeaderEngine.types :=
  @mkIndex HeaderEngine.types IndexFlatL2 4 10 true METRIC_L2 1 40 16 1.

(** The header-only engine's serialized form of [flat_index]. *)
Definition flat_bytes : list Byte.byte :=
  Eval vm_compute in default [] (HeaderEngine.encode flat_index).

(** [flat_world] after [flat_bytes] has been read back, at handle 2. *)
Definition flat_world_read_back : @World HeaderEngine.types :=
  @mkWorld HeaderEngine.types
    (<[2 := flat_index]> {[ 1 := flat_index ]})
    ∅ ∅ ∅ (HeaderEngine.mkState 3 ∅).

(** [flat_world] with the index also written to the file "flat.index". *)
Definition flat_world_on_file : @World HeaderEngine.types :=
  @mkWorld HeaderEngine.types {[ 1 := flat_index ]}
    ∅ ∅ ∅
    (HeaderEngine.mkState 2 {[ "flat.index"%string := flat_bytes ]}).

Definition flat_world_file_read : @World HeaderEngine.types :=
  @mkWorld HeaderEngine.types
    (<[2 := flat_index]> {[ 1 := flat_index ]})
    ∅ ∅ ∅
    (HeaderEngine.mkState 3 {[ "flat.index"%string := flat_bytes ]}).


(** An instance of the modelled engine with integer coordinates. *)
Definition l2sqr_Z (a b : list Z) : Z :=
  foldr Z.add 0 (zip_with (fun x y => (x - y) * (x - y)) a b).

Definition spec_types_Z : EngineTypes := SpecEngine.types Z.
Definition spec_engine_Z : @Engine spec_types_Z :=
  SpecEngine.spec_engine Z l2sqr_Z Z.ltb 0.

Definition spec_world0 : @World spec_types_Z :=
  @mkWorld spec_types_Z ∅ ∅ ∅ ∅ (SpecEngine.mkState Z 1 ∅ ∅).

Definition returned {A} (r : @Res spec_types_Z A) : option A :=
  match r with Ok a _ => Some a | _ => None end.

Definition world_after {A} (r : @Res spec_types_Z A) : @World spec_types_Z :=
  match r with Ok _ w => w | Throw w => w | UB => spec_world0 end.

(** A Flat(L2) index of dimension 2 at handle 1, an IDMap over it at
    handle 2, then three vectors added under the ids 10, 20 and 30. *)
Definition idmap_world1 : @World spec_types_Z :=
  world_after (faiss_IndexFlatL2_new (E := spec_engine_Z) 2 spec_world0).
Definition idmap_world2 : @World spec_types_Z :=
  world_after (faiss_IndexIDMap_new (E := spec_engine_Z) 1 idmap_world1).
Definition idmap_world3 : @World spec_types_Z :=
  world_after (faiss_IndexIDMap_add_with_ids (E := spec_engine_Z)
                 2 3 [0; 0; 1; 1; 5; 5] [10; 20; 30] idmap_world2).


(** A trained clustering job at handle 5: two centroids of dimension 2,
    (0,0) and (10,10). *)
Definition kmeans_job : @Clustering spec_types_Z :=
  @mkClustering spec_types_Z 2 2 25 false 1234 [0; 0; 10; 10].

Definition kmeans_world : @World spec_types_Z :=
  @mkWorld spec_types_Z ∅ ∅ {[ 5 := kmeans_job ]} ∅
    (SpecEngine.mkState Z 1 ∅ ∅).


(** ** The capability setters, and what they keep *)

Section Setters.
Context {ET : EngineTypes} {E : Engine}.

(** A call of one of the four setters of variant-specific members of an
    index, with the value to store. *)
Inductive Setter :=
  | set_nprobe (nprobe : Z)
  | set_efConstruction (ef : Z)
  | set_efSearch (ef : Z)
  | set_k_factor (k_factor : float).

Definition run_setter (s : Setter) (index : handle) : Eff Z :=
  match s with
  | set_nprobe nprobe => faiss_IndexIVF_set_nprobe index nprobe
  | set_efConstruction ef => faiss_IndexHNSW_set_efConstruction index ef
  | set_efSearch ef => faiss_IndexHNSW_set_efSearch index ef
  | set_k_factor k_factor => faiss_IndexRefine_set_k_factor index k_factor
  end.

(** The class the setter casts its handle to. *)
Definition family (s : Setter) : CxxClass :=
  match s with
  | set_nprobe _ => IndexIVF
  | set_efConstruction _ | set_efSearch _ => IndexHNSW
  | set_k_factor _ => IndexRefine
  end.

(** Between two worlds every handle designates an index in both or in
    neither, with the same header, and nothing but the indexes differs. *)
Definition headers_kept (w w' : World) : Prop :=
  (forall h : handle,
     match indexes w !! h, indexes w' !! h with
     | Some o, Some o' => same_header o o'
     | None, None => True
     | _, _ => False
     end) /\
  binaries w' = binaries w /\ clusterings w' = clusterings w /\
  range_results w' = range_results w /\ engine_state w' = engine_state w.

(** A call of one of the three setters of a clustering job. *)
Inductive KmeansSetter :=
  | kmeans_set_niter (niter : Z)
  | kmeans_set_verbose (verbose : Z)
  | kmeans_set_seed (seed : Z).

Definition run_kmeans_setter (s : KmeansSetter) (kmeans : handle) : Eff Z :=
  match s with
  | kmeans_set_niter niter => faiss_Kmeans_set_niter kmeans niter
  | kmeans_set_verbose verbose => faiss_Kmeans_set_verbose kmeans verbose
  | kmeans_set_seed seed => faiss_Kmeans_set_seed kmeans seed
  end.

(** The value a call hands back, whatever the world it leaves. *)
Definition value_of {A} (r : Res A) : option A :=
  match r with Ok a _ => Some a | _ => None end.

(** The tags a reader can report. *)
Definition known_tags : list string :=
  [ "IndexFlatL2"; "IndexFlatIP"; "IndexIVFFlat"; "IndexIVFPQ";
    "IndexHNSWFlat"; "IndexPQ"; "IndexIDMap"; "Unknown" ]%string.

End Setters.

(** An inverted-file index at handle 1 and a graph index at handle 2. *)
Definition ivf_index : @Index HeaderEngine.types :=
  @mkIndex HeaderEngine.types IndexIVFFlat 4 0 false METRIC_L2 1 40 16 1.

Definition hnsw_index : @Index HeaderEngine.types :=
  @mkIndex HeaderEngine.types IndexHNSWFlat 4 0 true METRIC_L2 1 40 16 1.

Definition variants_world : @World HeaderEngine.types :=
  @mkWorld HeaderEngine.types
    (<[2 := hnsw_index]> {[ 1 := ivf_index ]})
    ∅ ∅ ∅ (HeaderEngine.mkState 3 ∅).

(** A trained clustering job at handle 5, for the header-only engine. *)
Definition header_kmeans_job : @Clustering HeaderEngine.types :=
  @mkClustering HeaderEngine.types 2 2 25 false 1234 [0; 0; 10; 10].

Definition header_kmeans_world : @World HeaderEngine.types :=
  @mkWorld HeaderEngine.types ∅ ∅ {[ 5 := header_kmeans_job ]} ∅
    (HeaderEngine.mkState 1 ∅).


(** A binary inverted-file index at handle 7. *)
Definition binary_ivf_index : IndexBinary :=
  mkIndexBinary IndexBinaryIVF 12 true 1.

Definition binary_world : @World HeaderEngine.types :=
  @mkWorld HeaderEngine.types ∅ {[ 7 := binary_ivf_index ]} ∅ ∅
    (HeaderEngine.mkState 1 ∅).


(** ** Round trips through a file *)

Section FileFormat.
Context {ET : EngineTypes} {E : Engine}.

(** The engine's file format is stable for the index at [index] in [w]:
    what the engine writes for it under [filename], it reads back right
    afterwards as an index with the same header. *)
Definition file_format_stable_for (index : handle) (filename : string)
    (w : World) : Prop :=
  forall o w1 p w2,
    indexes w !! index = Some o ->
    engine (write_index_file index filename) w = Ok tt w1 ->
    engine (read_index_file filename) w1 = Ok p w2 ->
    p <> NULL /\ exists o', indexes w2 !! p = Some o' /\ same_header o o'.

End FileFormat.

(** * Properties *)

(** ** The fault boundary *)

Section FaultBoundary.
Context {ET : EngineTypes} {E : Engine}.

Lemma CATCH_AND_HANDLE_Ok {R} (fail : R) (body : Eff R) w r w' :
  body w = Ok r w' -> CATCH_AND_HANDLE fail body w = Ok r w'.
Proof. unfold CATCH_AND_HANDLE, catch. intros ->. reflexivity. Qed.

Lemma CATCH_AND_HANDLE_Throw {R} (fail : R) (body : Eff R) w w' :
  body w = Throw w' -> CATCH_AND_HANDLE fail body w = Ok fail w'.
Proof. unfold CATCH_AND_HANDLE, catch. intros ->. reflexivity. Qed.

Lemma CATCH_AND_HANDLE_UB {R} (fail : R) (body : Eff R) w :
  body w = UB -> CATCH_AND_HANDLE fail body w = UB.
Proof. unfold CATCH_AND_HANDLE, catch. intros ->. reflexivity. Qed.

Lemma CATCH_AND_HANDLE_inv {R} (fail : R) (body : Eff R) w r w' :
  CATCH_AND_HANDLE fail body w = Ok r w' ->
  body w = Ok r w' \/ (body w = Throw w' /\ r = fail).
Proof.
  unfold CATCH_AND_HANDLE, catch, ret.
  destruct (body w) as [r0 w0|w0|]; intros H; inversion H; subst; auto.
Qed.

Lemma bind_Ok {A B} (m : Eff A) (k : A -> Eff B) w a w' :
  m w = Ok a w' -> bind m k w = k a w'.
Proof. unfold bind. intros ->. reflexivity. Qed.

Lemma bind_Throw {A B} (m : Eff A) (k : A -> Eff B) w w' :
  m w = Throw w' -> bind m k w = Throw w'.
Proof. unfold bind. intros ->. reflexivity. Qed.

Lemma handled_status (body : Eff Z) w :
  handled (fmap status_only body w)
          (fmap status_only (CATCH_AND_HANDLE (-1) body) w).
Proof.
  unfold handled, fmap, bind, CATCH_AND_HANDLE, catch, ret.
  destruct (body w); eauto.
  exists NoOutParams. split; [discriminate | reflexivity].
Qed.

Lemma handled_outs {A} (body : Eff (Z * option A)) w :
  handled (fmap with_outs body w)
          (fmap with_outs (CATCH_AND_HANDLE failure body) w).
Proof.
  unfold handled, fmap, bind, CATCH_AND_HANDLE, catch, ret.
  destruct (body w); eauto.
  exists Unset. split; [discriminate | reflexivity].
Qed.

Lemma handled_gpu_to_cpu
    (body : Eff (Z * option (handle * option string * Z * Z * Z))) w :
  handled (fmap gpu_to_cpu_outs body w)
          (fmap gpu_to_cpu_outs (CATCH_AND_HANDLE failure body) w).
Proof.
  unfold handled, fmap, bind, CATCH_AND_HANDLE, catch, ret.
  destruct (body w); eauto.
  exists Unset. split; [discriminate | reflexivity].
Qed.

Lemma wrapped_handled (op : Wrapped) (w : World) :
  handled (wrapped_try op w) (wrapped_entry op w).
Proof.
  destruct op;
    first [apply handled_status | apply handled_outs
          | apply handled_gpu_to_cpu].
Qed.

(** For [faiss_Index_add]: a fault of the engine's [add] is a fault of the
    block, and comes out as -1. *)
Lemma faiss_Index_add_fault (index : handle) (n : Z) (x : list float) w w' :
  engine (Index_add index n x) w = Throw w' ->
  faiss_Index_add index n x w = Ok (-1) w'.
Proof.
  intros Hfault. apply CATCH_AND_HANDLE_Throw.
  unfold faiss_Index_add_try. apply bind_Throw. exact Hfault.
Qed.

(** C2.  Every entry point that wraps its engine calls in [try] turns a
    fault raised inside the block into the status -1, a negative value,
    with the world as the engine left it and no output delivered; and no
    entry point ever lets an exception out to its caller. *)
Theorem fault_never_escapes (op : Wrapped) (w : World) :
  (forall w', wrapped_entry op w <> Throw w') /\
  (forall w', wrapped_try op w = Throw w' ->
     exists status outs,
       wrapped_entry op w = Ok (status, outs) w' /\
       status < 0 /\ outs <> Delivered).
Proof.
  pose proof (wrapped_handled op w) as H. unfold handled in H.
  split.
  - intros w' Hthrow. rewrite Hthrow in H.
    destruct (wrapped_try op w) as [r w1|w1|].
    + discriminate H.
    + destruct H as (o & _ & H). discriminate H.
    + discriminate H.
  - intros w' Hthrow. rewrite Hthrow in H.
    destruct H as (o & Ho & H).
    exists (-1), o. split; [exact H | split; [lia | exact Ho]].
Qed.

End FaultBoundary.

(** ** Constructors *)

Section Constructors.
Context {ET : EngineTypes} {E : Engine}.

Lemma metric_of_zero : metric_of 0 = METRIC_INNER_PRODUCT.
Proof. reflexivity. Qed.

Lemma metric_of_nonzero (metric_type : Z) :
  metric_type <> 0 -> metric_of metric_type = METRIC_L2.
Proof.
  unfold metric_of. intros H.
  destruct (decide (metric_type = 0)); [contradiction | reflexivity].
Qed.

Lemma metric_entry_constructs (c : MetricCtor) (metric_type : Z) :
  metric_entry c metric_type =
  constructs (engine_constructor c (metric_of metric_type)).
Proof. destruct c; reflexivity. Qed.

(** C9.  For each constructor entry point that takes a [metric_type]
    (IVFFlat, HNSWFlat, PQ, ScalarQuantizer, IVFScalarQuantizer,
    PQFastScan, IVFPQFastScan and the two OnDisk variants), the value 0
    makes it call the engine constructor with the inner-product metric,
    and every other value with the L2 metric. *)
Theorem metric_type_selects_metric (c : MetricCtor) :
  metric_entry c 0 = constructs (engine_constructor c METRIC_INNER_PRODUCT)
  /\ (forall metric_type : Z,
        metric_type <> 0 ->
        metric_entry c metric_type =
        constructs (engine_constructor c METRIC_L2)).
Proof.
  split.
  - rewrite metric_entry_constructs, metric_of_zero. reflexivity.
  - intros metric_type Hnz.
    rewrite metric_entry_constructs, (metric_of_nonzero _ Hnz). reflexivity.
Qed.

(** C10, as amended.  For every filename the on-disk constructors never
    read or write the named file: the file name is not used, the result is
    the same for every filename.  [faiss_IndexIVFFlatOnDisk_new] is the
    in-memory [faiss_IndexIVFFlat_new] on the same quantizer, d, nlist and
    metric.  [faiss_IndexIVFPQOnDisk_new] calls the IndexIVFPQ constructor
    with the metric chosen by [metric_type], as
    [faiss_IndexIVFPQFastScan_new] does; [faiss_IndexIVFPQ_new] has no
    metric argument and leaves the metric to the constructor's default, so
    with L2 as that default the two produce the same index for every
    nonzero [metric_type]. *)
Theorem ondisk_is_in_memory :
  (forall quantizer d nlist filename metric_type,
     faiss_IndexIVFFlatOnDisk_new quantizer d nlist filename metric_type =
     faiss_IndexIVFFlat_new quantizer d nlist metric_type)
  /\ (forall quantizer d nlist M nbits filename metric_type,
        faiss_IndexIVFPQOnDisk_new quantizer d nlist M nbits filename
          metric_type =
        faiss_IndexIVFPQFastScan_new quantizer d nlist M nbits metric_type)
  /\ (forall quantizer d nlist M nbits filename metric_type,
        faiss_IndexIVFPQOnDisk_new quantizer d nlist M nbits filename
          metric_type =
        constructs (New_IndexIVFPQ quantizer d nlist M nbits
                      (Some (metric_of metric_type))))
  /\ (forall quantizer d nlist M nbits,
        faiss_IndexIVFPQ_new quantizer d nlist M nbits =
        constructs (New_IndexIVFPQ quantizer d nlist M nbits None))
  /\ (default_metric_is_L2 ->
      forall quantizer d nlist M nbits filename metric_type w,
        metric_type <> 0 ->
        faiss_IndexIVFPQOnDisk_new quantizer d nlist M nbits filename
          metric_type w =
        faiss_IndexIVFPQ_new quantizer d nlist M nbits w)
  /\ (forall quantizer d nlist filename filename' metric_type,
        faiss_IndexIVFFlatOnDisk_new quantizer d nlist filename metric_type =
        faiss_IndexIVFFlatOnDisk_new quantizer d nlist filename'
          metric_type)
  /\ (forall quantizer d nlist M nbits filename filename' metric_type,
        faiss_IndexIVFPQOnDisk_new quantizer d nlist M nbits filename
          metric_type =
        faiss_IndexIVFPQOnDisk_new quantizer d nlist M nbits filename'
          metric_type).
Proof.
  do 4 (split; [reflexivity|]). split; [|split; reflexivity].
  intros Hdefault quantizer d nlist M nbits filename metric_type w Hnz.
  unfold faiss_IndexIVFPQOnDisk_new, faiss_IndexIVFPQ_new,
    faiss_IndexIVFPQOnDisk_new_try, faiss_IndexIVFPQ_new_try,
    CATCH_AND_HANDLE, catch, bind.
  rewrite (metric_of_nonzero _ Hnz), Hdefault. reflexivity.
Qed.

End Constructors.

(** ** Capability dispatch *)

Section Capability.
Context {ET : EngineTypes} {E : Engine}.

Lemma dynamic_cast_mismatch (t : CxxClass) (index : handle) (w : World) :
  not_a t index w -> dynamic_cast t index w = Ok None w.
Proof.
  intros (o & Hlive & Hcls). unfold dynamic_cast.
  destruct (decide (index = NULL)) as [_|_]; [reflexivity|].
  unfold bind, deref_index, ret. rewrite Hlive, Hcls. reflexivity.
Qed.

Lemma dynamic_cast_binary_mismatch (t : CxxClass) (index : handle)
    (w : World) :
  not_a_binary t index w -> dynamic_cast_binary t index w = Ok None w.
Proof.
  intros (o & Hlive & Hcls). unfold dynamic_cast_binary.
  destruct (decide (index = NULL)) as [_|_]; [reflexivity|].
  unfold bind, deref_binary, ret. rewrite Hlive, Hcls. reflexivity.
Qed.

#[local] Ltac mismatch H :=
  apply CATCH_AND_HANDLE_Ok;
  unfold faiss_IndexIVF_set_nprobe_try, faiss_IndexIVF_get_nprobe_try,
    faiss_IndexHNSW_set_efConstruction_try, faiss_IndexHNSW_set_efSearch_try,
    faiss_IndexHNSW_get_efConstruction_try, faiss_IndexHNSW_get_efSearch_try,
    faiss_IndexRefine_set_k_factor_try, faiss_IndexBinaryIVF_set_nprobe_try;
  first [ erewrite bind_Ok by (apply dynamic_cast_mismatch; exact H)
        | erewrite bind_Ok by (apply dynamic_cast_binary_mismatch; exact H) ];
  reflexivity.

(** C3.  On a handle that is not of the InvertedFile family the nprobe
    setter and getter return -1 and leave the whole world, hence every
    field of the handle, as it was; so do the efConstruction and efSearch
    accessors on a handle that is not a Graph index, the k_factor setter
    on a handle that is not a Refine index, and the binary nprobe setter
    on a binary handle that is not a Binary-InvertedFile index. *)
Theorem capability_mismatch_leaves_state (index : handle) (w : World) :
  (not_a IndexIVF index w ->
     (forall nprobe, faiss_IndexIVF_set_nprobe index nprobe w = Ok (-1) w)
     /\ faiss_IndexIVF_get_nprobe index w = Ok (-1, None) w)
  /\ (not_a IndexHNSW index w ->
        (forall ef, faiss_IndexHNSW_set_efConstruction index ef w = Ok (-1) w)
        /\ (forall ef, faiss_IndexHNSW_set_efSearch index ef w = Ok (-1) w)
        /\ faiss_IndexHNSW_get_efConstruction index w = Ok (-1, None) w
        /\ faiss_IndexHNSW_get_efSearch index w = Ok (-1, None) w)
  /\ (not_a IndexRefine index w ->
        forall k_factor,
          faiss_IndexRefine_set_k_factor index k_factor w = Ok (-1) w)
  /\ (not_a_binary IndexBinaryIVF index w ->
        forall nprobe,
          faiss_IndexBinaryIVF_set_nprobe index nprobe w = Ok (-1) w).
Proof.
  split; [|split; [|split]]; intros H.
  - split; [intros nprobe|]; mismatch H.
  - split; [intros ef|split; [intros ef|split]]; mismatch H.
  - intros k_factor. mismatch H.
  - intros nprobe. mismatch H.
Qed.

End Capability.

(** ** Builds without accelerator support *)

Section NoAccelerator.
Context {ET : EngineTypes}.

(** C5.  In the build without FAISS_GPU every device-resource and
    device-transfer entry point returns -1 for every input, delivers no
    output and touches nothing, and the device-count query delivers 0
    with status 0. *)
Theorem stubs_fail_uniformly (w : World) :
  StubBuild.faiss_StandardGpuResources_new w = Ok (-1, None) w
  /\ (forall res bytes,
        StubBuild.faiss_StandardGpuResources_setTempMemory res bytes w =
        Ok (-1) w)
  /\ (forall res,
        StubBuild.faiss_StandardGpuResources_setDefaultNullStreamAllDevices
          res w = Ok (-1) w)
  /\ (forall res d metric_type device,
        StubBuild.faiss_GpuIndexFlat_new res d metric_type device w =
        Ok (-1, None) w)
  /\ (forall res quantizer d nlist metric_type device,
        StubBuild.faiss_GpuIndexIVFFlat_new res quantizer d nlist
          metric_type device w = Ok (-1, None) w)
  /\ (forall res device cpu_index,
        StubBuild.faiss_index_cpu_to_gpu res device cpu_index w =
        Ok (-1, None) w)
  /\ (forall gpu_index,
        StubBuild.faiss_index_gpu_to_cpu gpu_index w = Ok (-1, None) w)
  /\ (forall cpu_index,
        StubBuild.faiss_index_cpu_to_all_gpus cpu_index w = Ok (-1, None) w)
  /\ StubBuild.faiss_get_num_gpus w = Ok (0, Some 0) w.
Proof. repeat split. Qed.

End NoAccelerator.

(** ** Serialization *)

Section Serialization.
Context {ET : EngineTypes} {E : Engine}.

Lemma faiss_read_index_try_report (filename : string) :
  faiss_read_index_try filename =
  (do p <- engine (read_index_file filename); report p).
Proof. reflexivity. Qed.

Lemma faiss_deserialize_index_try_report (data : list Byte.byte) (size : Z) :
  faiss_deserialize_index_try data size =
  (do_ engine (Local_VectorIOReader size);
   if decide (0 <= size <= Z.of_nat (length data)) then
     do p <- engine (read_index_reader (take (Z.to_nat size) data));
     report p
   else undefined).
Proof. reflexivity. Qed.

Lemma is_a_live (t : CxxClass) (p : handle) (w : World) (o : Index) :
  p <> NULL -> indexes w !! p = Some o ->
  is_a t p w = Ok (derives (dyn_class o) t) w.
Proof.
  intros Hp Hlive. unfold is_a, dynamic_cast, bind, deref_index, ret.
  destruct (decide (p = NULL)) as [?|_]; [contradiction|].
  rewrite Hlive. destruct (derives (dyn_class o) t); reflexivity.
Qed.

(** On a live handle the source's chain computes the first match of the
    ordered candidate list. *)
Lemma probe_chain_first_match (p : handle) (w : World) (o : Index) :
  p <> NULL -> indexes w !! p = Some o ->
  probe_chain p w = Ok (first_match (dyn_class o)) w.
Proof.
  intros Hp Hlive. unfold probe_chain, first_match, candidate_variants.
  cbn [List.find fst snd].
  repeat (rewrite (bind_Ok _ _ _ _ _ (is_a_live _ _ _ _ Hp Hlive));
          destruct (derives (dyn_class o) _); [reflexivity|]).
  reflexivity.
Qed.

Lemma probe_chain_dangling (p : handle) (w : World) :
  p <> NULL -> indexes w !! p = None -> probe_chain p w = UB.
Proof.
  intros Hp Hdead.
  unfold probe_chain, is_a, dynamic_cast, bind, deref_index.
  destruct (decide (p = NULL)) as [?|_]; [contradiction|].
  rewrite Hdead. reflexivity.
Qed.

Lemma probe_chain_world (p : handle) (w w' : World) (tag : string) :
  probe_chain p w = Ok tag w' -> w' = w.
Proof.
  destruct (decide (p = NULL)) as [->|Hp].
  - unfold probe_chain, is_a, dynamic_cast, bind, ret. cbn.
    intros H; inversion H; reflexivity.
  - destruct (indexes w !! p) as [o|] eqn:Hlive.
    + rewrite (probe_chain_first_match _ _ _ Hp Hlive).
      intros H; inversion H; reflexivity.
    + rewrite (probe_chain_dangling _ _ Hp Hlive). discriminate.
Qed.

Lemma report_inv (p : handle) (w w1 : World) (r : Z * option ReadInfo) :
  p <> NULL -> report p w = Ok r w1 ->
  exists o,
    indexes w !! p = Some o /\ w1 = w /\
    r = (0, Some (mkReadInfo p (first_match (dyn_class o)) (d o)
                    (metric_to_int (metric_type o)) (ntotal o))).
Proof.
  intros Hp Hrun. unfold report in Hrun.
  destruct (indexes w !! p) as [o|] eqn:Hlive.
  - rewrite (bind_Ok _ _ _ _ _ (probe_chain_first_match _ _ _ Hp Hlive))
      in Hrun.
    unfold bind, deref_index, ret in Hrun. rewrite Hlive in Hrun.
    inversion Hrun; subst. eauto.
  - unfold bind in Hrun.
    rewrite (probe_chain_dangling _ _ Hp Hlive) in Hrun. discriminate.
Qed.

Lemma catch_success_inv {A} (body : Eff (Z * option A)) w out w' :
  CATCH_AND_HANDLE failure body w = Ok (0, out) w' ->
  body w = Ok (0, out) w'.
Proof.
  intros H. apply CATCH_AND_HANDLE_inv in H as [H|[_ H]]; [exact H|].
  discriminate H.
Qed.

Lemma faiss_read_index_inv (filename : string) w info w1 :
  faiss_read_index filename w = Ok (0, Some info) w1 ->
  ri_index info <> NULL ->
  exists w0 o,
    engine (read_index_file filename) w = Ok (ri_index info) w0 /\
    w1 = w0 /\ indexes w1 !! ri_index info = Some o /\
    info = mkReadInfo (ri_index info) (first_match (dyn_class o)) (d o)
             (metric_to_int (metric_type o)) (ntotal o).
Proof.
  intros Hrun Hp. apply catch_success_inv in Hrun.
  rewrite faiss_read_index_try_report in Hrun. unfold bind in Hrun.
  destruct (engine (read_index_file filename) w) as [p w0| |] eqn:Hread;
    try discriminate.
  assert (ri_index info = p) as Hpi.
  { unfold report, bind, ret in Hrun.
    destruct (probe_chain p w0) as [tag w2| |]; try discriminate.
    destruct (deref_index p w2); try discriminate.
    inversion Hrun; subst. reflexivity. }
  subst p. apply report_inv in Hrun as (o & Hlive & -> & Hr); [|exact Hp].
  inversion Hr as [Hinfo]. exists w0, o. rewrite <- Hinfo. auto.
Qed.

Lemma faiss_deserialize_index_inv (data : list Byte.byte) (size : Z)
    w info w1 :
  faiss_deserialize_index data size w = Ok (0, Some info) w1 ->
  exists wa,
    engine (Local_VectorIOReader size) w = Ok tt wa /\
    0 <= size <= Z.of_nat (length data) /\
    engine (read_index_reader (take (Z.to_nat size) data)) wa =
      Ok (ri_index info) w1 /\
    (ri_index info <> NULL ->
     exists o,
       indexes w1 !! ri_index info = Some o /\
       info = mkReadInfo (ri_index info) (first_match (dyn_class o)) (d o)
                (metric_to_int (metric_type o)) (ntotal o)).
Proof.
  intros Hrun. apply catch_success_inv in Hrun.
  rewrite faiss_deserialize_index_try_report in Hrun. unfold bind in Hrun.
  destruct (engine (Local_VectorIOReader size) w) as [[] wa| |] eqn:Hvec;
    try discriminate.
  destruct (decide (0 <= size <= Z.of_nat (length data))) as [Hsize|_];
    [|discriminate].
  destruct (engine (read_index_reader _) wa) as [p w0| |] eqn:Hread;
    try discriminate.
  assert (ri_index info = p /\ w1 = w0) as [Hpi Hw].
  { unfold report, bind, ret, deref_index in Hrun.
    destruct (probe_chain p w0) as [tag w2| |] eqn:Hchain; try discriminate.
    apply probe_chain_world in Hchain as ->.
    destruct (indexes w0 !! p); try discriminate.
    inversion Hrun; subst. split; reflexivity. }
  subst p w0. exists wa. repeat split; try assumption; try lia.
  intros Hp. apply report_inv in Hrun as (o & Hlive & _ & Hr); [|exact Hp].
  inversion Hr as [Hinfo]. exists o. rewrite <- Hinfo. auto.
Qed.

Lemma faiss_serialize_index_inv (index : handle) w data size w1 :
  faiss_serialize_index index w = Ok (0, Some (data, size)) w1 ->
  exists wa,
    engine (write_index_writer index) w = Ok data wa /\
    size = Z.of_nat (length data) /\
    engine (Malloc size) wa = Ok true w1.
Proof.
  intros Hrun. apply catch_success_inv in Hrun.
  unfold faiss_serialize_index_try, bind, ret, undefined in Hrun.
  destruct (engine (write_index_writer index) w) as [bytes wa| |] eqn:Hwrite;
    try discriminate.
  destruct (engine (Malloc _) wa) as [[] wm| |] eqn:Hmalloc;
    try discriminate.
  inversion Hrun; subst. eauto.
Qed.

(** C7.  Both readers recover the variant tag by probing the handle they
    have reconstructed against the ordered list FlatL2, FlatIP, IVFFlat,
    IVFPQ, HNSWFlat, PQ, IDMap and taking the first match, "Unknown" when
    none matches; they use the same list in the same order, so for
    reconstructed indexes of one dynamic class they report one tag. *)
Theorem variant_tag_is_first_match
    (filename : string) (data : list Byte.byte) (size : Z)
    (wf wf1 wb wb1 : World) (info info' : ReadInfo) :
  faiss_read_index filename wf = Ok (0, Some info) wf1 ->
  faiss_deserialize_index data size wb = Ok (0, Some info') wb1 ->
  ri_index info <> NULL -> ri_index info' <> NULL ->
  exists o o',
    indexes wf1 !! ri_index info = Some o /\
    indexes wb1 !! ri_index info' = Some o' /\
    ri_index_type info = first_match (dyn_class o) /\
    ri_index_type info' = first_match (dyn_class o') /\
    (dyn_class o = dyn_class o' -> ri_index_type info = ri_index_type info').
Proof.
  intros Hfile Hbuf Hp Hp'.
  apply faiss_read_index_inv in Hfile as (w0 & o & _ & _ & Hlive & Hinfo);
    [|exact Hp].
  apply faiss_deserialize_index_inv in Hbuf as (wa & _ & _ & _ & Hbuf).
  destruct (Hbuf Hp') as (o' & Hlive' & Hinfo').
  exists o, o'. rewrite Hinfo, Hinfo'. cbn [ri_index ri_index_type].
  rewrite Hinfo in Hlive. rewrite Hinfo' in Hlive'.
  cbn [ri_index] in Hlive, Hlive'.
  repeat split; try assumption. intros ->. reflexivity.
Qed.

(** C1.  When an index is serialized to a buffer and that buffer is
    deserialized, both with success, and the engine's format is stable
    for that index, the reconstructed index reports the same d, the same
    metric and the same ntotal, answers the same to the d, ntotal and
    is_trained accessors, and is given the variant tag the original
    would be given. *)
Theorem serialize_deserialize_round_trip
    (index : handle) (o : Index) (data : list Byte.byte) (size : Z)
    (w w1 w2 w3 : World) (info : ReadInfo) :
  indexes w !! index = Some o ->
  format_stable_for index w ->
  faiss_serialize_index index w = Ok (0, Some (data, size)) w1 ->
  faiss_deserialize_index data size w2 = Ok (0, Some info) w3 ->
  ri_d info = d o /\
  ri_metric info = metric_to_int (metric_type o) /\
  ri_ntotal info = ntotal o /\
  ri_index_type info = first_match (dyn_class o) /\
  faiss_Index_d (ri_index info) w3 = Ok (d o) w3 /\
  faiss_Index_ntotal (ri_index info) w3 = Ok (ntotal o) w3 /\
  faiss_Index_is_trained (ri_index info) w3 =
    Ok (if is_trained o then 1 else 0) w3.
Proof.
  intros Hlive Hstable Hser Hde.
  apply faiss_serialize_index_inv in Hser as (wa & Hwrite & -> & _).
  apply faiss_deserialize_index_inv in Hde as (wb & _ & _ & Hread & Hinfo).
  rewrite Nat2Z.id, firstn_all in Hread.
  destruct (Hstable _ _ _ _ _ _ Hlive Hwrite Hread)
    as (Hp & o' & Hlive' & Hcls & Hd & Hn & Ht & Hm).
  destruct (Hinfo Hp) as (o'' & Hlive'' & ->).
  rewrite Hlive' in Hlive''. inversion Hlive''; subst o''.
  cbn [ri_d ri_metric ri_ntotal ri_index_type ri_index] in *.
  unfold faiss_Index_d, faiss_Index_ntotal, faiss_Index_is_trained,
    bind, deref_index, ret.
  rewrite Hlive', Hcls, Hd, Hn, Ht, Hm. repeat split.
Qed.

End Serialization.

(** ** The status convention *)

Section ConventionProofs.
Context {ET : EngineTypes} {E : Engine}.

Create HintDb facade.

#[local] Hint Unfold
  faiss_IndexFlatL2_new_try faiss_IndexFlatL2_new faiss_IndexFlatIP_new_try
  faiss_IndexFlatIP_new faiss_IndexIVFFlat_new_try faiss_IndexIVFFlat_new
  faiss_IndexIVF_set_nprobe_try faiss_IndexIVF_set_nprobe
  faiss_IndexIVF_get_nprobe_try faiss_IndexIVF_get_nprobe
  faiss_IndexHNSWFlat_new_try faiss_IndexHNSWFlat_new
  faiss_IndexHNSW_set_efConstruction_try faiss_IndexHNSW_set_efConstruction
  faiss_IndexHNSW_set_efSearch_try faiss_IndexHNSW_set_efSearch
  faiss_IndexHNSW_get_efConstruction_try faiss_IndexHNSW_get_efConstruction
  faiss_IndexHNSW_get_efSearch_try faiss_IndexHNSW_get_efSearch
  faiss_IndexPQ_new_try faiss_IndexPQ_new faiss_IndexIVFPQ_new_try
  faiss_IndexIVFPQ_new faiss_IndexIDMap_new_try faiss_IndexIDMap_new
  faiss_IndexIDMap_add_with_ids_try faiss_IndexIDMap_add_with_ids
  faiss_IndexIDMap_remove_ids_try faiss_IndexIDMap_remove_ids
  faiss_Index_add_try faiss_Index_add faiss_Index_add_with_ids_try
  faiss_Index_add_with_ids faiss_Index_search_try faiss_Index_search
  faiss_Index_range_search_try faiss_Index_range_search
  faiss_RangeSearchResult_get_try faiss_RangeSearchResult_get
  faiss_RangeSearchResult_free faiss_Index_train_try faiss_Index_train
  faiss_Index_assign_try faiss_Index_assign faiss_Index_reconstruct_try
  faiss_Index_reconstruct faiss_Index_reconstruct_n_try
  faiss_Index_reconstruct_n faiss_Index_reset_try faiss_Index_reset
  faiss_Index_free faiss_Index_ntotal faiss_Index_is_trained faiss_Index_d
  faiss_write_index_try faiss_write_index faiss_read_index_try
  faiss_read_index faiss_serialize_index_try faiss_serialize_index
  faiss_deserialize_index_try faiss_deserialize_index faiss_Kmeans_new_try
  faiss_Kmeans_new faiss_Kmeans_train_try faiss_Kmeans_train
  faiss_Kmeans_assign_try faiss_Kmeans_assign
  faiss_Kmeans_get_centroids_try faiss_Kmeans_get_centroids
  faiss_Kmeans_set_niter_try faiss_Kmeans_set_niter
  faiss_Kmeans_set_verbose_try faiss_Kmeans_set_verbose
  faiss_Kmeans_set_seed_try faiss_Kmeans_set_seed faiss_Kmeans_free
  faiss_IndexScalarQuantizer_new_try faiss_IndexScalarQuantizer_new
  faiss_IndexIVFScalarQuantizer_new_try faiss_IndexIVFScalarQuantizer_new
  faiss_IndexBinaryFlat_new_try faiss_IndexBinaryFlat_new
  faiss_IndexBinaryIVF_new_try faiss_IndexBinaryIVF_new
  faiss_IndexBinaryHash_new_try faiss_IndexBinaryHash_new
  faiss_IndexBinary_add_try faiss_IndexBinary_add
  faiss_IndexBinary_search_try faiss_IndexBinary_search
  faiss_IndexBinary_train_try faiss_IndexBinary_train
  faiss_IndexBinary_reset_try faiss_IndexBinary_reset
  faiss_IndexBinary_ntotal_try faiss_IndexBinary_ntotal
  faiss_IndexBinary_is_trained_try faiss_IndexBinary_is_trained
  faiss_IndexBinaryIVF_set_nprobe_try faiss_IndexBinaryIVF_set_nprobe
  faiss_IndexBinary_free faiss_IndexLSH_new_try faiss_IndexLSH_new
  faiss_PCAMatrix_new_try faiss_PCAMatrix_new faiss_OPQMatrix_new_try
  faiss_OPQMatrix_new faiss_RandomRotationMatrix_new_try
  faiss_RandomRotationMatrix_new faiss_VectorTransform_train_try
  faiss_VectorTransform_train faiss_VectorTransform_apply_try
  faiss_VectorTransform_apply faiss_VectorTransform_reverse_transform_try
  faiss_VectorTransform_reverse_transform faiss_VectorTransform_free
  faiss_IndexRefine_new_try faiss_IndexRefine_new
  faiss_IndexRefine_set_k_factor_try faiss_IndexRefine_set_k_factor
  faiss_IndexPreTransform_new_try faiss_IndexPreTransform_new
  faiss_IndexShards_new_try faiss_IndexShards_new
  faiss_IndexShards_add_shard_try faiss_IndexShards_add_shard
  faiss_IndexPQFastScan_new_try faiss_IndexPQFastScan_new
  faiss_IndexIVFPQFastScan_new_try faiss_IndexIVFPQFastScan_new
  faiss_IndexPQFastScan_set_bbs_try faiss_IndexPQFastScan_set_bbs
  faiss_IndexIVFFlatOnDisk_new_try faiss_IndexIVFFlatOnDisk_new
  faiss_IndexIVFPQOnDisk_new_try faiss_IndexIVFPQOnDisk_new
  GpuBuild.faiss_StandardGpuResources_new_try
  GpuBuild.faiss_StandardGpuResources_new
  GpuBuild.faiss_StandardGpuResources_setTempMemory_try
  GpuBuild.faiss_StandardGpuResources_setTempMemory
  GpuBuild.faiss_StandardGpuResources_setDefaultNullStreamAllDevices_try
  GpuBuild.faiss_StandardGpuResources_setDefaultNullStreamAllDevices
  GpuBuild.faiss_StandardGpuResources_free
  GpuBuild.faiss_GpuIndexFlat_new_try GpuBuild.faiss_GpuIndexFlat_new
  GpuBuild.faiss_GpuIndexIVFFlat_new_try GpuBuild.faiss_GpuIndexIVFFlat_new
  GpuBuild.faiss_index_cpu_to_gpu_try GpuBuild.faiss_index_cpu_to_gpu
  GpuBuild.faiss_index_gpu_to_cpu_try GpuBuild.faiss_index_gpu_to_cpu
  GpuBuild.faiss_index_cpu_to_all_gpus_try
  GpuBuild.faiss_index_cpu_to_all_gpus GpuBuild.faiss_get_num_gpus_try
  GpuBuild.faiss_get_num_gpus StubBuild.faiss_StandardGpuResources_new
  StubBuild.faiss_StandardGpuResources_setTempMemory
  StubBuild.faiss_StandardGpuResources_setDefaultNullStreamAllDevices
  StubBuild.faiss_StandardGpuResources_free
  StubBuild.faiss_GpuIndexFlat_new StubBuild.faiss_GpuIndexIVFFlat_new
  StubBuild.faiss_index_cpu_to_gpu StubBuild.faiss_index_gpu_to_cpu
  StubBuild.faiss_index_cpu_to_all_gpus StubBuild.faiss_get_num_gpus
  Amalgamation.faiss_IndexFlatL2_new Amalgamation.faiss_IndexFlatIP_new
  Amalgamation.faiss_Index_add Amalgamation.faiss_Index_search
  Amalgamation.faiss_Index_train Amalgamation.faiss_Index_reset
  Amalgamation.faiss_Index_free Amalgamation.faiss_Index_ntotal
  Amalgamation.faiss_Index_d Amalgamation.faiss_Index_is_trained
  : facade.

#[local] Ltac invert_run :=
  repeat match goal with
    | H : Ok _ _ = Ok _ _ |- _ => inversion H; subst; clear H
    | H : context [match ?x with _ => _ end] |- _ =>
        lazymatch x with
        | context [match _ with _ => _ end] => fail
        | _ => destruct x eqn:?; try discriminate
        end
    end.

Lemma wrapped_conventional (op : Wrapped) w status outs w' :
  wrapped_entry op w = Ok (status, outs) w' ->
  (status = 0 \/ status = -1) /\
  (skips_an_output (op_wrapped op) = false -> conventional status outs).
Proof.
  intros H. unfold conventional.
  destruct op; cbn [wrapped_entry] in H;
    autounfold with facade in H;
    unfold fmap, CATCH_AND_HANDLE, catch, scoped, bind, ret, undefined,
      failure, with_outs, gpu_to_cpu_outs, status_only, modify, store_index,
      store_binary, store_clustering in H;
    invert_run; cbn;
    (split;
     [ first [left; reflexivity | right; reflexivity]
     | intros Hskip;
       first [ discriminate Hskip
             | left; split; [reflexivity|discriminate]
             | right; split; [reflexivity|discriminate] ] ]).
Qed.

(** The entry point left out of the convention: on success
    [faiss_index_gpu_to_cpu] delivers the handle, d, metric and ntotal but
    no [index_type]. *)
Lemma faiss_index_gpu_to_cpu_skips_index_type (gpu_index : handle) w w' out :
  GpuBuild.faiss_index_gpu_to_cpu gpu_index w = Ok (0, Some out) w' ->
  exists p dim metric n, out = (p, None, dim, metric, n).
Proof.
  intros H. apply CATCH_AND_HANDLE_inv in H as [H|[_ H]]; [|discriminate].
  unfold GpuBuild.faiss_index_gpu_to_cpu_try, bind, ret, deref_index in H.
  invert_run. eauto.
Qed.

(** C4, as amended.  Whenever it returns, an entry point declared with an
    [int] status gives 0 or -1, and, [faiss_index_gpu_to_cpu] of the build
    with FAISS_GPU apart, 0 with its outputs delivered through the output
    parameters or -1 with none delivered.  The accessors
    [faiss_Index_ntotal], [faiss_Index_d] and [faiss_Index_is_trained]
    return instead of a status the value asked for (the member of the
    index, the trained flag as 1 or 0; constants in the placeholder of
    faiss/faiss.cpp) and leave the world as it was, and the free
    operations return nothing. *)
Theorem status_convention (op : BoundaryOp) (w w' : World) (r : Returned) :
  boundary op w = Ok r w' ->
  match r with
  | RStatus status outs =>
      returns_value op = false /\ returns_void op = false /\
      (status = 0 \/ status = -1) /\
      (skips_an_output op = false -> conventional status outs)
  | RValue value =>
      returns_value op = true /\ accessor_value op w = Some value /\ w' = w
  | RVoid => returns_void op = true
  end.
Proof.
  intros H.
  destruct op as [op| | | | | | | | | | | | | | | | | | | | | | | | | | | | |].
  1: { cbn [boundary] in H. unfold fmap, bind, ret in H.
       destruct (wrapped_entry op w) as [[status outs] w0| |] eqn:Hrun;
         try discriminate.
       inversion H; subst. cbn [status_ret fst snd].
       destruct (wrapped_conventional _ _ _ _ _ Hrun) as [Hstatus Hconv].
       repeat split; assumption. }
  all: cbn [boundary] in H; autounfold with facade in H;
    unfold void, with_status, just_status, fmap, bind, ret, status_ret,
      with_outs, status_only, deref_index in H;
    invert_run; cbn; unfold conventional; cbn;
    first
      [ reflexivity
      | repeat split;
        first [ reflexivity
              | left; reflexivity
              | right; reflexivity
              | intros _; left; split; [reflexivity|discriminate]
              | intros _; right; split; [reflexivity|discriminate]
              | match goal with
                | Hlive : indexes _ !! _ = Some _ |- _ =>
                    rewrite Hlive; reflexivity
                end ] ].
Qed.

End ConventionProofs.

(** C4 as stated fails: [faiss_Index_is_trained] on a trained index returns
    1, which is the flag itself and neither 0 nor negative. *)
Lemma is_trained_returns_the_flag :
  ~ (forall (op : BoundaryOp) (w w' : World) (r : Returned),
       boundary (E := HeaderEngine.header_engine) op w = Ok r w' ->
       exists status,
         returned_int r = Some status /\ (status = 0 \/ status < 0)).
Proof.
  intros Hclaim.
  destruct (Hclaim (op_faiss_Index_is_trained 1) flat_world flat_world
              (RValue 1) eq_refl) as (status & Hr & Hs).
  inversion Hr; subst status. lia.
Qed.

(** ** The theorems at concrete inputs *)

(** In the header-only engine [add] is not supported and throws. *)
Lemma fault_never_escapes_witness :
  exists status outs,
    wrapped_entry (E := HeaderEngine.header_engine)
      (@op_faiss_Index_add HeaderEngine.types 1 1 [0]) flat_world =
      Ok (status, outs) flat_world
    /\ status < 0 /\ outs <> Delivered.
Proof.
  apply (proj2 (fault_never_escapes (E := HeaderEngine.header_engine)
                  (@op_faiss_Index_add HeaderEngine.types 1 1 [0]) flat_world)).
  reflexivity.
Defined.

Lemma capability_mismatch_witness :
  (forall nprobe,
     faiss_IndexIVF_set_nprobe (E := HeaderEngine.header_engine)
       1 nprobe flat_world = Ok (-1) flat_world)
  /\ faiss_IndexIVF_get_nprobe (E := HeaderEngine.header_engine)
       1 flat_world = Ok (-1, None) flat_world.
Proof.
  apply (proj1 (capability_mismatch_leaves_state
                  (E := HeaderEngine.header_engine) 1 flat_world)).
  exists (@mkIndex HeaderEngine.types IndexFlatL2 4 10 true METRIC_L2
            1 40 16 1).
  split; reflexivity.
Defined.

Lemma status_convention_witness :
  (* a getter that succeeds: 0 and the value delivered *)
  (returns_value (ET := HeaderEngine.types)
     (op_wrapped (op_faiss_IndexIVF_get_nprobe 1)) = false
   /\ returns_void (ET := HeaderEngine.types)
        (op_wrapped (op_faiss_IndexIVF_get_nprobe 1)) = false
   /\ (0 = 0 \/ 0 = -1)
   /\ (skips_an_output (ET := HeaderEngine.types)
         (op_wrapped (op_faiss_IndexIVF_get_nprobe 1)) = false ->
       conventional 0 Delivered))
  (* a setter on a foreign handle: -1 *)
  /\ (returns_value (ET := HeaderEngine.types)
        (op_wrapped (op_faiss_IndexIVF_set_nprobe 1 8)) = false
      /\ returns_void (ET := HeaderEngine.types)
           (op_wrapped (op_faiss_IndexIVF_set_nprobe 1 8)) = false
      /\ (-1 = 0 \/ -1 = -1)
      /\ (skips_an_output (ET := HeaderEngine.types)
            (op_wrapped (op_faiss_IndexIVF_set_nprobe 1 8)) = false ->
          conventional (-1) NoOutParams))
  (* an accessor: the member itself *)
  /\ (returns_value (ET := HeaderEngine.types) (op_faiss_Index_ntotal 1) =
        true
      /\ accessor_value (op_faiss_Index_ntotal 1) flat_world = Some 10
      /\ flat_world = flat_world).
Proof.
  split; [|split].
  - apply (status_convention (E := HeaderEngine.header_engine)
             (op_wrapped (op_faiss_IndexIVF_get_nprobe 1))
             variants_world variants_world (RStatus 0 Delivered)).
    reflexivity.
  - apply (status_convention (E := HeaderEngine.header_engine)
             (op_wrapped (op_faiss_IndexIVF_set_nprobe 1 8))
             flat_world flat_world (RStatus (-1) NoOutParams)).
    reflexivity.
  - apply (status_convention (E := HeaderEngine.header_engine)
             (op_faiss_Index_ntotal 1) flat_world flat_world (RValue 10)).
    reflexivity.
Defined.

Lemma metric_type_selects_metric_witness :
  metric_entry (E := HeaderEngine.header_engine)
    (ctor_IndexIVFFlat 0 4 8) 7 =
  constructs (E := HeaderEngine.header_engine)
    (New_IndexIVFFlat 0 4 8 METRIC_L2).
Proof.
  apply (proj2 (metric_type_selects_metric
                  (E := HeaderEngine.header_engine)
                  (ctor_IndexIVFFlat 0 4 8)) 7).
  lia.
Defined.

(** C10 as stated fails for the product-quantized variant: over a live
    quantizer the on-disk constructor builds an index whose metric
    follows [metric_type], so it cannot agree with [faiss_IndexIVFPQ_new],
    which has no metric argument, for both [metric_type = 0] and
    [metric_type = 1]. *)
Lemma ondisk_ivfpq_is_not_ivfpq_new :
  ~ (forall metric_type : Z,
       faiss_IndexIVFPQOnDisk_new (E := HeaderEngine.header_engine)
         1 4 8 2 8 "lists.bin" metric_type flat_world =
       faiss_IndexIVFPQ_new (E := HeaderEngine.header_engine)
         1 4 8 2 8 flat_world).
Proof.
  intros Hclaim.
  pose proof (Hclaim 0) as H0. pose proof (Hclaim 1) as H1.
  rewrite <- H1 in H0.
  apply (f_equal (fun r : @Res HeaderEngine.types (Z * option handle) =>
                    match r with
                    | Ok (status, p) w =>
                        Some (status, p,
                              @metric_type HeaderEngine.types <$>
                                @indexes HeaderEngine.types w !! 2)
                    | _ => None
                    end)) in H0.
  vm_compute in H0. discriminate H0.
Qed.

Lemma header_engine_default_metric :
  default_metric_is_L2 (E := HeaderEngine.header_engine).
Proof. intros quantizer d nlist M nbits w. reflexivity. Qed.

Lemma ondisk_is_in_memory_witness :
  faiss_IndexIVFPQOnDisk_new (E := HeaderEngine.header_engine)
    1 4 8 2 8 "lists.bin" 1 flat_world =
  faiss_IndexIVFPQ_new (E := HeaderEngine.header_engine)
    1 4 8 2 8 flat_world.
Proof.
  apply (proj1 (proj2 (proj2 (proj2 (proj2
           (ondisk_is_in_memory (E := HeaderEngine.header_engine))))))
           header_engine_default_metric 1 4 8 2 8 "lists.bin" 1 flat_world).
  discriminate.
Defined.

(** Both constructors do build an index there: the handle 2, with the
    inner-product metric for [metric_type = 0] and L2 without a metric. *)
Example ondisk_ivfpq_example :
  (let r := faiss_IndexIVFPQOnDisk_new (E := HeaderEngine.header_engine)
              1 4 8 2 8 "lists.bin" 0 flat_world in
   match r with
   | Ok (status, p) w =>
       Some (status, p,
             @metric_type HeaderEngine.types <$>
               @indexes HeaderEngine.types w !! 2)
   | _ => None
   end) = Some (0, Some 2, Some METRIC_INNER_PRODUCT)
  /\ (let r := faiss_IndexIVFPQ_new (E := HeaderEngine.header_engine)
                 1 4 8 2 8 flat_world in
      match r with
      | Ok (status, p) w =>
          Some (status, p,
                @metric_type HeaderEngine.types <$>
                  @indexes HeaderEngine.types w !! 2)
      | _ => None
      end) = Some (0, Some 2, Some METRIC_L2).
Proof. split; vm_compute; reflexivity. Qed.

Lemma flat_world_format_stable :
  format_stable_for (E := HeaderEngine.header_engine) 1 flat_world.
Proof.
  intros o bytes wa wb p wc Hlive Hwrite Hread.
  vm_compute in Hlive. inversion Hlive; subst o; clear Hlive.
  assert (bytes = flat_bytes) as ->.
  { vm_compute in Hwrite. inversion Hwrite. reflexivity. }
  cbn [engine HeaderEngine.header_engine HeaderEngine.run] in Hread.
  unfold HeaderEngine.read_bytes in Hread.
  replace (HeaderEngine.decode flat_bytes) with (Some flat_index) in Hread
    by (vm_compute; reflexivity).
  unfold HeaderEngine.alloc in Hread. inversion Hread; subst p wc; clear Hread.
  split; [unfold NULL; lia|].
  exists flat_index. cbn [indexes]. rewrite lookup_insert_eq.
  split; [reflexivity|]. repeat split.
Qed.

Lemma serialize_deserialize_round_trip_witness :
  ri_d (mkReadInfo 2 "IndexFlatL2" 4 1 10) = d flat_index /\
  ri_metric (mkReadInfo 2 "IndexFlatL2" 4 1 10) =
    metric_to_int (metric_type flat_index) /\
  ri_ntotal (mkReadInfo 2 "IndexFlatL2" 4 1 10) = ntotal flat_index /\
  ri_index_type (mkReadInfo 2 "IndexFlatL2" 4 1 10) =
    first_match (H := HeaderEngine.header_engine) (dyn_class flat_index) /\
  faiss_Index_d 2 flat_world_read_back =
    Ok (d flat_index) flat_world_read_back /\
  faiss_Index_ntotal 2
    flat_world_read_back = Ok (ntotal flat_index) flat_world_read_back /\
  faiss_Index_is_trained 2
    flat_world_read_back =
    Ok (if is_trained flat_index then 1 else 0) flat_world_read_back.
Proof.
  apply (serialize_deserialize_round_trip (E := HeaderEngine.header_engine)
           1 flat_index flat_bytes 15 flat_world flat_world flat_world
           flat_world_read_back (mkReadInfo 2 "IndexFlatL2" 4 1 10)).
  - reflexivity.
  - exact flat_world_format_stable.
  - vm_compute. reflexivity.
  - vm_compute. reflexivity.
Defined.

Lemma variant_tag_is_first_match_witness :
  exists o o',
    indexes flat_world_file_read !! 2 = Some o /\
    indexes flat_world_read_back !! 2 = Some o' /\
    "IndexFlatL2"%string =
      first_match (H := HeaderEngine.header_engine) (dyn_class o) /\
    "IndexFlatL2"%string =
      first_match (H := HeaderEngine.header_engine) (dyn_class o') /\
    (dyn_class o = dyn_class o' -> "IndexFlatL2"%string = "IndexFlatL2"%string).
Proof.
  apply (variant_tag_is_first_match (E := HeaderEngine.header_engine)
           "flat.index" flat_bytes 15
           flat_world_on_file flat_world_file_read
           flat_world flat_world_read_back
           (mkReadInfo 2 "IndexFlatL2" 4 1 10)
           (mkReadInfo 2 "IndexFlatL2" 4 1 10)).
  - vm_compute. reflexivity.
  - vm_compute. reflexivity.
  - discriminate.
  - discriminate.
Defined.

(** ** The IDMap variant *)

Lemma removed_count (sel : gset Z) (known : list Z) :
  NoDup known ->
  Z.of_nat (length known) -
  Z.of_nat (length (List.filter (SpecEngine.kept sel) known)) =
  Z.of_nat (size (sel ∩ list_to_set known)).
Proof.
  induction 1 as [|a l Hnotin Hnodup IH].
  - cbn. replace (sel ∩ ∅) with (∅ : gset Z) by set_solver.
    rewrite size_empty. reflexivity.
  - cbn [List.filter list_to_set]. unfold SpecEngine.kept at 1.
    destruct (decide (a ∈ sel)) as [Hin|Hout].
    + rewrite bool_decide_eq_false_2 by (intros Hc; apply Hc; exact Hin).
      replace (sel ∩ ({[a]} ∪ list_to_set l))
        with ({[a]} ∪ (sel ∩ list_to_set l) : gset Z) by set_solver.
      rewrite size_union by set_solver. rewrite size_singleton.
      cbn [length]. lia.
    + rewrite bool_decide_eq_true_2 by exact Hout.
      replace (sel ∩ ({[a]} ∪ list_to_set l))
        with (sel ∩ list_to_set l : gset Z) by set_solver.
      cbn [length]. lia.
Qed.

Section IDMapProofs.
Variable F : Type.
Variable fvec_L2sqr : list F -> list F -> F.
Variable flt : F -> F -> bool.
Variable finf : F.

#[local] Hint Extern 0 EngineTypes =>
  exact (SpecEngine.types F) : typeclass_instances.
#[local] Hint Extern 0 Engine =>
  exact (SpecEngine.spec_engine F fvec_L2sqr flt finf) : typeclass_instances.

Lemma dynamic_cast_idmap (index : handle) (w : World) (o : Index) :
  index <> NULL -> indexes w !! index = Some o ->
  dyn_class o = IndexIDMap ->
  dynamic_cast IndexIDMap index w = Ok (Some o) w.
Proof.
  intros Hp Hlive Hcls. unfold dynamic_cast.
  destruct (decide (index = NULL)) as [?|_]; [contradiction|].
  unfold bind, deref_index, ret. rewrite Hlive, Hcls. reflexivity.
Qed.

Lemma flat_add_inv (base : handle) (n : Z) (x : list F) (w w1 : World) :
  SpecEngine.flat_add F base n x w = Ok tt w1 ->
  exists b stored new,
    indexes w !! base = Some b /\
    indexes w1 = <[base := SpecEngine.set_ntotal F (ntotal b + n) b]>
                   (indexes w) /\
    SpecEngine.rows F (engine_state w1) =
      <[base := stored ++ new]> (SpecEngine.rows F (engine_state w)) /\
    SpecEngine.id_map F (engine_state w1) =
      SpecEngine.id_map F (engine_state w).
Proof.
  unfold SpecEngine.flat_add. intros H.
  destruct (indexes w !! base) as [b|] eqn:Hb; [|discriminate].
  destruct (SpecEngine.rows F (engine_state w) !! base) as [stored|] eqn:Hs;
    [|discriminate].
  destruct (SpecEngine.is_flat F b); [|discriminate].
  destruct (SpecEngine.rows_of F (d b) n x) as [new|]; [|discriminate].
  inversion H; subst w1. exists b, stored, new. cbn. auto.
Qed.

Lemma populated_idmap_state (index : handle) (w : World) (known : list Z) :
  SpecEngine.populated F fvec_L2sqr flt finf index w known ->
  SpecEngine.idmap_state F index known w.
Proof.
  induction 1 as [base w w' Hnew|w known n x ids w' Hpop IH Hadd].
  - apply catch_success_inv in Hnew.
    unfold faiss_IndexIDMap_new_try, bind, ret in Hnew.
    destruct (engine (New_IndexIDMap base) w) as [p w0| |] eqn:Hcall;
      try discriminate.
    inversion Hnew; subst p w0; clear Hnew.
    cbn [engine SpecEngine.spec_engine SpecEngine.run] in Hcall.
    unfold SpecEngine.new_idmap in Hcall.
    destruct (indexes w !! base) as [b|] eqn:Hb; [|discriminate].
    destruct (SpecEngine.rows F (engine_state w) !! base) as [stored|] eqn:Hs;
      [|discriminate].
    destruct (decide _) as [_|_]; [|discriminate].
    inversion Hcall as [[Hindex Hw]]. clear Hcall.
    eexists _, base. cbn.
    rewrite !lookup_insert_eq.
    repeat split; try reflexivity.
    + unfold NULL. lia.
    + rewrite lookup_insert. destruct (decide _); eauto.
    + eauto.
  - destruct IH as (o & base & Hp & Hlive & Hcls & Hmap & Hbase & Hrows & Hn).
    apply CATCH_AND_HANDLE_inv in Hadd as [Hadd|[_ Hadd]]; [|discriminate].
    unfold faiss_IndexIDMap_add_with_ids_try in Hadd.
    rewrite (bind_Ok _ _ _ _ _ (dynamic_cast_idmap _ _ _ Hp Hlive Hcls))
      in Hadd.
    unfold bind, ret in Hadd.
    destruct (engine (Index_add_with_ids index n x ids) w) as [[] w0| |]
      eqn:Hcall; try discriminate.
    inversion Hadd; subst w0; clear Hadd.
    cbn [engine SpecEngine.spec_engine SpecEngine.run] in Hcall.
    unfold SpecEngine.idmap_add_with_ids in Hcall.
    rewrite Hlive, Hmap in Hcall.
    destruct (decide (0 <= n <= Z.of_nat (length ids))) as [Hrange|_];
      [|discriminate].
    destruct (SpecEngine.flat_add F base n x w) as [[] w1| |] eqn:Hflat;
      try discriminate.
    apply flat_add_inv in Hflat
      as (b & stored & new & Hb & Hidx1 & Hrows1 & Hmap1).
    inversion Hcall; subst w'; clear Hcall.
    exists (SpecEngine.set_ntotal F (ntotal o + n) o), base. cbn.
    rewrite !lookup_insert_eq, Hidx1, Hrows1.
    repeat split; try assumption.
    + rewrite !lookup_insert. repeat destruct (decide _); eauto.
    + rewrite lookup_insert. destruct (decide _); eauto.
    + rewrite length_app, length_take, Hn. lia.
Qed.

(** C6.  For an IDMap index populated via [add_with_ids] with ids that are
    unique within the index, and for every batch of ids handed to
    [remove_ids], the call succeeds and reports as removed the number of
    ids of the batch that are present in the index, and ntotal decreases
    by exactly that number. *)
Theorem remove_ids_counts_present
    (index : handle) (w : World) (known ids : list Z) (n_ids : Z) :
  SpecEngine.populated F fvec_L2sqr flt finf index w known ->
  NoDup known ->
  0 <= n_ids <= Z.of_nat (length ids) ->
  exists before removed w',
    faiss_Index_ntotal index w = Ok before w /\
    faiss_IndexIDMap_remove_ids index ids n_ids w =
      Ok (0, Some removed) w' /\
    removed =
      Z.of_nat (size ((list_to_set (take (Z.to_nat n_ids) ids) : gset Z)
                        ∩ list_to_set known)) /\
    faiss_Index_ntotal index w' = Ok (before - removed) w'.
Proof.
  intros Hpop Hnodup Hrange.
  destruct (populated_idmap_state _ _ _ Hpop)
    as (o & base & Hp & Hlive & Hcls & Hmap & [b Hb] & [stored Hs] & Hn).
  eexists (ntotal o), _, _. split; [|split; [|split]].
  - unfold faiss_Index_ntotal, bind, deref_index, ret. rewrite Hlive.
    reflexivity.
  - apply CATCH_AND_HANDLE_Ok. unfold faiss_IndexIDMap_remove_ids_try.
    rewrite (bind_Ok _ _ _ _ _ (dynamic_cast_idmap _ _ _ Hp Hlive Hcls)).
    unfold bind, ret.
    cbn [engine SpecEngine.spec_engine SpecEngine.run].
    unfold ret, SpecEngine.idmap_remove_ids, SpecEngine.selected.
    rewrite Hlive, Hmap, Hb, Hs.
    destruct (decide (0 <= n_ids <= Z.of_nat (length ids))) as [_|Hno];
      [|contradiction].
    reflexivity.
  - apply removed_count. exact Hnodup.
  - unfold faiss_Index_ntotal, bind, deref_index, ret. cbn.
    rewrite lookup_insert_eq. reflexivity.
Qed.

End IDMapProofs.

Lemma idmap_world3_populated :
  SpecEngine.populated Z l2sqr_Z Z.ltb 0 2 idmap_world3 [10; 20; 30].
Proof.
  apply (SpecEngine.populated_add Z l2sqr_Z Z.ltb 0 2
           idmap_world2 [] 3 [0; 0; 1; 1; 5; 5] [10; 20; 30] idmap_world3).
  - apply (SpecEngine.populated_new Z l2sqr_Z Z.ltb 0 2 1
             idmap_world1 idmap_world2).
    vm_compute. reflexivity.
  - vm_compute. reflexivity.
Qed.

Lemma remove_ids_counts_present_witness :
  exists before removed w',
    faiss_Index_ntotal 2 idmap_world3 = Ok before idmap_world3 /\
    faiss_IndexIDMap_remove_ids (E := spec_engine_Z) 2 [20; 30; 40] 3
      idmap_world3 = Ok (0, Some removed) w' /\
    removed =
      Z.of_nat (size ((list_to_set (take (Z.to_nat 3) [20; 30; 40]) : gset Z)
                        ∩ list_to_set [10; 20; 30])) /\
    faiss_Index_ntotal 2 w' = Ok (before - removed) w'.
Proof.
  apply (remove_ids_counts_present Z l2sqr_Z Z.ltb 0 2 idmap_world3
           [10; 20; 30] [20; 30; 40] 3).
  - exact idmap_world3_populated.
  - apply (bool_decide_unpack _). vm_compute. exact I.
  - cbn. lia.
Defined.

(** ** The clustering facade *)

Section KmeansProofs.
Variable F : Type.
Variable fvec_L2sqr : list F -> list F -> F.
Variable flt : F -> F -> bool.
Variable finf : F.

(** [<] on distances is a strict order. *)
Hypothesis flt_irrefl : forall a, flt a a = false.
Hypothesis flt_trans :
  forall a b c, flt a b = true -> flt b c = true -> flt a c = true.

#[local] Hint Extern 0 EngineTypes =>
  exact (SpecEngine.types F) : typeclass_instances.
#[local] Hint Extern 0 Engine =>
  exact (SpecEngine.spec_engine F fvec_L2sqr flt finf) : typeclass_instances.

Lemma length_chunks (dim n : nat) (x : list F) :
  length (SpecEngine.chunks F dim n x) = n.
Proof.
  revert x. induction n as [|n IH]; intros x; cbn; [reflexivity|].
  rewrite IH. reflexivity.
Qed.

(** The scan keeps a stored vector that no stored vector seen so far is
    strictly closer than. *)
Lemma nearest_from_spec (q : list F) (rest seen : list (list F))
    (i j : Z) (dj : F) (c : list F) :
  i = Z.of_nat (length seen) ->
  0 <= j -> seen !! Z.to_nat j = Some c -> dj = fvec_L2sqr q c ->
  (forall c', c' ∈ seen -> flt (fvec_L2sqr q c') dj = false) ->
  exists c2,
    let r := SpecEngine.nearest_from F fvec_L2sqr flt q i (j, dj) rest in
    0 <= r.1 /\ (seen ++ rest) !! Z.to_nat r.1 = Some c2 /\
    r.2 = fvec_L2sqr q c2 /\
    (forall c', c' ∈ seen ++ rest -> flt (fvec_L2sqr q c') r.2 = false).
Proof.
  revert seen i j dj c.
  induction rest as [|r rs IH]; intros seen i j dj c Hi Hj Hc Hdj Hmin.
  - exists c. cbn. rewrite app_nil_r. auto.
  - cbn [SpecEngine.nearest_from]. cbn [snd].
    replace (seen ++ r :: rs) with ((seen ++ [r]) ++ rs)
      by (rewrite <- app_assoc; reflexivity).
    destruct (flt (fvec_L2sqr q r) dj) eqn:Hcmp.
    + apply (IH (seen ++ [r]) (i + 1) i (fvec_L2sqr q r) r).
      * rewrite length_app. cbn. lia.
      * lia.
      * subst i. rewrite Nat2Z.id.
        rewrite lookup_app_r by lia. rewrite Nat.sub_diag. reflexivity.
      * reflexivity.
      * intros c' Hin. apply elem_of_app in Hin as [Hin|Hin].
        -- destruct (flt (fvec_L2sqr q c') (fvec_L2sqr q r)) eqn:Hc';
             [|reflexivity].
           rewrite <- (Hmin c' Hin). symmetry.
           apply (flt_trans _ _ _ Hc' Hcmp).
        -- apply list_elem_of_singleton in Hin as ->. apply flt_irrefl.
    + apply (IH (seen ++ [r]) (i + 1) j dj c).
      * rewrite length_app. cbn. lia.
      * exact Hj.
      * rewrite lookup_app_l; [exact Hc|].
        apply lookup_lt_Some in Hc. exact Hc.
      * exact Hdj.
      * intros c' Hin. apply elem_of_app in Hin as [Hin|Hin].
        -- apply Hmin. exact Hin.
        -- apply list_elem_of_singleton in Hin as ->. exact Hcmp.
Qed.

Lemma nearest_spec (q : list F) (stored : list (list F)) :
  stored <> [] ->
  exists c,
    let r := SpecEngine.nearest F fvec_L2sqr flt finf q stored in
    0 <= r.1 < Z.of_nat (length stored) /\
    stored !! Z.to_nat r.1 = Some c /\
    (forall c', c' ∈ stored ->
       flt (fvec_L2sqr q c') (fvec_L2sqr q c) = false).
Proof.
  destruct stored as [|r rs]; [contradiction|]. intros _.
  destruct (nearest_from_spec q rs [r] 1 0 (fvec_L2sqr q r) r)
    as (c & Hpos & Hc & Hd & Hmin); try reflexivity; try lia.
  { intros c' Hin. apply list_elem_of_singleton in Hin as ->.
    apply flt_irrefl. }
  exists c. cbn [SpecEngine.nearest]. cbn in Hc, Hmin, Hd, Hpos |- *.
  split; [split; [exact Hpos|]|split; [exact Hc|]].
  - apply lookup_lt_Some in Hc. cbn in Hc. lia.
  - intros c' Hin. rewrite <- Hd. apply Hmin. exact Hin.
Qed.

Lemma rows_of_Some (dim n : Z) (x : list F) :
  0 < dim -> 0 <= n -> n * dim <= Z.of_nat (length x) ->
  SpecEngine.rows_of F dim n x =
  Some (SpecEngine.chunks F (Z.to_nat dim) (Z.to_nat n) x).
Proof.
  intros Hd Hn Hx. unfold SpecEngine.rows_of.
  destruct (decide _) as [_|Hno]; [reflexivity|]. exfalso. apply Hno. auto.
Qed.

(** C8.  For a trained clustering job, [faiss_Kmeans_assign] succeeds and
    gives one label per input vector; each label designates a centroid
    that no centroid is strictly closer to the vector than, under the
    engine's L2 distance.  The Flat(L2) index it builds over the centroids
    is gone when it returns, and the job is left as it was. *)
Theorem kmeans_assign_nearest_centroid
    (kmeans : handle) (km : Clustering) (n : Z) (x : list F) (w : World) :
  clusterings w !! kmeans = Some km ->
  0 < cd km -> 0 < ck km ->
  Z.of_nat (length (centroids km)) = ck km * cd km ->
  0 <= n -> n * cd km <= Z.of_nat (length x) ->
  let cs := SpecEngine.chunks F (Z.to_nat (cd km)) (Z.to_nat (ck km))
              (centroids km) in
  let qs := SpecEngine.chunks F (Z.to_nat (cd km)) (Z.to_nat n) x in
  exists labels w',
    faiss_Kmeans_assign kmeans n x w = Ok (0, Some labels) w' /\
    indexes w' =
      delete (Z.max 1 (SpecEngine.next_handle F (engine_state w)))
        (indexes w) /\
    clusterings w' = clusterings w /\
    length labels = Z.to_nat n /\
    (forall i q,
       qs !! i = Some q ->
       exists label c,
         labels !! i = Some label /\
         0 <= label < ck km /\
         cs !! Z.to_nat label = Some c /\
         (forall c', c' ∈ cs ->
            flt (fvec_L2sqr q c') (fvec_L2sqr q c) = false)).
Proof.
  intros Hkm Hd Hk Htrained Hn Hx cs qs.
  set (h := Z.max 1 (SpecEngine.next_handle F (engine_state w))).
  exists ((fun q => (SpecEngine.nearest F fvec_L2sqr flt finf q cs).1) <$> qs).
  eexists. split; [|split; [|split; [|split]]].
  - apply CATCH_AND_HANDLE_Ok. unfold faiss_Kmeans_assign_try.
    unfold bind at 1. unfold deref_clustering at 1. rewrite Hkm.
    unfold bind at 1.
    cbn [engine SpecEngine.spec_engine SpecEngine.run].
    unfold SpecEngine.new_flat, SpecEngine.alloc_index. fold h.
    unfold scoped, bind, deref_clustering. cbn [clusterings].
    rewrite Hkm.
    cbn [engine SpecEngine.spec_engine SpecEngine.run].
    unfold SpecEngine.flat_add. cbn [indexes engine_state SpecEngine.rows].
    rewrite !lookup_insert_eq.
    unfold SpecEngine.is_flat. cbn [dyn_class d ntotal].
    rewrite bool_decide_eq_true_2 by (left; reflexivity).
    rewrite (rows_of_Some _ _ _ Hd (Z.lt_le_incl _ _ Hk))
      by (apply Z.eq_le_incl; symmetry; exact Htrained).
    destruct (decide (0 <= n)) as [_|?]; [|contradiction].
    unfold ret, SpecEngine.flat_search.
    cbn [indexes engine_state SpecEngine.rows].
    rewrite !lookup_insert_eq.
    unfold SpecEngine.set_ntotal. cbn [dyn_class d].
    destruct (decide (IndexFlatL2 = IndexFlatL2 /\ 1 = 1)) as [_|Hno];
      [|exfalso; apply Hno; auto].
    rewrite (rows_of_Some _ _ _ Hd Hn Hx).
    unfold SpecEngine.destroy. cbn [indexes]. rewrite lookup_insert_eq.
    cbn [snd app]. fold cs qs.
    rewrite <- list_fmap_compose. reflexivity.
  - cbn [indexes]. rewrite !delete_insert_eq. reflexivity.
  - reflexivity.
  - rewrite length_fmap. apply length_chunks.
  - intros i q Hq.
    assert (cs <> []) as Hne.
    { intros Hnil. apply (f_equal length) in Hnil.
      unfold cs in Hnil. rewrite length_chunks in Hnil. cbn in Hnil.
      clear - Hk Hnil. lia. }
    destruct (nearest_spec q cs Hne) as (c & [Hpos Hlt] & Hc & Hmin).
    exists (SpecEngine.nearest F fvec_L2sqr flt finf q cs).1, c.
    split; [|split; [|split]].
    + rewrite list_lookup_fmap, Hq. reflexivity.
    + unfold cs in Hlt. rewrite length_chunks in Hlt.
      rewrite Z2Nat.id in Hlt by lia. split; assumption.
    + exact Hc.
    + exact Hmin.
Qed.

End KmeansProofs.

Lemma Zltb_trans (a b c : Z) :
  (a <? b) = true -> (b <? c) = true -> (a <? c) = true.
Proof. rewrite !Z.ltb_lt. lia. Qed.

Example kmeans_assign_example :
  returned (faiss_Kmeans_assign (E := spec_engine_Z) 5 3
              [1; 1; 9; 9; 6; 6] kmeans_world) =
  Some (0, Some [0; 1; 1]).
Proof. vm_compute. reflexivity. Qed.

Example remove_ids_example :
  returned (faiss_IndexIDMap_remove_ids (E := spec_engine_Z) 2
              [20; 30; 40] 3 idmap_world3) = Some (0, Some 2)
  /\ returned (faiss_Index_ntotal 2 idmap_world3) = Some 3.
Proof. split; vm_compute; reflexivity. Qed.

Lemma kmeans_assign_nearest_centroid_witness :
  let cs := SpecEngine.chunks Z 2 2 [0; 0; 10; 10] in
  let qs := SpecEngine.chunks Z 2 3 [1; 1; 9; 9; 6; 6] in
  exists labels w',
    faiss_Kmeans_assign (E := spec_engine_Z) 5 3 [1; 1; 9; 9; 6; 6]
      kmeans_world = Ok (0, Some labels) w' /\
    indexes w' = delete 1 (indexes kmeans_world) /\
    clusterings w' = clusterings kmeans_world /\
    length labels = 3%nat /\
    (forall i q,
       qs !! i = Some q ->
       exists label c,
         labels !! i = Some label /\
         0 <= label < 2 /\
         cs !! Z.to_nat label = Some c /\
         (forall c', c' ∈ cs -> (l2sqr_Z q c' <? l2sqr_Z q c) = false)).
Proof.
  apply (kmeans_assign_nearest_centroid Z l2sqr_Z Z.ltb 0
           Z.ltb_irrefl Zltb_trans 5 kmeans_job 3 [1; 1; 9; 9; 6; 6]
           kmeans_world).
  - reflexivity.
  - reflexivity.
  - reflexivity.
  - reflexivity.
  - discriminate.
  - discriminate.
Defined.

(** * Further properties of the facade *)

(** ** Machine integers *)

Lemma to_int64_to_size_t (z : Z) :
  - 2 ^ 63 <= z < 2 ^ 63 -> to_int64 (to_size_t z) = z.
Proof.
  unfold to_int64, to_size_t, wrap_signed.
  change (2 ^ (64 - 1)) with 9223372036854775808.
  change (2 ^ 63) with 9223372036854775808.
  change (2 ^ 64) with 18446744073709551616.
  intros Hz. Z.div_mod_to_equations. lia.
Qed.

Lemma to_int_small (z : Z) : - 2 ^ 31 <= z < 2 ^ 31 -> to_int z = z.
Proof.
  unfold to_int, wrap_signed.
  change (2 ^ (32 - 1)) with 2147483648.
  change (2 ^ 31) with 2147483648.
  change (2 ^ 32) with 4294967296.
  intros Hz. Z.div_mod_to_equations. lia.
Qed.

(** ** Capability accessors on a handle of the right family *)

Section Accessors.
Context {ET : EngineTypes} {E : Engine}.

Lemma dynamic_cast_match (t : CxxClass) (index : handle) (w : World)
    (o : Index) :
  index <> NULL -> indexes w !! index = Some o ->
  derives (dyn_class o) t = true ->
  dynamic_cast t index w = Ok (Some o) w.
Proof.
  intros Hp Hlive Hcls. unfold dynamic_cast.
  destruct (decide (index = NULL)) as [?|_]; [contradiction|].
  unfold bind, deref_index, ret. rewrite Hlive, Hcls. reflexivity.
Qed.

Lemma dynamic_cast_inv (t : CxxClass) (index : handle) (w w' : World)
    (r : option Index) :
  dynamic_cast t index w = Ok r w' ->
  w' = w /\
  match r with
  | Some o =>
      index <> NULL /\ indexes w !! index = Some o /\
      derives (dyn_class o) t = true
  | None =>
      index = NULL \/
      exists o, indexes w !! index = Some o /\
                derives (dyn_class o) t = false
  end.
Proof.
  unfold dynamic_cast.
  destruct (decide (index = NULL)) as [Hnull|Hp].
  - unfold ret. intros H; inversion H; subst. auto.
  - unfold bind, deref_index, ret.
    destruct (indexes w !! index) as [o|] eqn:Hlive; [|discriminate].
    destruct (derives (dyn_class o) t) eqn:Hcls;
      intros H; inversion H; subst; eauto 6.
Qed.

(** X1.  On a live inverted-file handle the nprobe setter accepts every
    64-bit value, stores it as a size_t (a negative one wraps to
    nprobe + 2^64), and the getter then gives back the value that was
    set. *)
Theorem nprobe_set_then_get (index : handle) (o : Index) (nprobe' : Z)
    (w : World) :
  index <> NULL -> indexes w !! index = Some o ->
  derives (dyn_class o) IndexIVF = true ->
  - 2 ^ 63 <= nprobe' < 2 ^ 63 ->
  exists w',
    faiss_IndexIVF_set_nprobe index nprobe' w = Ok 0 w' /\
    (nprobe <$> indexes w' !! index) = Some (nprobe' mod 2 ^ 64) /\
    faiss_IndexIVF_get_nprobe index w' = Ok (0, Some nprobe') w'.
Proof.
  intros Hp Hlive Hcls Hrange. eexists. split; [|split].
  - apply CATCH_AND_HANDLE_Ok. unfold faiss_IndexIVF_set_nprobe_try.
    rewrite (bind_Ok _ _ _ _ _ (dynamic_cast_match _ _ _ _ Hp Hlive Hcls)).
    reflexivity.
  - cbn. rewrite lookup_insert_eq. reflexivity.
  - apply CATCH_AND_HANDLE_Ok. unfold faiss_IndexIVF_get_nprobe_try.
    erewrite bind_Ok.
    2:{ apply dynamic_cast_match; [exact Hp| |].
        - cbn. apply lookup_insert_eq.
        - exact Hcls. }
    cbn. rewrite (to_int64_to_size_t _ Hrange). reflexivity.
Qed.

(** X2.  On a live graph handle each of efSearch and efConstruction is
    read back as it was set, whatever the value, and setting one leaves
    the other as it was. *)
Theorem hnsw_ef_set_then_get (index : handle) (o : Index) (ef : Z)
    (w : World) :
  index <> NULL -> indexes w !! index = Some o ->
  derives (dyn_class o) IndexHNSW = true ->
  (exists w',
     faiss_IndexHNSW_set_efSearch index ef w = Ok 0 w' /\
     faiss_IndexHNSW_get_efSearch index w' = Ok (0, Some ef) w' /\
     faiss_IndexHNSW_get_efConstruction index w' =
       Ok (0, Some (efConstruction o)) w')
  /\ (exists w',
        faiss_IndexHNSW_set_efConstruction index ef w = Ok 0 w' /\
        faiss_IndexHNSW_get_efConstruction index w' = Ok (0, Some ef) w' /\
        faiss_IndexHNSW_get_efSearch index w' =
          Ok (0, Some (efSearch o)) w').
Proof.
  intros Hp Hlive Hcls.
  split; eexists; (split; [|split]).
  all: apply CATCH_AND_HANDLE_Ok;
    unfold faiss_IndexHNSW_set_efSearch_try,
      faiss_IndexHNSW_set_efConstruction_try,
      faiss_IndexHNSW_get_efSearch_try,
      faiss_IndexHNSW_get_efConstruction_try.
  1,4: rewrite (bind_Ok _ _ _ _ _
                  (dynamic_cast_match _ _ _ _ Hp Hlive Hcls));
       reflexivity.
  all: erewrite bind_Ok
         by (apply dynamic_cast_match;
             [exact Hp | cbn; apply lookup_insert_eq | exact Hcls]);
       reflexivity.
Qed.

Lemma same_header_refl (o : Index) : same_header o o.
Proof. repeat split. Qed.

Lemma headers_kept_refl (w : World) : headers_kept w w.
Proof.
  split; [|auto]. intros h. destruct (indexes w !! h); [|exact I].
  apply same_header_refl.
Qed.

Lemma headers_kept_store (index : handle) (o o' : Index) (w : World) :
  indexes w !! index = Some o -> same_header o o' ->
  headers_kept w (set_indexes (<[index := o']> (indexes w)) w).
Proof.
  intros Hlive Hsame. split; [|cbn; auto]. intros h. cbn.
  destruct (decide (index = h)) as [<-|Hne].
  - rewrite Hlive, lookup_insert_eq. exact Hsame.
  - rewrite lookup_insert_ne by exact Hne.
    destruct (indexes w !! h); [apply same_header_refl|exact I].
Qed.

Lemma dynamic_cast_no_throw (t : CxxClass) (index : handle) (w w' : World) :
  dynamic_cast t index w <> Throw w'.
Proof.
  unfold dynamic_cast, bind, deref_index, ret.
  destruct (decide (index = NULL)); [discriminate|].
  destruct (indexes w !! index); discriminate.
Qed.

Lemma run_setter_inv (s : Setter) (index : handle) (w w' : World)
    (status : Z) :
  run_setter s index w = Ok status w' ->
  (status = -1 /\ w' = w /\
   (index = NULL \/
    exists o, indexes w !! index = Some o /\
              derives (dyn_class o) (family s) = false))
  \/ (status = 0 /\ index <> NULL /\
      exists o o',
        indexes w !! index = Some o /\
        derives (dyn_class o) (family s) = true /\
        same_header o o' /\
        w' = set_indexes (<[index := o']> (indexes w)) w).
Proof.
  intros Hrun.
  destruct s; cbn [run_setter family] in *;
    apply CATCH_AND_HANDLE_inv in Hrun as [Hrun|[Hrun _]];
    unfold faiss_IndexIVF_set_nprobe_try,
      faiss_IndexHNSW_set_efConstruction_try,
      faiss_IndexHNSW_set_efSearch_try,
      faiss_IndexRefine_set_k_factor_try, bind in Hrun;
    match type of Hrun with
    | context [dynamic_cast ?t index w] =>
        destruct (dynamic_cast t index w) as [r w0|w0|] eqn:Hcast;
          [ | exfalso; exact (dynamic_cast_no_throw _ _ _ _ Hcast)
            | discriminate ];
        apply dynamic_cast_inv in Hcast as [-> Hcast]
    end;
    destruct r as [o|];
    unfold store_index, modify, ret in Hrun;
    inversion Hrun; subst; clear Hrun.
  all: first
    [ right; destruct Hcast as (Hp & Hlive & Hcls);
      split; [reflexivity|]; split; [exact Hp|];
      eexists o, _; split; [exact Hlive|]; split; [exact Hcls|];
      split; [|reflexivity]; repeat split
    | left; auto ].
Qed.

(** X3.  Whatever a capability setter (nprobe, efConstruction, efSearch,
    k_factor) returns, afterwards every handle designates an index of
    the same class, d, ntotal, trained flag and metric as before, and the
    binary indexes, the clustering jobs, the range results and the
    engine's own state are as they were. *)
Theorem setters_keep_headers (s : Setter) (index : handle) (w w' : World)
    (status : Z) :
  run_setter s index w = Ok status w' -> headers_kept w w'.
Proof.
  intros Hrun.
  apply run_setter_inv in Hrun
    as [(_ & -> & _)|(_ & _ & o & o' & Hlive & _ & Hsame & ->)].
  - apply headers_kept_refl.
  - apply headers_kept_store with o; assumption.
Qed.

(** X4.  On a live handle a capability setter returns 0 exactly when the
    index is of the family the setter casts to, and -1 otherwise; it
    returns nothing else. *)
Theorem setter_status_decides_family (s : Setter) (index : handle)
    (o : Index) (w w' : World) (status : Z) :
  indexes w !! index = Some o -> index <> NULL ->
  run_setter s index w = Ok status w' ->
  (status = 0 \/ status = -1) /\
  (status = 0 <-> derives (dyn_class o) (family s) = true).
Proof.
  intros Hlive Hp Hrun.
  apply run_setter_inv in Hrun
    as [(-> & _ & [Hnull|(o1 & Hlive1 & Hcls)])
       |(-> & _ & o1 & o' & Hlive1 & Hcls & _)].
  - contradiction.
  - rewrite Hlive in Hlive1. inversion Hlive1; subst o1.
    split; [auto|]. rewrite Hcls. split; discriminate.
  - rewrite Hlive in Hlive1. inversion Hlive1; subst o1.
    split; [auto|]. rewrite Hcls. split; reflexivity.
Qed.

End Accessors.

(** ** Guarded entry points on foreign and null handles *)

Section Guards.
Context {ET : EngineTypes} {E : Engine}.

Lemma dynamic_cast_null (t : CxxClass) (w : World) :
  dynamic_cast t NULL w = Ok None w.
Proof. reflexivity. Qed.

Lemma dynamic_cast_binary_null (t : CxxClass) (w : World) :
  dynamic_cast_binary t NULL w = Ok None w.
Proof. reflexivity. Qed.

#[local] Ltac rejected lemma :=
  intros; apply CATCH_AND_HANDLE_Ok;
  unfold faiss_IndexIVF_set_nprobe_try, faiss_IndexIVF_get_nprobe_try,
    faiss_IndexHNSW_set_efConstruction_try, faiss_IndexHNSW_set_efSearch_try,
    faiss_IndexHNSW_get_efConstruction_try, faiss_IndexHNSW_get_efSearch_try,
    faiss_IndexRefine_set_k_factor_try, faiss_IndexBinaryIVF_set_nprobe_try,
    faiss_Index_assign_try, faiss_IndexIDMap_add_with_ids_try,
    faiss_IndexIDMap_remove_ids_try, faiss_IndexShards_add_shard_try;
  erewrite bind_Ok by lemma; reflexivity.

(** X5.  Every entry point that is guarded by a cast answers a null
    handle with -1: it delivers nothing, calls nothing in the engine and
    leaves the world as it was, whatever the world is. *)
Theorem null_handle_is_rejected (w : World) :
  (forall nprobe, faiss_IndexIVF_set_nprobe NULL nprobe w = Ok (-1) w)
  /\ faiss_IndexIVF_get_nprobe NULL w = Ok (-1, None) w
  /\ (forall ef, faiss_IndexHNSW_set_efConstruction NULL ef w = Ok (-1) w)
  /\ (forall ef, faiss_IndexHNSW_set_efSearch NULL ef w = Ok (-1) w)
  /\ faiss_IndexHNSW_get_efConstruction NULL w = Ok (-1, None) w
  /\ faiss_IndexHNSW_get_efSearch NULL w = Ok (-1, None) w
  /\ (forall k_factor,
        faiss_IndexRefine_set_k_factor NULL k_factor w = Ok (-1) w)
  /\ (forall nprobe,
        faiss_IndexBinaryIVF_set_nprobe NULL nprobe w = Ok (-1) w)
  /\ (forall n x, faiss_Index_assign NULL n x w = Ok (-1, None) w)
  /\ (forall n x ids,
        faiss_IndexIDMap_add_with_ids NULL n x ids w = Ok (-1) w)
  /\ (forall ids n_ids,
        faiss_IndexIDMap_remove_ids NULL ids n_ids w = Ok (-1, None) w)
  /\ (forall shard, faiss_IndexShards_add_shard NULL shard w = Ok (-1) w).
Proof.
  repeat apply conj;
    rejected ltac:(first [ apply dynamic_cast_null
                         | apply dynamic_cast_binary_null ]).
Qed.

(** X6.  [faiss_Index_assign] on a live handle that is not of the
    inverted-file family, the IDMap [add_with_ids] and [remove_ids] on one
    that is not an IDMap, and [add_shard] on one that is not a shard set
    return -1 without calling the engine: nothing is delivered and the
    world is as it was. *)
Theorem guarded_operations_reject_foreign_handles (index : handle)
    (w : World) :
  (not_a IndexIVF index w ->
     forall n x, faiss_Index_assign index n x w = Ok (-1, None) w)
  /\ (not_a IndexIDMap index w ->
        (forall n x ids,
           faiss_IndexIDMap_add_with_ids index n x ids w = Ok (-1) w)
        /\ (forall ids n_ids,
              faiss_IndexIDMap_remove_ids index ids n_ids w =
              Ok (-1, None) w))
  /\ (not_a IndexShards index w ->
        forall shard, faiss_IndexShards_add_shard index shard w = Ok (-1) w).
Proof.
  split; [|split]; intros H; [|split|];
    rejected ltac:(apply dynamic_cast_mismatch; exact H).
Qed.

End Guards.

(** ** What the readers and the writer hand back *)

Section Readers.
Context {ET : EngineTypes} {E : Engine}.

Lemma probe_chain_tag_known (p : handle) (w w' : World) (tag : string) :
  probe_chain p w = Ok tag w' -> tag ∈ known_tags.
Proof.
  destruct (decide (p = NULL)) as [->|Hp].
  - unfold probe_chain, is_a, dynamic_cast, bind, ret. cbn.
    intros H; inversion H; subst. unfold known_tags. set_solver.
  - destruct (indexes w !! p) as [o|] eqn:Hlive.
    + rewrite (probe_chain_first_match _ _ _ Hp Hlive).
      intros H; inversion H; subst.
      unfold first_match, candidate_variants, known_tags.
      cbn [List.find fst snd].
      repeat (destruct (derives (dyn_class o) _); [set_solver|]).
      set_solver.
    + rewrite (probe_chain_dangling _ _ Hp Hlive). discriminate.
Qed.

Lemma report_fields (p : handle) (w w1 : World) (status : Z)
    (info : ReadInfo) :
  report p w = Ok (status, Some info) w1 ->
  w1 = w /\
  exists o tag,
    probe_chain p w = Ok tag w /\ indexes w !! p = Some o /\
    info = mkReadInfo p tag (d o) (metric_to_int (metric_type o)) (ntotal o).
Proof.
  unfold report, bind. intros Hrun.
  destruct (probe_chain p w) as [tag w2| |] eqn:Hchain; try discriminate.
  pose proof (probe_chain_world _ _ _ _ Hchain) as ->.
  unfold deref_index, ret in Hrun.
  destruct (indexes w !! p) as [o|] eqn:Hlive; [|discriminate].
  inversion Hrun; subst. eauto 6.
Qed.

Lemma faiss_read_index_report (filename : string) w info w1 :
  faiss_read_index filename w = Ok (0, Some info) w1 ->
  exists p w0,
    engine (read_index_file filename) w = Ok p w0 /\
    report p w0 = Ok (0, Some info) w1.
Proof.
  intros Hrun. apply catch_success_inv in Hrun.
  rewrite faiss_read_index_try_report in Hrun. unfold bind in Hrun.
  destruct (engine (read_index_file filename) w) as [p w0| |];
    try discriminate.
  eauto.
Qed.

Lemma faiss_deserialize_index_report (data : list Byte.byte) (size : Z)
    w info w1 :
  faiss_deserialize_index data size w = Ok (0, Some info) w1 ->
  exists p w0 wa,
    0 <= size <= Z.of_nat (length data) /\
    engine (Local_VectorIOReader size) w = Ok tt wa /\
    engine (read_index_reader (take (Z.to_nat size) data)) wa = Ok p w0 /\
    report p w0 = Ok (0, Some info) w1.
Proof.
  intros Hrun. apply catch_success_inv in Hrun.
  rewrite faiss_deserialize_index_try_report in Hrun. unfold bind in Hrun.
  destruct (engine (Local_VectorIOReader size) w) as [[] wa| |];
    try discriminate.
  destruct (decide (0 <= size <= Z.of_nat (length data))) as [Hsize|_];
    [|discriminate].
  destruct (engine (read_index_reader _) wa) as [p w0| |] eqn:Hread;
    try discriminate.
  eauto 8.
Qed.

Lemma known_tags_short (tag : string) :
  tag ∈ known_tags -> (String.length tag <= 13)%nat.
Proof.
  unfold known_tags. rewrite !elem_of_cons, elem_of_nil.
  intros [->|[->|[->|[->|[->|[->|[->|[->|[]]]]]]]]]; cbn; lia.
Qed.

(** X7.  A reader that succeeds writes one of eight tags into the
    caller's [index_type] buffer, each of at most 13 characters: 14 bytes
    are always enough for the string and its terminator. *)
Theorem reader_tag_is_known
    (filename : string) (data : list Byte.byte) (size : Z)
    (w w1 : World) (info : ReadInfo) :
  faiss_read_index filename w = Ok (0, Some info) w1 \/
  faiss_deserialize_index data size w = Ok (0, Some info) w1 ->
  ri_index_type info ∈ known_tags /\
  (String.length (ri_index_type info) <= 13)%nat.
Proof.
  intros Hrun.
  assert (exists p w0, report p w0 = Ok (0, Some info) w1)
    as (p & w0 & Hreport).
  { destruct Hrun as [Hrun|Hrun].
    - apply faiss_read_index_report in Hrun as (p & w0 & _ & H). eauto.
    - apply faiss_deserialize_index_report in Hrun
        as (p & w0 & wa & _ & _ & _ & H). eauto. }
  apply report_fields in Hreport as (_ & o & tag & Hchain & _ & ->).
  cbn [ri_index_type]. apply probe_chain_tag_known in Hchain.
  split; [exact Hchain|]. apply known_tags_short. exact Hchain.
Qed.

(** X8.  What a reader that succeeds reports as d and ntotal is what the
    accessors answer on the handle it delivers, in the world it leaves. *)
Theorem reader_report_matches_accessors
    (filename : string) (data : list Byte.byte) (size : Z)
    (w w1 : World) (info : ReadInfo) :
  faiss_read_index filename w = Ok (0, Some info) w1 \/
  faiss_deserialize_index data size w = Ok (0, Some info) w1 ->
  faiss_Index_d (ri_index info) w1 = Ok (ri_d info) w1 /\
  faiss_Index_ntotal (ri_index info) w1 = Ok (ri_ntotal info) w1.
Proof.
  intros Hrun.
  assert (exists p w0, report p w0 = Ok (0, Some info) w1)
    as (p & w0 & Hreport).
  { destruct Hrun as [Hrun|Hrun].
    - apply faiss_read_index_report in Hrun as (p & w0 & _ & H). eauto.
    - apply faiss_deserialize_index_report in Hrun
        as (p & w0 & wa & _ & _ & _ & H). eauto. }
  apply report_fields in Hreport as (-> & o & tag & _ & Hlive & ->).
  cbn [ri_index ri_d ri_ntotal].
  unfold faiss_Index_d, faiss_Index_ntotal, bind, deref_index, ret.
  rewrite Hlive. split; reflexivity.
Qed.

(** X9.  [faiss_deserialize_index] reads the first [size] bytes of the
    buffer and nothing after them: bytes that follow do not change what
    it does. *)
Theorem deserialize_reads_size_bytes
    (data extra : list Byte.byte) (size : Z) (w : World) :
  0 <= size <= Z.of_nat (length data) ->
  faiss_deserialize_index (data ++ extra) size w =
  faiss_deserialize_index data size w.
Proof.
  intros Hsize. unfold faiss_deserialize_index, CATCH_AND_HANDLE, catch.
  rewrite !faiss_deserialize_index_try_report. unfold bind.
  destruct (engine (Local_VectorIOReader size) w) as [[] wa| |];
    try reflexivity.
  rewrite length_app.
  destruct (decide (0 <= size <= Z.of_nat (length data))) as [_|?];
    [|contradiction].
  destruct (decide (0 <= size <= Z.of_nat (length data + length extra)))
    as [_|Hno]; [|exfalso; apply Hno; lia].
  rewrite take_app_le by lia. reflexivity.
Qed.

(** X10.  [faiss_serialize_index] returns either -1 with nothing
    delivered, or 0 with exactly the bytes the engine wrote for the index
    and a size that is their number. *)
Theorem serialize_delivers_engine_bytes
    (index : handle) (w w1 : World)
    (r : Z * option (list Byte.byte * Z)) :
  faiss_serialize_index index w = Ok r w1 ->
  r = (-1, None) \/
  exists data wa,
    r = (0, Some (data, Z.of_nat (length data))) /\
    engine (write_index_writer index) w = Ok data wa /\
    engine (Malloc (Z.of_nat (length data))) wa = Ok true w1.
Proof.
  intros Hrun. apply CATCH_AND_HANDLE_inv in Hrun as [Hrun|[_ ->]];
    [|left; reflexivity].
  right. unfold faiss_serialize_index_try, bind, ret, undefined in Hrun.
  destruct (engine (write_index_writer index) w) as [data wa| |] eqn:Hwrite;
    try discriminate.
  destruct (engine (Malloc _) wa) as [[] wm| |] eqn:Hmalloc;
    try discriminate.
  inversion Hrun; subst. eauto.
Qed.

End Readers.

(** ** The clustering job *)

Section KmeansJob.
Context {ET : EngineTypes} {E : Engine}.

(** X11.  On a live job [faiss_Kmeans_get_centroids] copies k * d floats
    out of the centroid vector: it returns 0 with exactly that many, the
    whole vector when the job holds k * d centroids' worth; when the
    vector is shorter (an untrained job) the copy runs past its end and
    the call has no defined result. *)
Theorem kmeans_get_centroids_copies_k_times_d (kmeans : handle)
    (km : Clustering) (w : World) :
  clusterings w !! kmeans = Some km ->
  (0 <= ck km * cd km <= Z.of_nat (length (centroids km)) ->
     exists out,
       faiss_Kmeans_get_centroids kmeans w = Ok (0, Some out) w /\
       out = take (Z.to_nat (ck km * cd km)) (centroids km) /\
       Z.of_nat (length out) = ck km * cd km /\
       (Z.of_nat (length (centroids km)) = ck km * cd km ->
        out = centroids km))
  /\ (Z.of_nat (length (centroids km)) < ck km * cd km ->
        faiss_Kmeans_get_centroids kmeans w = UB).
Proof.
  intros Hlive. split.
  - intros Hlen. eexists. split; [|split; [reflexivity|split]].
    + apply CATCH_AND_HANDLE_Ok. unfold faiss_Kmeans_get_centroids_try.
      unfold bind, deref_clustering. rewrite Hlive.
      destruct (decide _) as [_|?]; [reflexivity|contradiction].
    + rewrite length_take. lia.
    + intros Hall. apply take_ge. lia.
  - intros Hshort. apply CATCH_AND_HANDLE_UB.
    unfold faiss_Kmeans_get_centroids_try, bind, deref_clustering.
    rewrite Hlive. destruct (decide _) as [?|_]; [lia|reflexivity].
Qed.

(** X12.  On a live job each of the three setters returns 0 and stores its
    value (the iteration count as given, verbose as whether the argument
    is nonzero, the seed cut to 32 bits, hence as given when it fits an
    int); d, k and the centroids of the job, every other job and the
    indexes stay as they were, so [faiss_Kmeans_get_centroids] answers
    as before. *)
Theorem kmeans_setters_keep_centroids (s : KmeansSetter) (kmeans : handle)
    (km : Clustering) (w : World) :
  clusterings w !! kmeans = Some km ->
  exists w' km',
    run_kmeans_setter s kmeans w = Ok 0 w' /\
    clusterings w' = <[kmeans := km']> (clusterings w) /\
    indexes w' = indexes w /\ engine_state w' = engine_state w /\
    cd km' = cd km /\ ck km' = ck km /\ centroids km' = centroids km /\
    match s with
    | kmeans_set_niter n =>
        niter km' = n /\ verbose km' = verbose km /\ seed km' = seed km
    | kmeans_set_verbose v =>
        verbose km' = bool_decide (v <> 0) /\
        niter km' = niter km /\ seed km' = seed km
    | kmeans_set_seed sd =>
        seed km' = to_int sd /\
        (- 2 ^ 31 <= sd < 2 ^ 31 -> seed km' = sd) /\
        niter km' = niter km /\ verbose km' = verbose km
    end /\
    value_of (faiss_Kmeans_get_centroids kmeans w') =
    value_of (faiss_Kmeans_get_centroids kmeans w).
Proof.
  intros Hlive.
  assert (forall km' w',
            w' = set_clusterings (<[kmeans := km']> (clusterings w)) w ->
            cd km' = cd km -> ck km' = ck km ->
            centroids km' = centroids km ->
            value_of (faiss_Kmeans_get_centroids kmeans w') =
            value_of (faiss_Kmeans_get_centroids kmeans w)) as Hget.
  { intros km' w' -> Hd Hk Hc.
    unfold faiss_Kmeans_get_centroids, CATCH_AND_HANDLE, catch,
      faiss_Kmeans_get_centroids_try, bind, deref_clustering.
    cbn [clusterings set_clusterings]. rewrite lookup_insert_eq, Hlive.
    rewrite Hd, Hk, Hc. destruct (decide _); reflexivity. }
  destruct s; cbn [run_kmeans_setter];
    eexists _, _;
    (split;
     [ apply CATCH_AND_HANDLE_Ok;
       unfold faiss_Kmeans_set_niter_try, faiss_Kmeans_set_verbose_try,
         faiss_Kmeans_set_seed_try, bind, deref_clustering;
       rewrite Hlive; reflexivity
     | ]);
    cbn [clusterings indexes engine_state set_clusterings cd ck centroids
         niter verbose seed];
    repeat (split; [reflexivity|]);
    (split; [|eapply Hget; reflexivity]);
    repeat split; apply to_int_small.
Qed.

(** X13.  [faiss_Kmeans_train] builds a Flat(L2) index of the job's
    dimension for the engine's optimizer and destroys it before it
    returns, on success and on a fault alike: the status is 0 or -1 and
    the world is the one the destructor leaves. *)
Theorem kmeans_train_releases_its_index (kmeans : handle) (km : Clustering)
    (n : Z) (x : list float) (index : handle) (w w1 w2 w3 : World) :
  clusterings w !! kmeans = Some km ->
  engine (Local_IndexFlatL2 (cd km)) w = Ok index w1 ->
  engine (Destroy_Local_IndexFlatL2 index) w2 = Ok tt w3 ->
  (engine (Clustering_train kmeans n x index) w1 = Ok tt w2 ->
     faiss_Kmeans_train kmeans n x w = Ok 0 w3)
  /\ (engine (Clustering_train kmeans n x index) w1 = Throw w2 ->
        faiss_Kmeans_train kmeans n x w = Ok (-1) w3).
Proof.
  intros Hlive Hnew Hdel.
  split; intros Htrain;
    unfold faiss_Kmeans_train, CATCH_AND_HANDLE, catch,
      faiss_Kmeans_train_try, bind, deref_clustering, scoped, ret;
    rewrite Hlive, Hnew, Htrain, Hdel; reflexivity.
Qed.

End KmeansJob.

(** ** Binary indexes *)

Section Binary.
Context {ET : EngineTypes} {E : Engine}.

(** X14.  On a live binary inverted-file handle the nprobe setter returns
    0 and stores the value as a size_t; ntotal and the trained flag, as
    the binary accessors report them (the flag as 0 or 1), and the
    float indexes stay as they were. *)
Theorem binary_nprobe_keeps_counts (index : handle) (o : IndexBinary)
    (nprobe' : Z) (w : World) :
  index <> NULL -> binaries w !! index = Some o ->
  derives (bdyn_class o) IndexBinaryIVF = true ->
  faiss_IndexBinary_ntotal index w = Ok (0, Some (bntotal o)) w /\
  exists w',
    faiss_IndexBinaryIVF_set_nprobe index nprobe' w = Ok 0 w' /\
    (bnprobe <$> binaries w' !! index) = Some (nprobe' mod 2 ^ 64) /\
    indexes w' = indexes w /\
    faiss_IndexBinary_ntotal index w' = Ok (0, Some (bntotal o)) w' /\
    faiss_IndexBinary_is_trained index w' =
      Ok (0, Some (if bis_trained o then 1 else 0)) w'.
Proof.
  intros Hp Hlive Hcls. split.
  - apply CATCH_AND_HANDLE_Ok.
    unfold faiss_IndexBinary_ntotal_try, bind, deref_binary.
    rewrite Hlive. reflexivity.
  - eexists. split; [|split; [|split; [|split]]].
    + apply CATCH_AND_HANDLE_Ok.
      unfold faiss_IndexBinaryIVF_set_nprobe_try, dynamic_cast_binary.
      destruct (decide (index = NULL)) as [?|_]; [contradiction|].
      unfold bind, deref_binary, ret. rewrite Hlive, Hcls. reflexivity.
    + cbn. rewrite lookup_insert_eq. reflexivity.
    + reflexivity.
    + apply CATCH_AND_HANDLE_Ok.
      unfold faiss_IndexBinary_ntotal_try, bind, deref_binary. cbn.
      rewrite lookup_insert_eq. reflexivity.
    + apply CATCH_AND_HANDLE_Ok.
      unfold faiss_IndexBinary_is_trained_try, bind, deref_binary. cbn.
      rewrite lookup_insert_eq. reflexivity.
Qed.

End Binary.

(** ** Entry points that fall back or ignore an argument *)

Section Fallbacks.
Context {ET : EngineTypes} {E : Engine}.

(** X15.  [faiss_IndexPQFastScan_new] is [faiss_IndexPQ_new]: it builds a
    plain IndexPQ from the same arguments.  [faiss_IndexPQFastScan_set_bbs]
    returns 0 for every handle, live or not, and touches nothing.
    [faiss_IndexShards_new] builds the same shard set whatever
    [metric_type] it is given. *)
Theorem fastscan_falls_back_to_pq :
  (forall d M nbits metric_type,
     faiss_IndexPQFastScan_new d M nbits metric_type =
     faiss_IndexPQ_new d M nbits metric_type)
  /\ (forall index bbs w, faiss_IndexPQFastScan_set_bbs index bbs w = Ok 0 w)
  /\ (forall d metric_type metric_type',
        faiss_IndexShards_new d metric_type =
        faiss_IndexShards_new d metric_type').
Proof. repeat split. Qed.

End Fallbacks.

(** ** The further properties at concrete inputs *)

Lemma nprobe_set_then_get_witness :
  exists w' : @World HeaderEngine.types,
    faiss_IndexIVF_set_nprobe (E := HeaderEngine.header_engine)
      1 (-1) variants_world = Ok 0 w' /\
    (@nprobe HeaderEngine.types <$> indexes w' !! 1) =
      Some (-1 mod 2 ^ 64) /\
    faiss_IndexIVF_get_nprobe (E := HeaderEngine.header_engine) 1 w' =
      Ok (0, Some (-1)) w'.
Proof.
  apply (nprobe_set_then_get (E := HeaderEngine.header_engine)
           1 ivf_index (-1) variants_world).
  - discriminate.
  - reflexivity.
  - reflexivity.
  - lia.
Defined.

Lemma hnsw_ef_set_then_get_witness :
  exists w' : @World HeaderEngine.types,
    faiss_IndexHNSW_set_efSearch (E := HeaderEngine.header_engine)
      2 64 variants_world = Ok 0 w' /\
    faiss_IndexHNSW_get_efSearch (E := HeaderEngine.header_engine) 2 w' =
      Ok (0, Some 64) w' /\
    faiss_IndexHNSW_get_efConstruction (E := HeaderEngine.header_engine)
      2 w' = Ok (0, Some (efConstruction hnsw_index)) w'.
Proof.
  apply (proj1 (hnsw_ef_set_then_get (E := HeaderEngine.header_engine)
                  2 hnsw_index 64 variants_world
                  ltac:(discriminate) eq_refl eq_refl)).
Defined.

Lemma setters_keep_headers_witness :
  headers_kept variants_world
    (set_indexes
       (<[2 := @mkIndex HeaderEngine.types IndexHNSWFlat 4 0 true
                 METRIC_L2 1 40 64 1]> (indexes variants_world))
       variants_world).
Proof.
  apply (setters_keep_headers (E := HeaderEngine.header_engine)
           (set_efSearch 64) 2 variants_world _ 0).
  reflexivity.
Defined.

Lemma setter_status_decides_family_witness :
  (-1 = 0 \/ -1 = -1) /\
  (-1 = 0 <->
   derives (Engine := HeaderEngine.header_engine)
     (dyn_class ivf_index) IndexHNSW = true).
Proof.
  apply (setter_status_decides_family (E := HeaderEngine.header_engine)
           (set_efSearch 64) 1 ivf_index variants_world variants_world
           (-1)).
  - reflexivity.
  - discriminate.
  - reflexivity.
Defined.

Lemma guarded_operations_reject_foreign_handles_witness :
  faiss_Index_assign (E := HeaderEngine.header_engine) 2 1 [0; 0; 0; 0]
    variants_world = Ok (-1, None) variants_world.
Proof.
  apply (proj1 (guarded_operations_reject_foreign_handles
                  (E := HeaderEngine.header_engine) 2 variants_world)).
  exists hnsw_index. split; reflexivity.
Defined.

Lemma reader_tag_is_known_witness :
  "IndexFlatL2"%string ∈ known_tags /\
  (String.length "IndexFlatL2" <= 13)%nat.
Proof.
  apply (reader_tag_is_known (E := HeaderEngine.header_engine)
           "flat.index" [] 0 flat_world_on_file flat_world_file_read
           (mkReadInfo 2 "IndexFlatL2" 4 1 10)).
  left. vm_compute. reflexivity.
Defined.

Lemma reader_report_matches_accessors_witness :
  faiss_Index_d 2 flat_world_read_back = Ok 4 flat_world_read_back /\
  faiss_Index_ntotal 2 flat_world_read_back = Ok 10 flat_world_read_back.
Proof.
  apply (reader_report_matches_accessors (E := HeaderEngine.header_engine)
           "flat.index" flat_bytes 15 flat_world flat_world_read_back
           (mkReadInfo 2 "IndexFlatL2" 4 1 10)).
  right. vm_compute. reflexivity.
Defined.

Lemma deserialize_reads_size_bytes_witness :
  faiss_deserialize_index (E := HeaderEngine.header_engine)
    (flat_bytes ++ [Byte.xff; Byte.xff]) 15 flat_world =
  faiss_deserialize_index (E := HeaderEngine.header_engine)
    flat_bytes 15 flat_world.
Proof.
  apply (deserialize_reads_size_bytes (E := HeaderEngine.header_engine)
           flat_bytes [Byte.xff; Byte.xff] 15 flat_world).
  vm_compute. split; discriminate.
Defined.

Lemma serialize_delivers_engine_bytes_witness :
  (0, Some (flat_bytes, 15)) = (-1, None) \/
  exists data (wa : @World HeaderEngine.types),
    (0, Some (flat_bytes, 15)) = (0, Some (data, Z.of_nat (length data))) /\
    engine (Engine := HeaderEngine.header_engine)
      (write_index_writer 1) flat_world = Ok data wa /\
    engine (Engine := HeaderEngine.header_engine)
      (Malloc (Z.of_nat (length data))) wa = Ok true flat_world.
Proof.
  apply (serialize_delivers_engine_bytes (E := HeaderEngine.header_engine)
           1 flat_world flat_world (0, Some (flat_bytes, 15))).
  vm_compute. reflexivity.
Defined.

Lemma kmeans_get_centroids_copies_k_times_d_witness :
  exists out,
    faiss_Kmeans_get_centroids 5
      header_kmeans_world = Ok (0, Some out) header_kmeans_world /\
    out = take (Z.to_nat (ck header_kmeans_job * cd header_kmeans_job))
            (centroids header_kmeans_job) /\
    Z.of_nat (length out) = ck header_kmeans_job * cd header_kmeans_job /\
    (Z.of_nat (length (centroids header_kmeans_job)) =
       ck header_kmeans_job * cd header_kmeans_job ->
     out = centroids header_kmeans_job).
Proof.
  apply (proj1 (kmeans_get_centroids_copies_k_times_d
                  5 header_kmeans_job header_kmeans_world eq_refl)).
  vm_compute. split; discriminate.
Defined.

Lemma kmeans_setters_keep_centroids_witness :
  exists (w' : @World HeaderEngine.types) km',
    run_kmeans_setter
      (kmeans_set_seed (2 ^ 32 + 7)) 5 header_kmeans_world = Ok 0 w' /\
    clusterings w' = <[5 := km']> (clusterings header_kmeans_world) /\
    indexes w' = indexes header_kmeans_world /\
    engine_state w' = engine_state header_kmeans_world /\
    cd km' = cd header_kmeans_job /\ ck km' = ck header_kmeans_job /\
    centroids km' = centroids header_kmeans_job /\
    (seed km' = to_int (2 ^ 32 + 7) /\
     (- 2 ^ 31 <= 2 ^ 32 + 7 < 2 ^ 31 -> seed km' = 2 ^ 32 + 7) /\
     niter km' = niter header_kmeans_job /\
     verbose km' = verbose header_kmeans_job) /\
    value_of (faiss_Kmeans_get_centroids 5 w') =
    value_of (faiss_Kmeans_get_centroids 5 header_kmeans_world).
Proof.
  apply (kmeans_setters_keep_centroids
           (kmeans_set_seed (2 ^ 32 + 7)) 5 header_kmeans_job
           header_kmeans_world).
  reflexivity.
Defined.

Lemma kmeans_train_releases_its_index_witness :
  faiss_Kmeans_train (E := spec_engine_Z) 5 3 [1; 1; 9; 9; 6; 6]
    kmeans_world =
  Ok (-1)
    (world_after
       (engine (Engine := spec_engine_Z) (Destroy_Local_IndexFlatL2 1)
          (world_after
             (engine (Engine := spec_engine_Z) (Local_IndexFlatL2 2)
                kmeans_world)))).
Proof.
  apply (proj2 (kmeans_train_releases_its_index (E := spec_engine_Z)
                  5 kmeans_job 3 [1; 1; 9; 9; 6; 6] 1 kmeans_world
                  (world_after
                     (engine (Engine := spec_engine_Z) (Local_IndexFlatL2 2)
                        kmeans_world))
                  (world_after
                     (engine (Engine := spec_engine_Z) (Local_IndexFlatL2 2)
                        kmeans_world))
                  _ eq_refl eq_refl eq_refl)).
  reflexivity.
Defined.

Lemma binary_nprobe_keeps_counts_witness :
  faiss_IndexBinary_ntotal 7
    binary_world = Ok (0, Some (bntotal binary_ivf_index)) binary_world /\
  exists w' : @World HeaderEngine.types,
    faiss_IndexBinaryIVF_set_nprobe (E := HeaderEngine.header_engine)
      7 4 binary_world = Ok 0 w' /\
    (bnprobe <$> binaries w' !! 7) = Some (4 mod 2 ^ 64) /\
    indexes w' = indexes binary_world /\
    faiss_IndexBinary_ntotal 7 w' =
      Ok (0, Some (bntotal binary_ivf_index)) w' /\
    faiss_IndexBinary_is_trained 7 w' =
      Ok (0, Some (if bis_trained binary_ivf_index then 1 else 0)) w'.
Proof.
  apply (binary_nprobe_keeps_counts (E := HeaderEngine.header_engine)
           7 binary_ivf_index 4 binary_world).
  - discriminate.
  - reflexivity.
  - reflexivity.
Defined.

(** ** More on the fault boundary, the builds and files *)

Section MoreBoundary.
Context {ET : EngineTypes} {E : Engine}.

(** X16.  A status of 0 from an entry point with a [try] block means that
    the block ran to its end without a fault and returned that status
    with those outputs: the handler never produces 0. *)
Theorem success_means_no_fault (op : Wrapped) (w w' : World) (outs : Outs) :
  wrapped_entry op w = Ok (0, outs) w' ->
  wrapped_try op w = Ok (0, outs) w'.
Proof.
  intros Hentry. pose proof (wrapped_handled op w) as H.
  unfold handled in H.
  destruct (wrapped_try op w) as [r w1|w1|].
  - rewrite H in Hentry. exact Hentry.
  - destruct H as (o & _ & H). rewrite H in Hentry. discriminate.
  - rewrite H in Hentry. discriminate.
Qed.

(** X17.  In the build with FAISS_GPU the two device index constructors
    choose the metric as the host constructors do, inner product for
    [metric_type = 0] and L2 otherwise, and [faiss_GpuIndexIVFFlat_new]
    builds the same index whatever quantizer it is given. *)
Theorem gpu_constructors_select_metric :
  (forall res d device,
     GpuBuild.faiss_GpuIndexFlat_new res d 0 device =
     constructs (New_GpuIndexFlat res d METRIC_INNER_PRODUCT device))
  /\ (forall res d metric_type device,
        metric_type <> 0 ->
        GpuBuild.faiss_GpuIndexFlat_new res d metric_type device =
        constructs (New_GpuIndexFlat res d METRIC_L2 device))
  /\ (forall res quantizer d nlist device,
        GpuBuild.faiss_GpuIndexIVFFlat_new res quantizer d nlist 0 device =
        constructs (New_GpuIndexIVFFlat res d nlist METRIC_INNER_PRODUCT
                      device))
  /\ (forall res quantizer d nlist metric_type device,
        metric_type <> 0 ->
        GpuBuild.faiss_GpuIndexIVFFlat_new res quantizer d nlist
          metric_type device =
        constructs (New_GpuIndexIVFFlat res d nlist METRIC_L2 device))
  /\ (forall res quantizer quantizer' d nlist metric_type device,
        GpuBuild.faiss_GpuIndexIVFFlat_new res quantizer d nlist
          metric_type device =
        GpuBuild.faiss_GpuIndexIVFFlat_new res quantizer' d nlist
          metric_type device).
Proof.
  split; [reflexivity|]. split.
  { intros res d metric_type device Hnz.
    unfold GpuBuild.faiss_GpuIndexFlat_new,
      GpuBuild.faiss_GpuIndexFlat_new_try, constructs.
    rewrite (metric_of_nonzero _ Hnz). reflexivity. }
  split; [reflexivity|]. split; [|reflexivity].
  intros res quantizer d nlist metric_type device Hnz.
  unfold GpuBuild.faiss_GpuIndexIVFFlat_new,
    GpuBuild.faiss_GpuIndexIVFFlat_new_try, constructs.
  rewrite (metric_of_nonzero _ Hnz). reflexivity.
Qed.

(** X18.  When an index is written to a file and the file is read right
    afterwards, both with success, and the engine's file format is stable
    for that index, the reader reports the d, metric and ntotal of the
    original and the tag the original's class is given, and the d,
    ntotal and is_trained accessors answer on the new handle as the
    original's members say. *)
Theorem write_read_round_trip
    (index : handle) (o : Index) (filename : string)
    (w w1 w2 : World) (info : ReadInfo) :
  indexes w !! index = Some o ->
  file_format_stable_for index filename w ->
  faiss_write_index index filename w = Ok 0 w1 ->
  faiss_read_index filename w1 = Ok (0, Some info) w2 ->
  ri_d info = d o /\
  ri_metric info = metric_to_int (metric_type o) /\
  ri_ntotal info = ntotal o /\
  ri_index_type info = first_match (dyn_class o) /\
  faiss_Index_d (ri_index info) w2 = Ok (d o) w2 /\
  faiss_Index_ntotal (ri_index info) w2 = Ok (ntotal o) w2 /\
  faiss_Index_is_trained (ri_index info) w2 =
    Ok (if is_trained o then 1 else 0) w2.
Proof.
  intros Hlive Hstable Hwrite Hread.
  apply CATCH_AND_HANDLE_inv in Hwrite as [Hwrite|[_ Hwrite]];
    [|discriminate].
  unfold faiss_write_index_try, bind, ret in Hwrite.
  destruct (engine (write_index_file index filename) w) as [[] wa| |]
    eqn:Hengine; try discriminate.
  inversion Hwrite; subst wa; clear Hwrite.
  apply faiss_read_index_report in Hread as (p & w0 & Hfile & Hreport).
  destruct (Hstable _ _ _ _ Hlive Hengine Hfile)
    as (Hp & o' & Hlive' & Hcls & Hd & Hn & Ht & Hm).
  apply report_fields in Hreport as (-> & o'' & tag & Hchain & Hlive'' & ->).
  rewrite Hlive' in Hlive''. inversion Hlive''; subst o''.
  rewrite (probe_chain_first_match _ _ _ Hp Hlive') in Hchain.
  inversion Hchain; subst tag.
  cbn [ri_d ri_metric ri_ntotal ri_index_type ri_index].
  unfold faiss_Index_d, faiss_Index_ntotal, faiss_Index_is_trained,
    bind, deref_index, ret.
  rewrite Hlive', Hcls, Hd, Hn, Ht, Hm. repeat split.
Qed.

End MoreBoundary.

Lemma success_means_no_fault_witness :
  wrapped_try (E := HeaderEngine.header_engine)
    (op_faiss_IndexHNSW_set_efSearch 2 64) variants_world =
  Ok (0, NoOutParams)
    (set_indexes
       (<[2 := @mkIndex HeaderEngine.types IndexHNSWFlat 4 0 true
                 METRIC_L2 1 40 64 1]> (indexes variants_world))
       variants_world).
Proof.
  apply (success_means_no_fault (E := HeaderEngine.header_engine)
           (op_faiss_IndexHNSW_set_efSearch 2 64) variants_world).
  reflexivity.
Defined.

Lemma gpu_constructors_select_metric_witness :
  GpuBuild.faiss_GpuIndexFlat_new (E := HeaderEngine.header_engine)
    9 4 3 0 =
  constructs (E := HeaderEngine.header_engine)
    (New_GpuIndexFlat 9 4 METRIC_L2 0).
Proof.
  apply (proj1 (proj2 (gpu_constructors_select_metric
                         (E := HeaderEngine.header_engine))) 9 4 3 0).
  discriminate.
Defined.

Lemma flat_world_file_format_stable :
  file_format_stable_for (E := HeaderEngine.header_engine)
    1 "flat.index" flat_world.
Proof.
  intros o w1 p w2 Hlive Hwrite Hread.
  vm_compute in Hlive. inversion Hlive; subst o; clear Hlive.
  assert (w1 = flat_world_on_file) as ->.
  { vm_compute in Hwrite. inversion Hwrite. reflexivity. }
  assert (p = 2 /\ w2 = flat_world_file_read) as [-> ->].
  { vm_compute in Hread. inversion Hread. split; reflexivity. }
  split; [discriminate|].
  exists flat_index. split; [reflexivity|]. repeat split.
Qed.

Lemma write_read_round_trip_witness :
  ri_d (mkReadInfo 2 "IndexFlatL2" 4 1 10) = d flat_index /\
  ri_metric (mkReadInfo 2 "IndexFlatL2" 4 1 10) =
    metric_to_int (metric_type flat_index) /\
  ri_ntotal (mkReadInfo 2 "IndexFlatL2" 4 1 10) = ntotal flat_index /\
  ri_index_type (mkReadInfo 2 "IndexFlatL2" 4 1 10) =
    first_match (H := HeaderEngine.header_engine) (dyn_class flat_index) /\
  faiss_Index_d 2 flat_world_file_read =
    Ok (d flat_index) flat_world_file_read /\
  faiss_Index_ntotal 2 flat_world_file_read =
    Ok (ntotal flat_index) flat_world_file_read /\
  faiss_Index_is_trained 2 flat_world_file_read =
    Ok (if is_trained flat_index then 1 else 0) flat_world_file_read.
Proof.
  apply (write_read_round_trip (E := HeaderEngine.header_engine)
           1 flat_index "flat.index" flat_world flat_world_on_file
           flat_world_file_read (mkReadInfo 2 "IndexFlatL2" 4 1 10)).
  - reflexivity.
  - exact flat_world_file_format_stable.
  - vm_compute. reflexivity.
  - vm_compute. reflexivity.
Defined.
